(** * The collector: request orchestration and deduplication

    A shallow embedding of [result.go] (package [colly]): the pipeline that
    takes a candidate URL, method and body, decides whether it may be
    fetched ([scrape], [requestCheck], [checkFilters], [checkRobots]),
    performs the fetch ([fetch]), re-applies the policy on every redirect
    ([checkRedirectFunc]) and routes the outcome through the registered
    callbacks ([handleOnError], [handleOnScraped], ...).

    Conventions of the embedding.
    - A Go [string] is a sequence of bytes; it is a [string] here and [==]
      is [String.eqb].
    - Go's [int] and [uint32] are [Z]; the only arithmetic is the atomic
      increment of the [uint32] counters, whose wrap-around is written out.
      The [uint64] fingerprint is a [Z] below [2^64].
    - [*Collector] is a pointer to a mutable struct: every operation is a
      computation over the collector state (see [Act] below).
    - User callbacks and the network are not code of the collector: a
      callback invocation and a round trip are recorded in an event log,
      and what the network answers is an explicit argument. *)

From Stdlib Require Import ZArith Lia Bool Ascii.
From stdpp Require Import gmap strings list.

Local Open Scope Z_scope.

(** ** Values shared by all operations *)

(** A parsed [*url.URL], represented by the fields and the results of the
    accessor methods that the collector reads. *)
Record URL : Type := mkURL {
  Scheme : string;
  Host : string;          (* host or host:port *)
  Path : string;
  RawQuery : string;
  url_String : string;    (* u.String() *)
  Hostname : string;      (* u.Hostname(): Host without the port *)
  EscapedPath : string;   (* u.EscapedPath() *)
  QueryEncode : string    (* u.Query().Encode() *)
}.

(** Go [error] values. The package-level sentinels keep their names; the
    other constructors are the error values that the code builds or
    receives. Errors produced by collaborators (URL parsers, the storage,
    the network, a user supplied [io.Seeker]) are opaque and carry their
    text only. *)
Inductive error : Type :=
  | ErrForbiddenDomain
  | ErrMissingURL
  | ErrMaxDepth
  | ErrForbiddenURL
  | ErrNoURLFiltersMatch
  | ErrRobotsTxtBlocked
  | ErrNoCookieJar
  | ErrNoPattern
  | ErrEmptyProxyURL
  | ErrAbortedAfterHeaders
  | ErrQueueFull
  | ErrMaxRequests
  | ErrRetryBodyUnseekable
  | AlreadyVisitedError (Destination : URL)
  | ErrNotFollowingRedirect (target : URL) (cause : error)
      (* fmt.Errorf("Not following redirect to %q: %w", req.URL, err) *)
  | ErrStatusText (StatusCode : Z)
      (* errors.New(http.StatusText(response.StatusCode)) *)
  | ErrUseLastResponse
      (* http.ErrUseLastResponse *)
  | UrlError (cause : error)
      (* the *url.Error in which http.Client wraps a failed exchange *)
  | ErrExternal (text : string).

(** The outcome of a call: a value, a returned error, or a run-time panic
    (index out of range, nil dereference). *)
Inductive result (A : Type) : Type :=
  | Ok (a : A)
  | Err (e : error)
  | Panic.
Arguments Ok {A} a.
Arguments Err {A} e.
Arguments Panic {A}.

(** A collaborator answers with a value or with the text of its error. *)
Definition lift_external {A : Type} (r : string + A) : result A :=
  match r with
  | inl text => Err (ErrExternal text)
  | inr a => Ok a
  end.

(** [x == nil] for a value that may be nil. *)
Definition isNil {A : Type} (x : option A) : bool :=
  match x with
  | None => true
  | Some _ => false
  end.

(** [*regexp.Regexp], represented by its [Match] method. *)
Definition Regexp : Type := string -> bool.

(** ** [http.Header] *)

(** [http.Header] is [map[string][]string]. *)
Abbreviation Header := (gmap string (list string)).

(** ** [hash/fnv]: the 64-bit FNV-1a hash *)

Module fnv.

Definition offset64 : Z := 14695981039346656037.
Definition prime64 : Z := 1099511628211.

Definition byte_val (b : Byte.byte) : Z := Z.of_N (Byte.to_N b).

(** [fnv.New64a()] *)
Definition New64a : Z := offset64.

(** One iteration of the [Write] method of [sum64a]:
    [hash ^= sum64a(c); hash *= prime64] on [uint64]. *)
Definition step (hash : Z) (c : Byte.byte) : Z :=
  (Z.lxor hash (byte_val c) * prime64) mod 2 ^ 64.

Definition Write (hash : Z) (data : list Byte.byte) : Z :=
  fold_left step data hash.

Definition Sum64 (hash : Z) : Z := hash.

(** The hash of a whole byte sequence. *)
Definition hash64a (data : list Byte.byte) : Z :=
  Sum64 (Write New64a data).

End fnv.

(** ** Readers: the [io.Reader] values handed to [scrape] *)

(** The dynamic type of a request body. [http.NewRequest] and the type
    assertion to [io.ReadSeeker] in [scrape] distinguish exactly these. *)
Inductive ReaderKind : Type :=
  | BytesBuffer                               (* *bytes.Buffer *)
  | BytesReader                               (* *bytes.Reader *)
  | StringsReader                             (* *strings.Reader *)
  | OtherSeeker (seekErr : option string)     (* any other io.ReadSeeker *)
  | OtherReader.                              (* any other io.Reader *)

(** A reader over [rd_data] whose next read starts at [rd_off]. *)
Record Reader : Type := mkReader {
  rd_kind : ReaderKind;
  rd_data : list Byte.byte;
  rd_off : nat
}.

(** The bytes a reader still delivers. *)
Definition unread (r : Reader) : list Byte.byte := drop (rd_off r) (rd_data r).

(** [_, ok := requestData.(io.ReadSeeker)] *)
Definition isReadSeeker (r : Reader) : bool :=
  match rd_kind r with
  | BytesReader | StringsReader | OtherSeeker _ => true
  | BytesBuffer | OtherReader => false
  end.

(** [seeker.Seek(0, io.SeekStart)] on a reader that is an [io.ReadSeeker]. *)
Definition Seek_start (r : Reader) : result Reader :=
  match rd_kind r with
  | OtherSeeker (Some text) => Err (ErrExternal text)
  | _ => Ok {| rd_kind := rd_kind r; rd_data := rd_data r; rd_off := 0%nat |}
  end.

(** ** [*http.Request] *)

(** [GetBody] when it is not nil: what a call of it returns, the bytes of a
    fresh copy of the body or the text of an error. *)
Definition GetBodyFunc : Type := (string + list Byte.byte)%type.

Record HttpRequest : Type := mkHttpRequest {
  hr_Method : string;
  hr_URL : URL;
  hr_Header : Header;
  hr_Host : string;
  hr_Body : option Reader;
  hr_GetBody : option GetBodyFunc
}.

(** ** What the collector uses of its libraries *)

(** A parsed robots.txt, [*robotstxt.RobotsData], represented by its
    [FindGroup] method; a group is represented by its [Test] method. *)
Definition RobotsGroup : Type := string -> bool.
Definition RobotsData : Type := string -> option RobotsGroup.

(** A parsed HTML document as [handleOnHTML] and [handleOnXML] use it: the
    [href] of its [base] element and the number of nodes a selector or an
    XPath query matches. *)
Record Document : Type := mkDocument {
  doc_base_href : option string;
  doc_count : string -> nat
}.

(** The library functions called by the collector whose code is not part of
    it. Each is a parameter of the development. *)
Class Platform : Type := mkPlatform {
  (** [urlParser.Parse(u)] of whatwg-url followed by [Href(false)], which is
      also what [String()] returns; [inl] is a parse error. *)
  urlParser_Parse : string -> string + string;
  (** [urlParser.ParseRef(base, ref)] followed by [Href(false)]. *)
  urlParser_ParseRef : string -> string -> string + string;
  (** [url.Parse] of net/url. *)
  url_Parse : string -> string + URL;
  (** The [Parse] method of a URL: a reference resolved against it. *)
  url_ResolveReference : URL -> string -> string + URL;
  (** [textproto.CanonicalMIMEHeaderKey], applied by [Header.Get],
      [Header.Set], [Header.Add] and [Header.Del] to their key. *)
  CanonicalMIMEHeaderKey : string -> string;
  (** [validMethod] of net/http. *)
  validMethod : string -> bool;
  (** [robotstxt.FromResponse] applied to status code and body. *)
  robotstxt_FromResponse : Z -> list Byte.byte -> string + RobotsData;
  (** [http.DetectContentType] *)
  http_DetectContentType : list Byte.byte -> string;
  (** [strings.ToLower] and [strings.TrimSpace] *)
  strings_ToLower : string -> string;
  strings_TrimSpace : string -> string;
  (** [goquery.NewDocumentFromReader], [htmlquery.Parse], [xmlquery.Parse] *)
  goquery_NewDocumentFromReader : list Byte.byte -> string + Document;
  htmlquery_Parse : list Byte.byte -> string + Document;
  xmlquery_Parse : list Byte.byte -> string + Document;
  (** The method [fixCharset] of a response, which is defined outside
      [result.go]: from the detect-charset flag, the default encoding, the
      headers and the body to the re-encoded body. *)
  fixCharset : bool -> string -> Header -> list Byte.byte -> string + list Byte.byte
}.

(** ** URL normalisation and the request fingerprint *)

Section Fingerprint.
Context `{Platform}.

Definition normalizeURL (u : string) : string :=
  match urlParser_Parse u with
  | inl _ => u
  | inr parsed => parsed
  end.

(** [body] is [None] for a nil [io.Reader]; otherwise it holds the bytes
    that [io.Copy] reads from it. *)
Definition requestHash (url : string) (body : option (list Byte.byte)) : Z :=
  let h := fnv.New64a in
  let h := fnv.Write h (String.list_byte_of_string (normalizeURL url)) in
  let h := match body with
           | Some bytes => fnv.Write h bytes
           | None => h
           end in
  fnv.Sum64 h.

End Fingerprint.

(** ** Operations of [http.Header] *)

Section HeaderOps.
Context `{Platform}.

(** [h.Get(key)]: the first value of the canonical key, or the empty
    string. *)
Definition Header_Get (h : Header) (key : string) : string :=
  match h !! CanonicalMIMEHeaderKey key with
  | Some (v :: _) => v
  | _ => EmptyString
  end.

(** [h.Set(key, value)] *)
Definition Header_Set (h : Header) (key value : string) : Header :=
  <[CanonicalMIMEHeaderKey key := [value]]> h.

(** [h.Add(key, value)] *)
Definition Header_Add (h : Header) (key value : string) : Header :=
  <[CanonicalMIMEHeaderKey key :=
      default [] (h !! CanonicalMIMEHeaderKey key) ++ [value]]> h.

(** [h.Del(key)] *)
Definition Header_Del (h : Header) (key : string) : Header :=
  delete (CanonicalMIMEHeaderKey key) h.

End HeaderOps.

(** ** Requests, responses and callbacks of the collector *)

(** [*Context]: the key/value bag carried from a request to its response. *)
Abbreviation Ctx := (gmap string string).

Record Request : Type := mkRequest {
  rq_URL : URL;
  rq_Headers : Header;     (* points to the header of the outbound request *)
  rq_Host : string;
  rq_Ctx : Ctx;
  rq_Depth : Z;
  rq_Method : string;
  rq_Body : option Reader;
  rq_ID : Z;
  rq_abort : bool;
  rq_baseURL : option URL;
  rq_ResponseCharacterEncoding : string
}.

Record Response : Type := mkResponse {
  rs_StatusCode : Z;
  rs_Body : list Byte.byte;
  rs_Ctx : option Ctx;
  rs_Request : option Request;
  rs_Headers : Header
}.

(** A registered callback is a function value of the user. A request
    callback and a response-headers callback receive the [*Request] and may
    change it (set [abort], edit the headers); the model keeps that effect.
    The other callbacks are known by name only.

    A callback is a closure and is free to call the methods of the
    collector ([Visit], [OnHTML], [OnHTMLDetach], ...). Such a call is a
    call of its own: it is not part of the call that invokes the
    callback, whose events list what the collector's own code does.
    Where a property of the state after a call needs that no such call
    is made meanwhile, its statement says so ([no_callbacks],
    [no_user_code]). *)
Record RequestCallback : Type := mkRequestCallback {
  rc_name : string;
  rc_run : Request -> Request
}.
Definition ResponseHeadersCallback : Type := RequestCallback.
Definition ResponseCallback : Type := string.
Definition ErrorCallback : Type := string.
Definition ScrapedCallback : Type := string.

Record htmlCallbackContainer : Type := mkHtmlCallbackContainer {
  Selector : string;
  html_Function : string
}.

Record xmlCallbackContainer : Type := mkXmlCallbackContainer {
  Query : string;
  xml_Function : string
}.

(** [func(req *http.Request, via []*http.Request) error]: the handler may
    change the request it is given. *)
Definition RedirectHandler : Type :=
  HttpRequest -> list HttpRequest -> HttpRequest * option error.

(** What an execution does that is visible outside the collector. *)
Inductive Event : Type :=
  | EvRoundTrip (req : HttpRequest)         (* a request is sent *)
  | EvOnRequest (f : string) (ID : Z)
  | EvOnResponseHeaders (f : string) (StatusCode : Z)
  | EvOnResponse (f : string)
  | EvOnHTML (f : string) (selector : string) (index : nat)
  | EvOnXML (f : string) (query : string) (index : nat)
  | EvOnError (f : string) (e : error)
  | EvOnScraped (f : string)
  | EvGoFetch (method url : string).        (* go c.fetch(...) is started *)

(** ** The storage interface *)

(** [storage.Storage], as far as the collector core uses it. The state of
    the storage is explicit. *)
Class Storage (S : Type) : Type := mkStorage {
  IsVisited : S -> Z -> string + bool;
  Visited : S -> Z -> S * option string
}.

(** The storage that [Init] installs, [storage.InMemoryStorage]: a set of
    fingerprints, which never fails. *)
Definition InMemoryStorage : Type := gset Z.

#[export] Instance InMemoryStorage_Storage : Storage InMemoryStorage := {|
  IsVisited s requestID := inr (bool_decide (requestID ∈ s));
  Visited s requestID := ({[requestID]} ∪ s, None)
|}.

(** ** The collector *)

Record Collector {S : Type} : Type := mkCollector {
  UserAgent : string;
  Headers : option Header;
  MaxDepth : Z;
  AllowedDomains : list string;
  DisallowedDomains : list string;
  DisallowedURLFilters : list Regexp;
  URLFilters : list Regexp;
  AllowURLRevisit : bool;
  MaxBodySize : Z;
  CacheDir : string;
  IgnoreRobotsTxt : bool;
  Async : bool;
  ParseHTTPErrorResponse : bool;
  ID : Z;
  DetectCharset : bool;
  redirectHandler : option RedirectHandler;
  CheckHead : bool;
  TraceHTTP : bool;
  MaxRequests : Z;
  store : S;
  robotsMap : gmap string RobotsData;
  htmlCallbacks : list htmlCallbackContainer;
  xmlCallbacks : list xmlCallbackContainer;
  requestCallbacks : list RequestCallback;
  responseCallbacks : list ResponseCallback;
  responseHeadersCallbacks : list ResponseHeadersCallback;
  errorCallbacks : list ErrorCallback;
  scrapedCallbacks : list ScrapedCallback;
  requestCount : Z;
  responseCount : Z;
  wg : Z                    (* the counter of the sync.WaitGroup *)
}.
Arguments Collector S : clear implicits.
Arguments mkCollector {S}.

(** Assignments to the fields that change while the collector runs. *)
Section Setters.
Context {S : Type}.
Implicit Type c : Collector S.

Definition set_store c (s : S) : Collector S :=
  mkCollector (UserAgent c) (Headers c) (MaxDepth c) (AllowedDomains c)
    (DisallowedDomains c) (DisallowedURLFilters c) (URLFilters c)
    (AllowURLRevisit c) (MaxBodySize c) (CacheDir c) (IgnoreRobotsTxt c)
    (Async c) (ParseHTTPErrorResponse c) (ID c) (DetectCharset c)
    (redirectHandler c) (CheckHead c) (TraceHTTP c) (MaxRequests c)
    s (robotsMap c) (htmlCallbacks c) (xmlCallbacks c)
    (requestCallbacks c) (responseCallbacks c)
    (responseHeadersCallbacks c) (errorCallbacks c) (scrapedCallbacks c)
    (requestCount c) (responseCount c) (wg c).

Definition set_robotsMap c (m : gmap string RobotsData) : Collector S :=
  mkCollector (UserAgent c) (Headers c) (MaxDepth c) (AllowedDomains c)
    (DisallowedDomains c) (DisallowedURLFilters c) (URLFilters c)
    (AllowURLRevisit c) (MaxBodySize c) (CacheDir c) (IgnoreRobotsTxt c)
    (Async c) (ParseHTTPErrorResponse c) (ID c) (DetectCharset c)
    (redirectHandler c) (CheckHead c) (TraceHTTP c) (MaxRequests c)
    (store c) m (htmlCallbacks c) (xmlCallbacks c)
    (requestCallbacks c) (responseCallbacks c)
    (responseHeadersCallbacks c) (errorCallbacks c) (scrapedCallbacks c)
    (requestCount c) (responseCount c) (wg c).

Definition set_requestCount c (n : Z) : Collector S :=
  mkCollector (UserAgent c) (Headers c) (MaxDepth c) (AllowedDomains c)
    (DisallowedDomains c) (DisallowedURLFilters c) (URLFilters c)
    (AllowURLRevisit c) (MaxBodySize c) (CacheDir c) (IgnoreRobotsTxt c)
    (Async c) (ParseHTTPErrorResponse c) (ID c) (DetectCharset c)
    (redirectHandler c) (CheckHead c) (TraceHTTP c) (MaxRequests c)
    (store c) (robotsMap c) (htmlCallbacks c) (xmlCallbacks c)
    (requestCallbacks c) (responseCallbacks c)
    (responseHeadersCallbacks c) (errorCallbacks c) (scrapedCallbacks c)
    n (responseCount c) (wg c).

Definition set_responseCount c (n : Z) : Collector S :=
  mkCollector (UserAgent c) (Headers c) (MaxDepth c) (AllowedDomains c)
    (DisallowedDomains c) (DisallowedURLFilters c) (URLFilters c)
    (AllowURLRevisit c) (MaxBodySize c) (CacheDir c) (IgnoreRobotsTxt c)
    (Async c) (ParseHTTPErrorResponse c) (ID c) (DetectCharset c)
    (redirectHandler c) (CheckHead c) (TraceHTTP c) (MaxRequests c)
    (store c) (robotsMap c) (htmlCallbacks c) (xmlCallbacks c)
    (requestCallbacks c) (responseCallbacks c)
    (responseHeadersCallbacks c) (errorCallbacks c) (scrapedCallbacks c)
    (requestCount c) n (wg c).

Definition set_wg c (n : Z) : Collector S :=
  mkCollector (UserAgent c) (Headers c) (MaxDepth c) (AllowedDomains c)
    (DisallowedDomains c) (DisallowedURLFilters c) (URLFilters c)
    (AllowURLRevisit c) (MaxBodySize c) (CacheDir c) (IgnoreRobotsTxt c)
    (Async c) (ParseHTTPErrorResponse c) (ID c) (DetectCharset c)
    (redirectHandler c) (CheckHead c) (TraceHTTP c) (MaxRequests c)
    (store c) (robotsMap c) (htmlCallbacks c) (xmlCallbacks c)
    (requestCallbacks c) (responseCallbacks c)
    (responseHeadersCallbacks c) (errorCallbacks c) (scrapedCallbacks c)
    (requestCount c) (responseCount c) n.

End Setters.

(** ** Computations over the collector *)

(** A method of [*Collector] reads and writes the collector, may return an
    error or panic, and leaves events behind. An error or a panic ends the
    computation; the state reached and the events so far are kept. *)
Definition Act (S A : Type) : Type :=
  Collector S -> result A * Collector S * list Event.

Section ActOps.
Context {S : Type}.

Definition ret {A : Type} (a : A) : Act S A :=
  fun c => (Ok a, c, []).

Definition bind {A B : Type} (m : Act S A) (k : A -> Act S B) : Act S B :=
  fun c =>
    match m c with
    | (Ok a, c1, ev1) =>
        match k a c1 with
        | (r, c2, ev2) => (r, c2, ev1 ++ ev2)
        end
    | (Err e, c1, ev1) => (Err e, c1, ev1)
    | (Panic, c1, ev1) => (Panic, c1, ev1)
    end.

Definition fail {A : Type} (e : error) : Act S A :=
  fun c => (Err e, c, []).

Definition panic {A : Type} : Act S A :=
  fun c => (Panic, c, []).

Definition get : Act S (Collector S) :=
  fun c => (Ok c, c, []).

Definition modify (f : Collector S -> Collector S) : Act S unit :=
  fun c => (Ok tt, f c, []).

Definition emit (evs : list Event) : Act S unit :=
  fun c => (Ok tt, c, evs).

(** A value or error that does not depend on the collector. *)
Definition lift {A : Type} (r : result A) : Act S A :=
  fun c => (r, c, []).

(** [v, err := m()] where the caller goes on after an error. *)
Definition attempt {A : Type} (m : Act S A) : Act S (error + A) :=
  fun c =>
    match m c with
    | (Ok a, c1, ev1) => (Ok (inr a), c1, ev1)
    | (Err e, c1, ev1) => (Ok (inl e), c1, ev1)
    | (Panic, c1, ev1) => (Panic, c1, ev1)
    end.

End ActOps.

Declare Scope act_scope.
Delimit Scope act_scope with act.
Notation "'let!' x ':=' m 'in' k" := (bind m (fun x => k))
  (at level 10, x name, m at level 100, k at level 200) : act_scope.
Notation "'run!' m 'in' k" := (bind m (fun _ => k))
  (at level 10, m at level 100, k at level 200) : act_scope.

(** How a Go function that returns only an [error] is read off an [Act]. *)
Definition returned_error {A : Type} (r : result A) : option error :=
  match r with
  | Err e => Some e
  | _ => None
  end.

(** ** The policy filter *)

(** [isMatchingFilter]: the loop returns at the first matching filter. *)
Fixpoint isMatchingFilter (fs : list Regexp) (d : string) : bool :=
  match fs with
  | [] => false
  | r :: fs' => if r d then true else isMatchingFilter fs' d
  end.

(** The loop [for _, d2 := range ds { if d2 == domain { return ... } }] of
    [isDomainAllowed]: whether it reaches its [return]. *)
Fixpoint rangeFindsDomain (ds : list string) (domain : string) : bool :=
  match ds with
  | [] => false
  | d2 :: ds' => if String.eqb d2 domain then true else rangeFindsDomain ds' domain
  end.

Section PolicyFilter.
Context {S : Type}.
Implicit Type c : Collector S.

Definition isDomainAllowed c (domain : string) : bool :=
  if rangeFindsDomain (DisallowedDomains c) domain then false
  else if (length (AllowedDomains c) =? 0)%nat then true
  else if rangeFindsDomain (AllowedDomains c) domain then true
  else false.

Definition checkFilters c (URL domain : string) : option error :=
  if (0 <? length (DisallowedURLFilters c))%nat
     && isMatchingFilter (DisallowedURLFilters c) URL
  then Some ErrForbiddenURL
  else if (0 <? length (URLFilters c))%nat
          && negb (isMatchingFilter (URLFilters c) URL)
  then Some ErrNoURLFiltersMatch
  else if negb (isDomainAllowed c domain)
  then Some ErrForbiddenDomain
  else None.

End PolicyFilter.

(** ** [http.NewRequest] *)

(** [http.NoBody] *)
Definition NoBody : Reader :=
  {| rd_kind := OtherReader; rd_data := []; rd_off := 0%nat |}.

Section NewRequest.
Context `{Platform}.

(** [http.NewRequest(method, url, body)] of net/http, as far as the
    collector depends on it: the method is validated, the URL parsed, and
    [GetBody] is set exactly for a [*bytes.Buffer], [*bytes.Reader] or
    [*strings.Reader], from a snapshot of what is unread at that moment;
    an empty snapshot makes body and [GetBody] the empty [NoBody]. *)
Definition http_NewRequest (method url : string) (body : option Reader)
  : result HttpRequest :=
  let method := if String.eqb method EmptyString then "GET"%string else method in
  if negb (validMethod method) then Err (ErrExternal "net/http: invalid method")
  else
    match url_Parse url with
    | inl text => Err (ErrExternal text)
    | inr u =>
        let getBody :=
          match body with
          | None => None
          | Some r =>
              match rd_kind r with
              | BytesBuffer | BytesReader | StringsReader => Some (inr (unread r))
              | OtherSeeker _ | OtherReader => None
              end
          end in
        let body' :=
          match getBody, body with
          | Some _, Some r =>
              if (length (unread r) =? 0)%nat then Some NoBody else body
          | _, _ => body
          end in
        Ok {| hr_Method := method; hr_URL := u; hr_Header := ∅;
              hr_Host := Host u; hr_Body := body'; hr_GetBody := getBody |}
    end.

End NewRequest.

(** ** The redirect interceptor *)

Section Redirect.
Context `{Platform} {S : Type} `{Storage S}.

(** [c.store.IsVisited(uHash)] *)
Definition store_IsVisited (uHash : Z) : Act S bool :=
  fun c => (lift_external (IsVisited (store c) uHash), c, []).

(** [c.store.Visited(uHash)] *)
Definition store_Visited (uHash : Z) : Act S unit :=
  fun c =>
    match Visited (store c) uHash with
    | (s', Some text) => (Err (ErrExternal text), set_store c s', [])
    | (s', None) => (Ok tt, set_store c s', [])
    end.

(** [body, err = getBody()] guarded by [getBody != nil]. *)
Definition reopenBody (getBody : option GetBodyFunc)
  : Act S (option (list Byte.byte)) :=
  match getBody with
  | None => ret None
  | Some reopened =>
      (let! body := lift (lift_external reopened) in ret (Some body))%act
  end.

(** The revisit check of the closure: the block guarded by
    [!c.AllowURLRevisit && !samePageRedirect]. *)
Definition redirectRevisit (req via0 : HttpRequest) : Act S unit :=
  (let! c := get in
   let samePageRedirect :=
     String.eqb (normalizeURL (url_String (hr_URL req)))
                (normalizeURL (url_String (hr_URL via0))) in
   if negb (AllowURLRevisit c) && negb samePageRedirect then
     let! body := reopenBody (hr_GetBody req) in
     let uHash := requestHash (url_String (hr_URL req)) body in
     let! visited := store_IsVisited uHash in
     if visited : bool then fail (AlreadyVisitedError (hr_URL req))
     else store_Visited uHash
   else ret tt)%act.

(** [req.Header.Del("Authorization")] *)
Definition delAuthorization (req : HttpRequest) : HttpRequest :=
  {| hr_Method := hr_Method req; hr_URL := hr_URL req;
     hr_Header := Header_Del (hr_Header req) "Authorization";
     hr_Host := hr_Host req; hr_Body := hr_Body req;
     hr_GetBody := hr_GetBody req |}.

(** The closure returned by [checkRedirectFunc]. Its value is the
    request [req] as the closure leaves it. *)
Definition checkRedirectFunc (req : HttpRequest) (via : list HttpRequest)
  : Act S HttpRequest :=
  (let! c := get in
   match checkFilters c (url_String (hr_URL req)) (Hostname (hr_URL req)) with
   | Some err => fail (ErrNotFollowingRedirect (hr_URL req) err)
   | None =>
     match via with
     | [] => panic                 (* via[0]: index out of range *)
     | via0 :: _ =>
       run! redirectRevisit req via0 in
       match redirectHandler c with
       | Some handler =>
           match handler req via with
           | (_, Some err) => fail err
           | (req', None) => ret req'
           end
       | None =>
           if (10 <=? length via)%nat then fail ErrUseLastResponse
           else
             match last via with
             | None => panic
             | Some lastRequest =>
                 if negb (String.eqb (Host (hr_URL req))
                                     (Host (hr_URL lastRequest)))
                 then ret (delAuthorization req)
                 else ret req
             end
       end
     end
   end)%act.

End Redirect.

(** ** The transport *)

(** What the network answers to one call of the HTTP client: the redirect
    responses in the order received, each with the request that net/http
    builds to follow it, and then the final response or a transport error.
    An execution that returns has received finitely many redirects, so
    every such execution is described by one [Exchange]. *)
Record Hop : Type := mkHop {
  hop_response : Response;     (* the 3xx response *)
  hop_request : HttpRequest    (* the request built for its Location *)
}.

Record Exchange : Type := mkExchange {
  x_hops : list Hop;
  x_final : string + Response
}.

Section Transport.
Context `{Platform} {S : Type} `{Storage S}.

(** Modelled from the spec: the redirect loop of the HTTP client that the
    backend owns ([c.backend.Client], whose [CheckRedirect] is set to
    [c.checkRedirectFunc()] by [Init] and [SetRedirectHandler]); the
    backend's code is not in [result.go]. Following sections 4.4b and 6:
    the interceptor is invoked for every redirect response with the new
    request and the chain of prior requests; an error of the interceptor
    ends the exchange and is surfaced, wrapped, as its error; the
    sentinel [ErrUseLastResponse] ends it with the redirect response
    itself. The result pairs the response with the request that obtained
    it when that is not the original one. *)
Fixpoint followRedirects (hops : list Hop) (final : string + Response)
    (via : list HttpRequest) (current : option HttpRequest)
  : Act S (Response * option HttpRequest) :=
  match hops with
  | [] =>
      match final with
      | inl text => fail (UrlError (ErrExternal text))
      | inr response => ret (response, current)
      end
  | hop :: hops' =>
      fun c =>
        match checkRedirectFunc (hop_request hop) via c with
        | (Ok req', c1, ev1) =>
            match (run! emit [EvRoundTrip req'] in
                   followRedirects hops' final (via ++ [req']) (Some req'))%act c1
            with
            | (r, c2, ev2) => (r, c2, ev1 ++ ev2)
            end
        | (Err ErrUseLastResponse, c1, ev1) =>
            (Ok (hop_response hop, current), c1, ev1)
        | (Err e, c1, ev1) => (Err (UrlError e), c1, ev1)
        | (Panic, c1, ev1) => (Panic, c1, ev1)
        end
  end.

(** Modelled from the spec: [c.backend.Client.Do(req)]. *)
Definition Client_Do (req : HttpRequest) (x : Exchange)
  : Act S (Response * option HttpRequest) :=
  (run! emit [EvRoundTrip req] in
   followRedirects (x_hops x) (x_final x) [req] None)%act.

(** [c.backend.Client.Get(url)] *)
Definition Client_Get (url : string) (x : Exchange) : Act S Response :=
  (let! req := lift (http_NewRequest "GET" url None) in
   let! answer := Client_Do req x in
   ret (fst answer))%act.

(** Modelled from the spec: [c.backend.Cache(req, c.MaxBodySize,
    checkHeadersFunc, c.CacheDir)] without a cache directory. Following
    sections 4.1 and 6: the call goes through the client; as soon as the
    headers of the final response are there, the headers-received
    callback is invoked with the final request, and if it returns false
    the body is not read and the call fails with
    [ErrAbortedAfterHeaders]. The callback is a closure: next to its
    boolean it yields the variables it captured, as it leaves them. *)
Definition backend_Cache {R : Type} (req : HttpRequest)
    (checkHeadersFunc : option HttpRequest -> Z -> Header -> Act S (bool * R))
    (x : Exchange) : Act S (Response * R) :=
  (let! answer := Client_Do req x in
   let response := fst answer in
   let! checked := checkHeadersFunc (snd answer) (rs_StatusCode response)
                                    (rs_Headers response) in
   if fst checked then ret (response, snd checked)
   else fail ErrAbortedAfterHeaders)%act.

End Transport.

(** ** Admission control *)

Section Admission.
Context `{Platform} {S : Type} `{Storage S}.

(** [checkRobots]. [x] is what the network answers if robots.txt of the
    host has to be fetched. *)
Definition checkRobots (u : URL) (x : Exchange) : Act S unit :=
  (let! c := get in
   let! robot :=
     match robotsMap c !! Host u with
     | Some robot => ret robot
     | None =>
         let! resp := Client_Get (Scheme u +:+ "://" +:+ Host u +:+ "/robots.txt") x in
         let! robot := lift (lift_external
                               (robotstxt_FromResponse (rs_StatusCode resp)
                                                       (rs_Body resp))) in
         run! modify (fun c => set_robotsMap c (<[Host u := robot]> (robotsMap c))) in
         ret robot
     end in
   match (robot : RobotsData) (UserAgent c) with
   | None => ret tt
   | Some uaGroup =>
       let eu := if negb (String.eqb (RawQuery u) EmptyString)
                 then EscapedPath u +:+ "?" +:+ QueryEncode u
                 else EscapedPath u in
       if negb (uaGroup eu) then fail ErrRobotsTxtBlocked else ret tt
   end)%act.

(** The revisit check of [requestCheck]: the block guarded by
    [checkRevisit && !c.AllowURLRevisit]. *)
Definition revisitBlock (parsedURL : URL) (method : string)
    (getBody : option GetBodyFunc) : Act S unit :=
  (let u := url_String parsedURL in
   if negb (String.eqb method "GET") && isNil getBody then ret tt
   else
     let! body := reopenBody getBody in
     let uHash := requestHash u body in
     let! visited := store_IsVisited uHash in
     if visited : bool then fail (AlreadyVisitedError parsedURL)
     else store_Visited uHash)%act.

(** [requestCheck]. [robots] is handed on to [checkRobots]. *)
Definition requestCheck (parsedURL : URL) (method : string)
    (getBody : option GetBodyFunc) (depth : Z) (checkRevisit : bool)
    (robots : Exchange) : Act S unit :=
  (let u := url_String parsedURL in
   let! c := get in
   if (0 <? MaxDepth c) && (MaxDepth c <? depth) then fail ErrMaxDepth
   else if (0 <? MaxRequests c) && (MaxRequests c <=? requestCount c)
   then fail ErrMaxRequests
   else
     match checkFilters c u (Hostname parsedURL) with
     | Some err => fail err
     | None =>
         run! (if negb (String.eqb method "HEAD") && negb (IgnoreRobotsTxt c)
               then checkRobots parsedURL robots
               else ret tt) in
         if checkRevisit && negb (AllowURLRevisit c)
         then revisitBlock parsedURL method getBody
         else ret tt
     end)%act.

End Admission.

(** ** String functions of package [strings] on bytes *)

(** [before, _, _ := strings.Cut(s, sep)] for a separator of one byte. *)
Fixpoint cutBefore (sep : Ascii.ascii) (s : string) : string :=
  match s with
  | EmptyString => EmptyString
  | String a s' => if Ascii.eqb a sep then EmptyString else String a (cutBefore sep s')
  end.

(** [strings.Contains(s, substr)] *)
Definition strings_Contains (s substr : string) : bool :=
  negb (isNil (String.index 0 substr s)).

(** [strings.HasSuffix(s, suffix)] *)
Definition strings_HasSuffix (s suffix : string) : bool :=
  (String.length suffix <=? String.length s)%nat
  && String.eqb (String.substring (String.length s - String.length suffix)
                                  (String.length suffix) s)
                suffix.

(** ** The response dispatcher *)

Section Dispatcher.
Context `{Platform} {S : Type} `{Storage S}.

(** [atomic.AddUint32(&c.requestCount, 1)] *)
Definition AddUint32_requestCount : Act S Z :=
  fun c =>
    let n := (requestCount c + 1) mod 2 ^ 32 in
    (Ok n, set_requestCount c n, []).

(** [atomic.AddUint32(&c.responseCount, 1)] *)
Definition AddUint32_responseCount : Act S Z :=
  fun c =>
    let n := (responseCount c + 1) mod 2 ^ 32 in
    (Ok n, set_responseCount c n, []).

(** The loop [for _, f := range fs { f(r) }] over callbacks that receive
    the request. *)
Fixpoint rangeRequestCallbacks (mk : string -> Event)
    (fs : list RequestCallback) (r : Request) : Act S Request :=
  match fs with
  | [] => ret r
  | f :: fs' =>
      (run! emit [mk (rc_name f)] in
       rangeRequestCallbacks mk fs' (rc_run f r))%act
  end.

Definition handleOnRequest (r : Request) : Act S Request :=
  (let! c := get in
   rangeRequestCallbacks (fun f => EvOnRequest f (rq_ID r))
                         (requestCallbacks c) r)%act.

Definition handleOnResponse (r : Response) : Act S unit :=
  (let! c := get in
   emit (map EvOnResponse (responseCallbacks c)))%act.

(** The callbacks receive a response whose [Request] is [request]. *)
Definition handleOnResponseHeaders (StatusCode : Z) (request : Request)
  : Act S Request :=
  (let! c := get in
   rangeRequestCallbacks (fun f => EvOnResponseHeaders f StatusCode)
                         (responseHeadersCallbacks c) request)%act.

Definition handleOnScraped (r : Response) : Act S unit :=
  (let! c := get in
   emit (map EvOnScraped (scrapedCallbacks c)))%act.

(** [handleOnError]; the value is the returned error. *)
Definition handleOnError (response : option Response) (err : option error)
    (request : Request) (ctx : Ctx) : Act S (option error) :=
  (let! c := get in
   let dispatch (err : error) : Act S (option error) :=
     run! emit (map (fun f => EvOnError f err) (errorCallbacks c)) in
     ret (Some err) in
   match err, response with
   | None, None =>
       if ParseHTTPErrorResponse c then ret None
       else panic                 (* response.StatusCode of a nil response *)
   | None, Some r =>
       if ParseHTTPErrorResponse c || (rs_StatusCode r <? 203) then ret None
       else dispatch (ErrStatusText (rs_StatusCode r))
   | Some err, _ => dispatch err
   end)%act.

(** [resp.Request.baseURL = baseURL] *)
Definition set_baseURL (resp : Response) (request : Request) (baseURL : URL)
  : Response :=
  {| rs_StatusCode := rs_StatusCode resp; rs_Body := rs_Body resp;
     rs_Ctx := rs_Ctx resp;
     rs_Request := Some
       {| rq_URL := rq_URL request; rq_Headers := rq_Headers request;
          rq_Host := rq_Host request; rq_Ctx := rq_Ctx request;
          rq_Depth := rq_Depth request; rq_Method := rq_Method request;
          rq_Body := rq_Body request; rq_ID := rq_ID request;
          rq_abort := rq_abort request; rq_baseURL := Some baseURL;
          rq_ResponseCharacterEncoding := rq_ResponseCharacterEncoding request |};
     rs_Headers := rs_Headers resp |}.

(** The events of one callback container: its function is called once
    for each matched node. *)
Definition htmlCalls (doc : Document) (cc : htmlCallbackContainer) : list Event :=
  map (EvOnHTML (html_Function cc) (Selector cc)) (seq 0 (doc_count doc (Selector cc))).

Definition xmlCalls (doc : Document) (cc : xmlCallbackContainer) : list Event :=
  map (EvOnXML (xml_Function cc) (Query cc)) (seq 0 (doc_count doc (Query cc))).

(** [handleOnHTML]; the value is the response as the call leaves it and
    the returned error. *)
Definition handleOnHTML (resp : Response) : Act S (Response * option error) :=
  (let! c := get in
   if (length (htmlCallbacks c) =? 0)%nat then ret (resp, None)
   else
     let contentType := Header_Get (rs_Headers resp) "Content-Type" in
     let contentType :=
       if String.eqb contentType EmptyString
       then http_DetectContentType (rs_Body resp)
       else contentType in
     let mediatype := cutBefore ";"%char contentType in
     let mediatype := strings_TrimSpace (strings_ToLower mediatype) in
     if negb (String.eqb mediatype "text/html"
              || String.eqb mediatype "application/xhtml+xml")
     then ret (resp, None)
     else
       match goquery_NewDocumentFromReader (rs_Body resp) with
       | inl text => ret (resp, Some (ErrExternal text))
       | inr doc =>
           match rs_Request resp with
           | None => panic
           | Some request =>
               let resp :=
                 match doc_base_href doc with
                 | None => resp
                 | Some href =>
                     match urlParser_ParseRef (url_String (rq_URL request)) href with
                     | inl _ => resp
                     | inr u =>
                         match url_Parse u with
                         | inl _ => resp
                         | inr baseURL => set_baseURL resp request baseURL
                         end
                     end
                 end in
               run! emit (concat (map (htmlCalls doc) (htmlCallbacks c))) in
               ret (resp, None)
           end
       end)%act.

(** [handleOnXML] *)
Definition handleOnXML (resp : Response) : Act S (Response * option error) :=
  (let! c := get in
   if (length (xmlCallbacks c) =? 0)%nat then ret (resp, None)
   else
     match rs_Request resp with
     | None => panic
     | Some request =>
         let contentType :=
           strings_ToLower (Header_Get (rs_Headers resp) "Content-Type") in
         let lowerPath := strings_ToLower (Path (rq_URL request)) in
         let isXMLFile := strings_HasSuffix lowerPath ".xml"
                          || strings_HasSuffix lowerPath ".xml.gz" in
         if negb (strings_Contains contentType "html")
            && (negb (strings_Contains contentType "xml") && negb isXMLFile)
         then ret (resp, None)
         else if strings_Contains contentType "html" then
           match htmlquery_Parse (rs_Body resp) with
           | inl text => ret (resp, Some (ErrExternal text))
           | inr doc =>
               let resp :=
                 match doc_base_href doc with
                 | None => resp
                 | Some href =>
                     match url_ResolveReference (rq_URL request) href with
                     | inl _ => resp
                     | inr baseURL => set_baseURL resp request baseURL
                     end
                 end in
               run! emit (concat (map (xmlCalls doc) (xmlCallbacks c))) in
               ret (resp, None)
           end
         else if strings_Contains contentType "xml" || isXMLFile then
           match xmlquery_Parse (rs_Body resp) with
           | inl text => ret (resp, Some (ErrExternal text))
           | inr doc =>
               run! emit (concat (map (xmlCalls doc) (xmlCallbacks c))) in
               ret (resp, None)
           end
         else ret (resp, None)
     end)%act.

End Dispatcher.

(** ** The orchestrator *)

(** What the network answers during one call of [scrape]: to the request
    for robots.txt, if one is made, and to the request itself. *)
Record Network : Type := mkNetwork {
  net_robots : Exchange;
  net_fetch : Exchange
}.

Section Orchestrator.
Context `{Platform} {S : Type} `{Storage S}.

(** [request.Headers = &req.Header]: the request of the collector and the
    outbound request share one header. *)
Definition with_Header (req : HttpRequest) (h : Header) : HttpRequest :=
  {| hr_Method := hr_Method req; hr_URL := hr_URL req; hr_Header := h;
     hr_Host := hr_Host req; hr_Body := hr_Body req;
     hr_GetBody := hr_GetBody req |}.

Definition with_Host (req : HttpRequest) (host : string) : HttpRequest :=
  {| hr_Method := hr_Method req; hr_URL := hr_URL req;
     hr_Header := hr_Header req; hr_Host := host; hr_Body := hr_Body req;
     hr_GetBody := hr_GetBody req |}.

(** The closure [checkHeadersFunc] of [fetch]. [redirected] is the final
    request when [req.URL != origURL]; the value is the result of the
    closure and the captured [request] as the closure leaves it. *)
Definition checkHeadersFunc (request : Request)
    (redirected : option HttpRequest) (statusCode : Z) (headers : Header)
  : Act S (bool * Request) :=
  (let request :=
     match redirected with
     | None => request
     | Some req =>
         {| rq_URL := hr_URL req; rq_Headers := hr_Header req;
            rq_Host := rq_Host request; rq_Ctx := rq_Ctx request;
            rq_Depth := rq_Depth request; rq_Method := rq_Method request;
            rq_Body := rq_Body request; rq_ID := rq_ID request;
            rq_abort := rq_abort request; rq_baseURL := rq_baseURL request;
            rq_ResponseCharacterEncoding := rq_ResponseCharacterEncoding request |}
     end in
   let! request := handleOnResponseHeaders statusCode request in
   ret (negb (rq_abort request), request))%act.

(** The part of [fetch] that follows a successful exchange, from
    [atomic.AddUint32(&c.responseCount, 1)] to the final [return err]. *)
Definition deliver (response : option Response) (request : Request)
    (ctx : Ctx) : Act S unit :=
  (let! _ := AddUint32_responseCount in
   match response with
   | None => panic          (* response.Ctx of a nil response *)
   | Some response =>
       let! c := get in
       match fixCharset (DetectCharset c)
                        (rq_ResponseCharacterEncoding request)
                        (rs_Headers response) (rs_Body response) with
       | inl text => fail (ErrExternal text)
       | inr body =>
           let response :=
             {| rs_StatusCode := rs_StatusCode response; rs_Body := body;
                rs_Ctx := Some ctx; rs_Request := Some request;
                rs_Headers := rs_Headers response |} in
           run! handleOnResponse response in
           let! html := handleOnHTML response in
           let response := fst html in
           run! match snd html with
                | Some err =>
                    let! _ := handleOnError (Some response) (Some err) request ctx in
                    ret tt
                | None => ret tt
                end in
           let! xml := handleOnXML response in
           let response := fst xml in
           let err := snd xml in
           run! match err with
                | Some err =>
                    let! _ := handleOnError (Some response) (Some err) request ctx in
                    ret tt
                | None => ret tt
                end in
           run! handleOnScraped response in
           match err with
           | Some err => fail err
           | None => ret tt
           end
       end
   end)%act.

(** The body of [fetch], before the deferred [c.wg.Done()]. Tracing
    ([TraceHTTP]), the proxy URL and the debugger are left out. *)
Definition fetch_body (u method : string) (depth : Z)
    (requestData : option Reader) (ctx : option Ctx) (hdr : Header)
    (req : HttpRequest) (x : Exchange) : Act S unit :=
  (let ctx := default ∅ ctx in
   let! id := AddUint32_requestCount in
   let req :=
     if String.eqb (Header_Get (hr_Header req) "Accept") EmptyString
     then with_Header req (Header_Set (hr_Header req) "Accept" "*/*")
     else req in
   let request :=
     {| rq_URL := hr_URL req; rq_Headers := hr_Header req;
        rq_Host := hr_Host req; rq_Ctx := ctx; rq_Depth := depth;
        rq_Method := method; rq_Body := requestData; rq_ID := id;
        rq_abort := false; rq_baseURL := None;
        rq_ResponseCharacterEncoding := EmptyString |} in
   let! request := handleOnRequest request in
   let req := with_Header req (rq_Headers request) in
   if rq_abort request then ret tt
   else
     let req :=
       if String.eqb method "POST"
          && String.eqb (Header_Get (hr_Header req) "Content-Type") EmptyString
       then with_Header req (Header_Add (hr_Header req) "Content-Type"
                                        "application/x-www-form-urlencoded")
       else req in
     let! answer := attempt (backend_Cache req (checkHeadersFunc request) x) in
     let response := match answer with inl _ => None | inr a => Some (fst a) end in
     let err := match answer with inl e => Some e | inr _ => None end in
     let request := match answer with inl _ => request | inr a => snd a end in
     let! err := handleOnError response err request ctx in
     match err with
     | Some err => fail err
     | None => deliver response request ctx
     end)%act.

(** [fetch]: [defer c.wg.Done()] runs on every way out. *)
Definition fetch (u method : string) (depth : Z)
    (requestData : option Reader) (ctx : option Ctx) (hdr : Header)
    (req : HttpRequest) (x : Exchange) : Act S unit :=
  fun c =>
    match fetch_body u method depth requestData ctx hdr req x c with
    | (r, c1, ev1) => (r, set_wg c1 (wg c1 - 1), ev1)
    end.

(** The loop of [scrape] that copies the default headers:
    [for k, v := range *c.Headers { for _, value := range v { hdr.Add(k, value) } }].
    Go leaves the order of the keys open; the values of a key keep theirs. *)
Definition copyHeaders (defaults : Header) : Header :=
  map_fold (fun k v hdr => fold_left (fun hdr value => Header_Add hdr k value) v hdr)
           ∅ defaults.

(** The headers of the outbound request as [scrape] computes them from
    its argument [hdr]. *)
Definition scrapeHeaders (c : Collector S) (hdr : option Header) : Header :=
  let hdr :=
    match hdr with
    | Some hdr => hdr
    | None =>
        match Headers c with
        | Some defaults => copyHeaders defaults
        | None => ∅
        end
    end in
  if isNil (hdr !! "User-Agent"%string)
  then Header_Set hdr "User-Agent" (UserAgent c)
  else hdr.

(** The body as [scrape] leaves it after the type assertion to
    [io.ReadSeeker] and the call of [Seek]. *)
Definition rewind (requestData : option Reader) : result (option Reader) :=
  match requestData with
  | None => Ok None
  | Some r =>
      if isReadSeeker r then
        match Seek_start r with
        | Ok r' => Ok (Some r')
        | Err e => Err e
        | Panic => Panic
        end
      else Ok (Some r)
  end.

(** [req.Header = hdr], and [req.Host] is the [Host] header if there
    is one. *)
Definition withHeaderAndHost (req : HttpRequest) (hdr : Header) : HttpRequest :=
  let req := with_Header req hdr in
  if negb (String.eqb (Header_Get hdr "Host") EmptyString)
  then with_Host req (Header_Get hdr "Host")
  else req.

(** The end of [scrape]: [c.wg.Add(1)], then [fetch] on a goroutine of
    its own when the collector is asynchronous and inline otherwise. *)
Definition startFetch (u method : string) (depth : Z)
    (requestData : option Reader) (ctx : option Ctx) (hdr : Header)
    (req : HttpRequest) (x : Exchange) : Act S unit :=
  (run! modify (fun c => set_wg c (wg c + 1)) in
   let! c := get in
   if Async c then emit [EvGoFetch method u]
   else fetch u method depth requestData ctx hdr req x)%act.

Definition scrape (u method : string) (depth : Z)
    (requestData : option Reader) (ctx : option Ctx) (hdr : option Header)
    (checkRevisit : bool) (net : Network) : Act S unit :=
  (let! parsedWhatwgURL := lift (lift_external (urlParser_Parse u)) in
   let! parsedURL := lift (lift_external (url_Parse parsedWhatwgURL)) in
   let! c := get in
   let hdr := scrapeHeaders c hdr in
   let! requestData := lift (rewind requestData) in
   let! req := lift (http_NewRequest method (url_String parsedURL) requestData) in
   let req := withHeaderAndHost req hdr in
   run! requestCheck parsedURL method (hr_GetBody req) depth checkRevisit
                     (net_robots net) in
   let u := url_String parsedURL in
   startFetch u method depth requestData ctx hdr req (net_fetch net))%act.

Definition Head (URL : string) (net : Network) : Act S unit :=
  scrape URL "HEAD" 1 None None None false net.

Definition Visit (URL : string) (net_head net_get : Network) : Act S unit :=
  (let! c := get in
   run! (if CheckHead c
         then scrape URL "HEAD" 1 None None None true net_head
         else ret tt) in
   scrape URL "GET" 1 None None None true net_get)%act.

Definition PostRaw (URL : string) (requestData : list Byte.byte)
    (net : Network) : Act S unit :=
  scrape URL "POST" 1
         (Some {| rd_kind := BytesReader; rd_data := requestData; rd_off := 0%nat |})
         None None true net.

(** [(c *Collector) Request] *)
Definition Request_ (method URL : string) (requestData : option Reader)
    (ctx : option Ctx) (hdr : option Header) (net : Network) : Act S unit :=
  scrape URL method 1 requestData ctx hdr true net.

End Orchestrator.

(** [Init]: the collector that [NewCollector()] returns when no option and
    no environment variable is set; [id] is the value drawn from
    [collectorCounter]. *)
Definition Init (id : Z) : Collector InMemoryStorage :=
  {| UserAgent := "colly - https://github.com/gocolly/colly/v2";
     Headers := None;
     MaxDepth := 0;
     AllowedDomains := [];
     DisallowedDomains := [];
     DisallowedURLFilters := [];
     URLFilters := [];
     AllowURLRevisit := false;
     MaxBodySize := 10 * 1024 * 1024;
     CacheDir := EmptyString;
     IgnoreRobotsTxt := true;
     Async := false;
     ParseHTTPErrorResponse := false;
     ID := id;
     DetectCharset := false;
     redirectHandler := None;
     CheckHead := false;
     TraceHTTP := false;
     MaxRequests := 0;
     store := ∅;
     robotsMap := ∅;
     htmlCallbacks := [];
     xmlCallbacks := [];
     requestCallbacks := [];
     responseCallbacks := [];
     responseHeadersCallbacks := [];
     errorCallbacks := [];
     scrapedCallbacks := [];
     requestCount := 0;
     responseCount := 0;
     wg := 0 |}.

(** ** Configuration

    The options of [NewCollector], the registration methods and plain
    assignments to exported fields, each as a function on the collector. *)
Module Options.
Section Options.
Context {S : Type}.

(** [Headers(headers)], given the header it builds *)
Definition Headers (headers : Header) (c : Collector S) : Collector S :=
match c with
| mkCollector
    x_UserAgent x_Headers x_MaxDepth x_AllowedDomains
    x_DisallowedDomains x_DisallowedURLFilters x_URLFilters
    x_AllowURLRevisit x_MaxBodySize x_CacheDir x_IgnoreRobotsTxt
    x_Async x_ParseHTTPErrorResponse x_ID x_DetectCharset
    x_redirectHandler x_CheckHead x_TraceHTTP x_MaxRequests
    x_store x_robotsMap x_htmlCallbacks x_xmlCallbacks
    x_requestCallbacks x_responseCallbacks
    x_responseHeadersCallbacks x_errorCallbacks x_scrapedCallbacks
    x_requestCount x_responseCount x_wg =>
  mkCollector
    x_UserAgent (Some headers) x_MaxDepth x_AllowedDomains
    x_DisallowedDomains x_DisallowedURLFilters x_URLFilters
    x_AllowURLRevisit x_MaxBodySize x_CacheDir x_IgnoreRobotsTxt
    x_Async x_ParseHTTPErrorResponse x_ID x_DetectCharset
    x_redirectHandler x_CheckHead x_TraceHTTP x_MaxRequests
    x_store x_robotsMap x_htmlCallbacks x_xmlCallbacks
    x_requestCallbacks x_responseCallbacks
    x_responseHeadersCallbacks x_errorCallbacks x_scrapedCallbacks
    x_requestCount x_responseCount x_wg
end.

(** [MaxDepth(depth)] *)
Definition MaxDepth (depth : Z) (c : Collector S) : Collector S :=
match c with
| mkCollector
    x_UserAgent x_Headers x_MaxDepth x_AllowedDomains
    x_DisallowedDomains x_DisallowedURLFilters x_URLFilters
    x_AllowURLRevisit x_MaxBodySize x_CacheDir x_IgnoreRobotsTxt
    x_Async x_ParseHTTPErrorResponse x_ID x_DetectCharset
    x_redirectHandler x_CheckHead x_TraceHTTP x_MaxRequests
    x_store x_robotsMap x_htmlCallbacks x_xmlCallbacks
    x_requestCallbacks x_responseCallbacks
    x_responseHeadersCallbacks x_errorCallbacks x_scrapedCallbacks
    x_requestCount x_responseCount x_wg =>
  mkCollector
    x_UserAgent x_Headers (depth) x_AllowedDomains
    x_DisallowedDomains x_DisallowedURLFilters x_URLFilters
    x_AllowURLRevisit x_MaxBodySize x_CacheDir x_IgnoreRobotsTxt
    x_Async x_ParseHTTPErrorResponse x_ID x_DetectCharset
    x_redirectHandler x_CheckHead x_TraceHTTP x_MaxRequests
    x_store x_robotsMap x_htmlCallbacks x_xmlCallbacks
    x_requestCallbacks x_responseCallbacks
    x_responseHeadersCallbacks x_errorCallbacks x_scrapedCallbacks
    x_requestCount x_responseCount x_wg
end.

(** [MaxRequests(max)] *)
Definition MaxRequests (max : Z) (c : Collector S) : Collector S :=
match c with
| mkCollector
    x_UserAgent x_Headers x_MaxDepth x_AllowedDomains
    x_DisallowedDomains x_DisallowedURLFilters x_URLFilters
    x_AllowURLRevisit x_MaxBodySize x_CacheDir x_IgnoreRobotsTxt
    x_Async x_ParseHTTPErrorResponse x_ID x_DetectCharset
    x_redirectHandler x_CheckHead x_TraceHTTP x_MaxRequests
    x_store x_robotsMap x_htmlCallbacks x_xmlCallbacks
    x_requestCallbacks x_responseCallbacks
    x_responseHeadersCallbacks x_errorCallbacks x_scrapedCallbacks
    x_requestCount x_responseCount x_wg =>
  mkCollector
    x_UserAgent x_Headers x_MaxDepth x_AllowedDomains
    x_DisallowedDomains x_DisallowedURLFilters x_URLFilters
    x_AllowURLRevisit x_MaxBodySize x_CacheDir x_IgnoreRobotsTxt
    x_Async x_ParseHTTPErrorResponse x_ID x_DetectCharset
    x_redirectHandler x_CheckHead x_TraceHTTP (max) x_store
    x_robotsMap x_htmlCallbacks x_xmlCallbacks x_requestCallbacks
    x_responseCallbacks x_responseHeadersCallbacks
    x_errorCallbacks x_scrapedCallbacks x_requestCount
    x_responseCount x_wg
end.

(** [AllowedDomains(domains...)] *)
Definition AllowedDomains (domains : list string) (c : Collector S) : Collector S :=
match c with
| mkCollector
    x_UserAgent x_Headers x_MaxDepth x_AllowedDomains
    x_DisallowedDomains x_DisallowedURLFilters x_URLFilters
    x_AllowURLRevisit x_MaxBodySize x_CacheDir x_IgnoreRobotsTxt
    x_Async x_ParseHTTPErrorResponse x_ID x_DetectCharset
    x_redirectHandler x_CheckHead x_TraceHTTP x_MaxRequests
    x_store x_robotsMap x_htmlCallbacks x_xmlCallbacks
    x_requestCallbacks x_responseCallbacks
    x_responseHeadersCallbacks x_errorCallbacks x_scrapedCallbacks
    x_requestCount x_responseCount x_wg =>
  mkCollector
    x_UserAgent x_Headers x_MaxDepth (domains) x_DisallowedDomains
    x_DisallowedURLFilters x_URLFilters x_AllowURLRevisit
    x_MaxBodySize x_CacheDir x_IgnoreRobotsTxt x_Async
    x_ParseHTTPErrorResponse x_ID x_DetectCharset
    x_redirectHandler x_CheckHead x_TraceHTTP x_MaxRequests
    x_store x_robotsMap x_htmlCallbacks x_xmlCallbacks
    x_requestCallbacks x_responseCallbacks
    x_responseHeadersCallbacks x_errorCallbacks x_scrapedCallbacks
    x_requestCount x_responseCount x_wg
end.

(** [DisallowedDomains(domains...)] *)
Definition DisallowedDomains (domains : list string) (c : Collector S) : Collector S :=
match c with
| mkCollector
    x_UserAgent x_Headers x_MaxDepth x_AllowedDomains
    x_DisallowedDomains x_DisallowedURLFilters x_URLFilters
    x_AllowURLRevisit x_MaxBodySize x_CacheDir x_IgnoreRobotsTxt
    x_Async x_ParseHTTPErrorResponse x_ID x_DetectCharset
    x_redirectHandler x_CheckHead x_TraceHTTP x_MaxRequests
    x_store x_robotsMap x_htmlCallbacks x_xmlCallbacks
    x_requestCallbacks x_responseCallbacks
    x_responseHeadersCallbacks x_errorCallbacks x_scrapedCallbacks
    x_requestCount x_responseCount x_wg =>
  mkCollector
    x_UserAgent x_Headers x_MaxDepth x_AllowedDomains (domains)
    x_DisallowedURLFilters x_URLFilters x_AllowURLRevisit
    x_MaxBodySize x_CacheDir x_IgnoreRobotsTxt x_Async
    x_ParseHTTPErrorResponse x_ID x_DetectCharset
    x_redirectHandler x_CheckHead x_TraceHTTP x_MaxRequests
    x_store x_robotsMap x_htmlCallbacks x_xmlCallbacks
    x_requestCallbacks x_responseCallbacks
    x_responseHeadersCallbacks x_errorCallbacks x_scrapedCallbacks
    x_requestCount x_responseCount x_wg
end.

(** [DisallowedURLFilters(filters...)] *)
Definition DisallowedURLFilters (filters : list Regexp) (c : Collector S) : Collector S :=
match c with
| mkCollector
    x_UserAgent x_Headers x_MaxDepth x_AllowedDomains
    x_DisallowedDomains x_DisallowedURLFilters x_URLFilters
    x_AllowURLRevisit x_MaxBodySize x_CacheDir x_IgnoreRobotsTxt
    x_Async x_ParseHTTPErrorResponse x_ID x_DetectCharset
    x_redirectHandler x_CheckHead x_TraceHTTP x_MaxRequests
    x_store x_robotsMap x_htmlCallbacks x_xmlCallbacks
    x_requestCallbacks x_responseCallbacks
    x_responseHeadersCallbacks x_errorCallbacks x_scrapedCallbacks
    x_requestCount x_responseCount x_wg =>
  mkCollector
    x_UserAgent x_Headers x_MaxDepth x_AllowedDomains
    x_DisallowedDomains (filters) x_URLFilters x_AllowURLRevisit
    x_MaxBodySize x_CacheDir x_IgnoreRobotsTxt x_Async
    x_ParseHTTPErrorResponse x_ID x_DetectCharset
    x_redirectHandler x_CheckHead x_TraceHTTP x_MaxRequests
    x_store x_robotsMap x_htmlCallbacks x_xmlCallbacks
    x_requestCallbacks x_responseCallbacks
    x_responseHeadersCallbacks x_errorCallbacks x_scrapedCallbacks
    x_requestCount x_responseCount x_wg
end.

(** [URLFilters(filters...)] *)
Definition URLFilters (filters : list Regexp) (c : Collector S) : Collector S :=
match c with
| mkCollector
    x_UserAgent x_Headers x_MaxDepth x_AllowedDomains
    x_DisallowedDomains x_DisallowedURLFilters x_URLFilters
    x_AllowURLRevisit x_MaxBodySize x_CacheDir x_IgnoreRobotsTxt
    x_Async x_ParseHTTPErrorResponse x_ID x_DetectCharset
    x_redirectHandler x_CheckHead x_TraceHTTP x_MaxRequests
    x_store x_robotsMap x_htmlCallbacks x_xmlCallbacks
    x_requestCallbacks x_responseCallbacks
    x_responseHeadersCallbacks x_errorCallbacks x_scrapedCallbacks
    x_requestCount x_responseCount x_wg =>
  mkCollector
    x_UserAgent x_Headers x_MaxDepth x_AllowedDomains
    x_DisallowedDomains x_DisallowedURLFilters (filters)
    x_AllowURLRevisit x_MaxBodySize x_CacheDir x_IgnoreRobotsTxt
    x_Async x_ParseHTTPErrorResponse x_ID x_DetectCharset
    x_redirectHandler x_CheckHead x_TraceHTTP x_MaxRequests
    x_store x_robotsMap x_htmlCallbacks x_xmlCallbacks
    x_requestCallbacks x_responseCallbacks
    x_responseHeadersCallbacks x_errorCallbacks x_scrapedCallbacks
    x_requestCount x_responseCount x_wg
end.

(** [AllowURLRevisit()] *)
Definition AllowURLRevisit  (c : Collector S) : Collector S :=
match c with
| mkCollector
    x_UserAgent x_Headers x_MaxDepth x_AllowedDomains
    x_DisallowedDomains x_DisallowedURLFilters x_URLFilters
    x_AllowURLRevisit x_MaxBodySize x_CacheDir x_IgnoreRobotsTxt
    x_Async x_ParseHTTPErrorResponse x_ID x_DetectCharset
    x_redirectHandler x_CheckHead x_TraceHTTP x_MaxRequests
    x_store x_robotsMap x_htmlCallbacks x_xmlCallbacks
    x_requestCallbacks x_responseCallbacks
    x_responseHeadersCallbacks x_errorCallbacks x_scrapedCallbacks
    x_requestCount x_responseCount x_wg =>
  mkCollector
    x_UserAgent x_Headers x_MaxDepth x_AllowedDomains
    x_DisallowedDomains x_DisallowedURLFilters x_URLFilters (true)
    x_MaxBodySize x_CacheDir x_IgnoreRobotsTxt x_Async
    x_ParseHTTPErrorResponse x_ID x_DetectCharset
    x_redirectHandler x_CheckHead x_TraceHTTP x_MaxRequests
    x_store x_robotsMap x_htmlCallbacks x_xmlCallbacks
    x_requestCallbacks x_responseCallbacks
    x_responseHeadersCallbacks x_errorCallbacks x_scrapedCallbacks
    x_requestCount x_responseCount x_wg
end.

(** [ParseHTTPErrorResponse()] *)
Definition ParseHTTPErrorResponse  (c : Collector S) : Collector S :=
match c with
| mkCollector
    x_UserAgent x_Headers x_MaxDepth x_AllowedDomains
    x_DisallowedDomains x_DisallowedURLFilters x_URLFilters
    x_AllowURLRevisit x_MaxBodySize x_CacheDir x_IgnoreRobotsTxt
    x_Async x_ParseHTTPErrorResponse x_ID x_DetectCharset
    x_redirectHandler x_CheckHead x_TraceHTTP x_MaxRequests
    x_store x_robotsMap x_htmlCallbacks x_xmlCallbacks
    x_requestCallbacks x_responseCallbacks
    x_responseHeadersCallbacks x_errorCallbacks x_scrapedCallbacks
    x_requestCount x_responseCount x_wg =>
  mkCollector
    x_UserAgent x_Headers x_MaxDepth x_AllowedDomains
    x_DisallowedDomains x_DisallowedURLFilters x_URLFilters
    x_AllowURLRevisit x_MaxBodySize x_CacheDir x_IgnoreRobotsTxt
    x_Async (true) x_ID x_DetectCharset x_redirectHandler
    x_CheckHead x_TraceHTTP x_MaxRequests x_store x_robotsMap
    x_htmlCallbacks x_xmlCallbacks x_requestCallbacks
    x_responseCallbacks x_responseHeadersCallbacks
    x_errorCallbacks x_scrapedCallbacks x_requestCount
    x_responseCount x_wg
end.

(** [DetectCharset()] *)
Definition DetectCharset  (c : Collector S) : Collector S :=
match c with
| mkCollector
    x_UserAgent x_Headers x_MaxDepth x_AllowedDomains
    x_DisallowedDomains x_DisallowedURLFilters x_URLFilters
    x_AllowURLRevisit x_MaxBodySize x_CacheDir x_IgnoreRobotsTxt
    x_Async x_ParseHTTPErrorResponse x_ID x_DetectCharset
    x_redirectHandler x_CheckHead x_TraceHTTP x_MaxRequests
    x_store x_robotsMap x_htmlCallbacks x_xmlCallbacks
    x_requestCallbacks x_responseCallbacks
    x_responseHeadersCallbacks x_errorCallbacks x_scrapedCallbacks
    x_requestCount x_responseCount x_wg =>
  mkCollector
    x_UserAgent x_Headers x_MaxDepth x_AllowedDomains
    x_DisallowedDomains x_DisallowedURLFilters x_URLFilters
    x_AllowURLRevisit x_MaxBodySize x_CacheDir x_IgnoreRobotsTxt
    x_Async x_ParseHTTPErrorResponse x_ID (true) x_redirectHandler
    x_CheckHead x_TraceHTTP x_MaxRequests x_store x_robotsMap
    x_htmlCallbacks x_xmlCallbacks x_requestCallbacks
    x_responseCallbacks x_responseHeadersCallbacks
    x_errorCallbacks x_scrapedCallbacks x_requestCount
    x_responseCount x_wg
end.

(** [CheckHead()] *)
Definition CheckHead  (c : Collector S) : Collector S :=
match c with
| mkCollector
    x_UserAgent x_Headers x_MaxDepth x_AllowedDomains
    x_DisallowedDomains x_DisallowedURLFilters x_URLFilters
    x_AllowURLRevisit x_MaxBodySize x_CacheDir x_IgnoreRobotsTxt
    x_Async x_ParseHTTPErrorResponse x_ID x_DetectCharset
    x_redirectHandler x_CheckHead x_TraceHTTP x_MaxRequests
    x_store x_robotsMap x_htmlCallbacks x_xmlCallbacks
    x_requestCallbacks x_responseCallbacks
    x_responseHeadersCallbacks x_errorCallbacks x_scrapedCallbacks
    x_requestCount x_responseCount x_wg =>
  mkCollector
    x_UserAgent x_Headers x_MaxDepth x_AllowedDomains
    x_DisallowedDomains x_DisallowedURLFilters x_URLFilters
    x_AllowURLRevisit x_MaxBodySize x_CacheDir x_IgnoreRobotsTxt
    x_Async x_ParseHTTPErrorResponse x_ID x_DetectCharset
    x_redirectHandler (true) x_TraceHTTP x_MaxRequests x_store
    x_robotsMap x_htmlCallbacks x_xmlCallbacks x_requestCallbacks
    x_responseCallbacks x_responseHeadersCallbacks
    x_errorCallbacks x_scrapedCallbacks x_requestCount
    x_responseCount x_wg
end.

(** [Async(a)] *)
Definition Async (a : bool) (c : Collector S) : Collector S :=
match c with
| mkCollector
    x_UserAgent x_Headers x_MaxDepth x_AllowedDomains
    x_DisallowedDomains x_DisallowedURLFilters x_URLFilters
    x_AllowURLRevisit x_MaxBodySize x_CacheDir x_IgnoreRobotsTxt
    x_Async x_ParseHTTPErrorResponse x_ID x_DetectCharset
    x_redirectHandler x_CheckHead x_TraceHTTP x_MaxRequests
    x_store x_robotsMap x_htmlCallbacks x_xmlCallbacks
    x_requestCallbacks x_responseCallbacks
    x_responseHeadersCallbacks x_errorCallbacks x_scrapedCallbacks
    x_requestCount x_responseCount x_wg =>
  mkCollector
    x_UserAgent x_Headers x_MaxDepth x_AllowedDomains
    x_DisallowedDomains x_DisallowedURLFilters x_URLFilters
    x_AllowURLRevisit x_MaxBodySize x_CacheDir x_IgnoreRobotsTxt
    (a) x_ParseHTTPErrorResponse x_ID x_DetectCharset
    x_redirectHandler x_CheckHead x_TraceHTTP x_MaxRequests
    x_store x_robotsMap x_htmlCallbacks x_xmlCallbacks
    x_requestCallbacks x_responseCallbacks
    x_responseHeadersCallbacks x_errorCallbacks x_scrapedCallbacks
    x_requestCount x_responseCount x_wg
end.

(** [c.IgnoreRobotsTxt = b] *)
Definition assign_IgnoreRobotsTxt (b : bool) (c : Collector S) : Collector S :=
match c with
| mkCollector
    x_UserAgent x_Headers x_MaxDepth x_AllowedDomains
    x_DisallowedDomains x_DisallowedURLFilters x_URLFilters
    x_AllowURLRevisit x_MaxBodySize x_CacheDir x_IgnoreRobotsTxt
    x_Async x_ParseHTTPErrorResponse x_ID x_DetectCharset
    x_redirectHandler x_CheckHead x_TraceHTTP x_MaxRequests
    x_store x_robotsMap x_htmlCallbacks x_xmlCallbacks
    x_requestCallbacks x_responseCallbacks
    x_responseHeadersCallbacks x_errorCallbacks x_scrapedCallbacks
    x_requestCount x_responseCount x_wg =>
  mkCollector
    x_UserAgent x_Headers x_MaxDepth x_AllowedDomains
    x_DisallowedDomains x_DisallowedURLFilters x_URLFilters
    x_AllowURLRevisit x_MaxBodySize x_CacheDir (b) x_Async
    x_ParseHTTPErrorResponse x_ID x_DetectCharset
    x_redirectHandler x_CheckHead x_TraceHTTP x_MaxRequests
    x_store x_robotsMap x_htmlCallbacks x_xmlCallbacks
    x_requestCallbacks x_responseCallbacks
    x_responseHeadersCallbacks x_errorCallbacks x_scrapedCallbacks
    x_requestCount x_responseCount x_wg
end.

(** [c.SetRedirectHandler(f)] *)
Definition SetRedirectHandler (f : RedirectHandler) (c : Collector S) : Collector S :=
match c with
| mkCollector
    x_UserAgent x_Headers x_MaxDepth x_AllowedDomains
    x_DisallowedDomains x_DisallowedURLFilters x_URLFilters
    x_AllowURLRevisit x_MaxBodySize x_CacheDir x_IgnoreRobotsTxt
    x_Async x_ParseHTTPErrorResponse x_ID x_DetectCharset
    x_redirectHandler x_CheckHead x_TraceHTTP x_MaxRequests
    x_store x_robotsMap x_htmlCallbacks x_xmlCallbacks
    x_requestCallbacks x_responseCallbacks
    x_responseHeadersCallbacks x_errorCallbacks x_scrapedCallbacks
    x_requestCount x_responseCount x_wg =>
  mkCollector
    x_UserAgent x_Headers x_MaxDepth x_AllowedDomains
    x_DisallowedDomains x_DisallowedURLFilters x_URLFilters
    x_AllowURLRevisit x_MaxBodySize x_CacheDir x_IgnoreRobotsTxt
    x_Async x_ParseHTTPErrorResponse x_ID x_DetectCharset (Some f)
    x_CheckHead x_TraceHTTP x_MaxRequests x_store x_robotsMap
    x_htmlCallbacks x_xmlCallbacks x_requestCallbacks
    x_responseCallbacks x_responseHeadersCallbacks
    x_errorCallbacks x_scrapedCallbacks x_requestCount
    x_responseCount x_wg
end.

(** [c.OnRequest(f)] *)
Definition OnRequest (f : RequestCallback) (c : Collector S) : Collector S :=
match c with
| mkCollector
    x_UserAgent x_Headers x_MaxDepth x_AllowedDomains
    x_DisallowedDomains x_DisallowedURLFilters x_URLFilters
    x_AllowURLRevisit x_MaxBodySize x_CacheDir x_IgnoreRobotsTxt
    x_Async x_ParseHTTPErrorResponse x_ID x_DetectCharset
    x_redirectHandler x_CheckHead x_TraceHTTP x_MaxRequests
    x_store x_robotsMap x_htmlCallbacks x_xmlCallbacks
    x_requestCallbacks x_responseCallbacks
    x_responseHeadersCallbacks x_errorCallbacks x_scrapedCallbacks
    x_requestCount x_responseCount x_wg =>
  mkCollector
    x_UserAgent x_Headers x_MaxDepth x_AllowedDomains
    x_DisallowedDomains x_DisallowedURLFilters x_URLFilters
    x_AllowURLRevisit x_MaxBodySize x_CacheDir x_IgnoreRobotsTxt
    x_Async x_ParseHTTPErrorResponse x_ID x_DetectCharset
    x_redirectHandler x_CheckHead x_TraceHTTP x_MaxRequests
    x_store x_robotsMap x_htmlCallbacks x_xmlCallbacks
    (x_requestCallbacks ++ [f]) x_responseCallbacks
    x_responseHeadersCallbacks x_errorCallbacks x_scrapedCallbacks
    x_requestCount x_responseCount x_wg
end.

(** [c.OnResponseHeaders(f)] *)
Definition OnResponseHeaders (f : ResponseHeadersCallback) (c : Collector S) : Collector S :=
match c with
| mkCollector
    x_UserAgent x_Headers x_MaxDepth x_AllowedDomains
    x_DisallowedDomains x_DisallowedURLFilters x_URLFilters
    x_AllowURLRevisit x_MaxBodySize x_CacheDir x_IgnoreRobotsTxt
    x_Async x_ParseHTTPErrorResponse x_ID x_DetectCharset
    x_redirectHandler x_CheckHead x_TraceHTTP x_MaxRequests
    x_store x_robotsMap x_htmlCallbacks x_xmlCallbacks
    x_requestCallbacks x_responseCallbacks
    x_responseHeadersCallbacks x_errorCallbacks x_scrapedCallbacks
    x_requestCount x_responseCount x_wg =>
  mkCollector
    x_UserAgent x_Headers x_MaxDepth x_AllowedDomains
    x_DisallowedDomains x_DisallowedURLFilters x_URLFilters
    x_AllowURLRevisit x_MaxBodySize x_CacheDir x_IgnoreRobotsTxt
    x_Async x_ParseHTTPErrorResponse x_ID x_DetectCharset
    x_redirectHandler x_CheckHead x_TraceHTTP x_MaxRequests
    x_store x_robotsMap x_htmlCallbacks x_xmlCallbacks
    x_requestCallbacks x_responseCallbacks
    (x_responseHeadersCallbacks ++ [f]) x_errorCallbacks
    x_scrapedCallbacks x_requestCount x_responseCount x_wg
end.

(** [c.OnResponse(f)] *)
Definition OnResponse (f : ResponseCallback) (c : Collector S) : Collector S :=
match c with
| mkCollector
    x_UserAgent x_Headers x_MaxDepth x_AllowedDomains
    x_DisallowedDomains x_DisallowedURLFilters x_URLFilters
    x_AllowURLRevisit x_MaxBodySize x_CacheDir x_IgnoreRobotsTxt
    x_Async x_ParseHTTPErrorResponse x_ID x_DetectCharset
    x_redirectHandler x_CheckHead x_TraceHTTP x_MaxRequests
    x_store x_robotsMap x_htmlCallbacks x_xmlCallbacks
    x_requestCallbacks x_responseCallbacks
    x_responseHeadersCallbacks x_errorCallbacks x_scrapedCallbacks
    x_requestCount x_responseCount x_wg =>
  mkCollector
    x_UserAgent x_Headers x_MaxDepth x_AllowedDomains
    x_DisallowedDomains x_DisallowedURLFilters x_URLFilters
    x_AllowURLRevisit x_MaxBodySize x_CacheDir x_IgnoreRobotsTxt
    x_Async x_ParseHTTPErrorResponse x_ID x_DetectCharset
    x_redirectHandler x_CheckHead x_TraceHTTP x_MaxRequests
    x_store x_robotsMap x_htmlCallbacks x_xmlCallbacks
    x_requestCallbacks (x_responseCallbacks ++ [f])
    x_responseHeadersCallbacks x_errorCallbacks x_scrapedCallbacks
    x_requestCount x_responseCount x_wg
end.

(** [c.OnHTML(goquerySelector, f)] *)
Definition OnHTML (goquerySelector : string) (f : string) (c : Collector S) : Collector S :=
match c with
| mkCollector
    x_UserAgent x_Headers x_MaxDepth x_AllowedDomains
    x_DisallowedDomains x_DisallowedURLFilters x_URLFilters
    x_AllowURLRevisit x_MaxBodySize x_CacheDir x_IgnoreRobotsTxt
    x_Async x_ParseHTTPErrorResponse x_ID x_DetectCharset
    x_redirectHandler x_CheckHead x_TraceHTTP x_MaxRequests
    x_store x_robotsMap x_htmlCallbacks x_xmlCallbacks
    x_requestCallbacks x_responseCallbacks
    x_responseHeadersCallbacks x_errorCallbacks x_scrapedCallbacks
    x_requestCount x_responseCount x_wg =>
  mkCollector
    x_UserAgent x_Headers x_MaxDepth x_AllowedDomains
    x_DisallowedDomains x_DisallowedURLFilters x_URLFilters
    x_AllowURLRevisit x_MaxBodySize x_CacheDir x_IgnoreRobotsTxt
    x_Async x_ParseHTTPErrorResponse x_ID x_DetectCharset
    x_redirectHandler x_CheckHead x_TraceHTTP x_MaxRequests
    x_store x_robotsMap (x_htmlCallbacks ++
    [mkHtmlCallbackContainer goquerySelector f]) x_xmlCallbacks
    x_requestCallbacks x_responseCallbacks
    x_responseHeadersCallbacks x_errorCallbacks x_scrapedCallbacks
    x_requestCount x_responseCount x_wg
end.

(** [c.OnXML(xpathQuery, f)] *)
Definition OnXML (xpathQuery : string) (f : string) (c : Collector S) : Collector S :=
match c with
| mkCollector
    x_UserAgent x_Headers x_MaxDepth x_AllowedDomains
    x_DisallowedDomains x_DisallowedURLFilters x_URLFilters
    x_AllowURLRevisit x_MaxBodySize x_CacheDir x_IgnoreRobotsTxt
    x_Async x_ParseHTTPErrorResponse x_ID x_DetectCharset
    x_redirectHandler x_CheckHead x_TraceHTTP x_MaxRequests
    x_store x_robotsMap x_htmlCallbacks x_xmlCallbacks
    x_requestCallbacks x_responseCallbacks
    x_responseHeadersCallbacks x_errorCallbacks x_scrapedCallbacks
    x_requestCount x_responseCount x_wg =>
  mkCollector
    x_UserAgent x_Headers x_MaxDepth x_AllowedDomains
    x_DisallowedDomains x_DisallowedURLFilters x_URLFilters
    x_AllowURLRevisit x_MaxBodySize x_CacheDir x_IgnoreRobotsTxt
    x_Async x_ParseHTTPErrorResponse x_ID x_DetectCharset
    x_redirectHandler x_CheckHead x_TraceHTTP x_MaxRequests
    x_store x_robotsMap x_htmlCallbacks (x_xmlCallbacks ++
    [mkXmlCallbackContainer xpathQuery f]) x_requestCallbacks
    x_responseCallbacks x_responseHeadersCallbacks
    x_errorCallbacks x_scrapedCallbacks x_requestCount
    x_responseCount x_wg
end.

(** [c.OnError(f)] *)
Definition OnError (f : ErrorCallback) (c : Collector S) : Collector S :=
match c with
| mkCollector
    x_UserAgent x_Headers x_MaxDepth x_AllowedDomains
    x_DisallowedDomains x_DisallowedURLFilters x_URLFilters
    x_AllowURLRevisit x_MaxBodySize x_CacheDir x_IgnoreRobotsTxt
    x_Async x_ParseHTTPErrorResponse x_ID x_DetectCharset
    x_redirectHandler x_CheckHead x_TraceHTTP x_MaxRequests
    x_store x_robotsMap x_htmlCallbacks x_xmlCallbacks
    x_requestCallbacks x_responseCallbacks
    x_responseHeadersCallbacks x_errorCallbacks x_scrapedCallbacks
    x_requestCount x_responseCount x_wg =>
  mkCollector
    x_UserAgent x_Headers x_MaxDepth x_AllowedDomains
    x_DisallowedDomains x_DisallowedURLFilters x_URLFilters
    x_AllowURLRevisit x_MaxBodySize x_CacheDir x_IgnoreRobotsTxt
    x_Async x_ParseHTTPErrorResponse x_ID x_DetectCharset
    x_redirectHandler x_CheckHead x_TraceHTTP x_MaxRequests
    x_store x_robotsMap x_htmlCallbacks x_xmlCallbacks
    x_requestCallbacks x_responseCallbacks
    x_responseHeadersCallbacks (x_errorCallbacks ++ [f])
    x_scrapedCallbacks x_requestCount x_responseCount x_wg
end.

(** [c.OnScraped(f)] *)
Definition OnScraped (f : ScrapedCallback) (c : Collector S) : Collector S :=
match c with
| mkCollector
    x_UserAgent x_Headers x_MaxDepth x_AllowedDomains
    x_DisallowedDomains x_DisallowedURLFilters x_URLFilters
    x_AllowURLRevisit x_MaxBodySize x_CacheDir x_IgnoreRobotsTxt
    x_Async x_ParseHTTPErrorResponse x_ID x_DetectCharset
    x_redirectHandler x_CheckHead x_TraceHTTP x_MaxRequests
    x_store x_robotsMap x_htmlCallbacks x_xmlCallbacks
    x_requestCallbacks x_responseCallbacks
    x_responseHeadersCallbacks x_errorCallbacks x_scrapedCallbacks
    x_requestCount x_responseCount x_wg =>
  mkCollector
    x_UserAgent x_Headers x_MaxDepth x_AllowedDomains
    x_DisallowedDomains x_DisallowedURLFilters x_URLFilters
    x_AllowURLRevisit x_MaxBodySize x_CacheDir x_IgnoreRobotsTxt
    x_Async x_ParseHTTPErrorResponse x_ID x_DetectCharset
    x_redirectHandler x_CheckHead x_TraceHTTP x_MaxRequests
    x_store x_robotsMap x_htmlCallbacks x_xmlCallbacks
    x_requestCallbacks x_responseCallbacks
    x_responseHeadersCallbacks x_errorCallbacks
    (x_scrapedCallbacks ++ [f]) x_requestCount x_responseCount
    x_wg
end.

End Options.
End Options.

(** [NewCollector(options...)]: the options are applied in order to the
    collector that [Init] sets up. *)
Definition NewCollector (id : Z)
    (options : list (Collector InMemoryStorage -> Collector InMemoryStorage))
  : Collector InMemoryStorage :=
  fold_left (fun c f => f c) options (Init id).

(** ** Detaching callbacks *)

(** The loop [for i, cc := range cs { if matches(cc) { deleteIdx = i; break } }]:
    the index of the first element that matches, counted from [i]; [None]
    is the [-1] that [deleteIdx] starts with. *)
Fixpoint rangeFindIndex {A : Type} (matches : A -> bool) (cs : list A) (i : nat)
  : option nat :=
  match cs with
  | [] => None
  | cc :: cs' => if matches cc then Some i else rangeFindIndex matches cs' (S i)
  end.

Section Detach.
Context {S : Type}.
Implicit Type c : Collector S.

Definition set_htmlCallbacks c (cs : list htmlCallbackContainer) : Collector S :=
  mkCollector (UserAgent c) (Headers c) (MaxDepth c) (AllowedDomains c)
    (DisallowedDomains c) (DisallowedURLFilters c) (URLFilters c)
    (AllowURLRevisit c) (MaxBodySize c) (CacheDir c) (IgnoreRobotsTxt c)
    (Async c) (ParseHTTPErrorResponse c) (ID c) (DetectCharset c)
    (redirectHandler c) (CheckHead c) (TraceHTTP c) (MaxRequests c)
    (store c) (robotsMap c) cs (xmlCallbacks c)
    (requestCallbacks c) (responseCallbacks c)
    (responseHeadersCallbacks c) (errorCallbacks c) (scrapedCallbacks c)
    (requestCount c) (responseCount c) (wg c).

Definition set_xmlCallbacks c (cs : list xmlCallbackContainer) : Collector S :=
  mkCollector (UserAgent c) (Headers c) (MaxDepth c) (AllowedDomains c)
    (DisallowedDomains c) (DisallowedURLFilters c) (URLFilters c)
    (AllowURLRevisit c) (MaxBodySize c) (CacheDir c) (IgnoreRobotsTxt c)
    (Async c) (ParseHTTPErrorResponse c) (ID c) (DetectCharset c)
    (redirectHandler c) (CheckHead c) (TraceHTTP c) (MaxRequests c)
    (store c) (robotsMap c) (htmlCallbacks c) cs
    (requestCallbacks c) (responseCallbacks c)
    (responseHeadersCallbacks c) (errorCallbacks c) (scrapedCallbacks c)
    (requestCount c) (responseCount c) (wg c).

(** [c.OnHTMLDetach(goquerySelector)]:
    [append(c.htmlCallbacks[:deleteIdx], c.htmlCallbacks[deleteIdx+1:]...)]. *)
Definition OnHTMLDetach (goquerySelector : string) c : Collector S :=
  match rangeFindIndex (fun cc => String.eqb (Selector cc) goquerySelector)
                       (htmlCallbacks c) 0 with
  | None => c
  | Some deleteIdx =>
      set_htmlCallbacks c (take deleteIdx (htmlCallbacks c)
                           ++ drop (deleteIdx + 1) (htmlCallbacks c))
  end.

(** [c.OnXMLDetach(xpathQuery)] *)
Definition OnXMLDetach (xpathQuery : string) c : Collector S :=
  match rangeFindIndex (fun cc => String.eqb (Query cc) xpathQuery)
                       (xmlCallbacks c) 0 with
  | None => c
  | Some deleteIdx =>
      set_xmlCallbacks c (take deleteIdx (xmlCallbacks c)
                          ++ drop (deleteIdx + 1) (xmlCallbacks c))
  end.

End Detach.

(** ** Form bodies and the visited test *)

(** [url.Values.Encode] of net/url, one more library function: the form
    in URL-encoded shape, sorted by key. *)
Class FormEncoding : Type := mkFormEncoding {
  Values_Encode : gmap string (list string) -> string
}.

Section Visited.
Context `{Platform} `{FormEncoding} {S : Type} `{Storage S}.

(** [createFormReader]: [form.Add(k, v)] for every entry of [data], in
    the order the map yields them, then a [*strings.Reader] over the
    encoded form. A nil map is the empty one. *)
Definition createFormReader (data : gmap string string) : Reader :=
  let form :=
    map_fold (fun k v (form : gmap string (list string)) =>
                <[k := default [] (form !! k) ++ [v]]> form) ∅ data in
  {| rd_kind := StringsReader;
     rd_data := String.list_byte_of_string (Values_Encode form);
     rd_off := 0%nat |}.

(** [checkHasVisited]: [requestHash] reads the form reader to its end. *)
Definition checkHasVisited (URL : string) (requestData : gmap string string)
  : Act S bool :=
  let hash := requestHash URL (Some (unread (createFormReader requestData))) in
  store_IsVisited hash.

Definition HasVisited (URL : string) : Act S bool :=
  checkHasVisited URL ∅.

Definition HasPosted (URL : string) (requestData : gmap string string)
  : Act S bool :=
  checkHasVisited URL requestData.

Definition Post (URL : string) (requestData : gmap string string)
    (net : Network) : Act S unit :=
  scrape URL "POST" 1 (Some (createFormReader requestData)) None None true net.

End Visited.

(** ** A concrete environment

    The theorems below hold for every [Platform] and every [Storage]. They
    are exercised on this small environment: ASCII versions of the string
    functions, a URL parser that knows a handful of addresses, and parsers
    that accept or reject by a simple rule. *)
Module Sample.

Definition isLower (a : ascii) : bool :=
  (97 <=? nat_of_ascii a)%nat && (nat_of_ascii a <=? 122)%nat.
Definition isUpper (a : ascii) : bool :=
  (65 <=? nat_of_ascii a)%nat && (nat_of_ascii a <=? 90)%nat.
Definition isDigit (a : ascii) : bool :=
  (48 <=? nat_of_ascii a)%nat && (nat_of_ascii a <=? 57)%nat.
Definition toUpper (a : ascii) : ascii :=
  if isLower a then ascii_of_nat (nat_of_ascii a - 32) else a.
Definition toLower (a : ascii) : ascii :=
  if isUpper a then ascii_of_nat (nat_of_ascii a + 32) else a.

(** The token characters of RFC 7230. *)
Definition isToken (a : ascii) : bool :=
  isLower a || isUpper a || isDigit a
  || bool_decide (a ∈ ["!"; "#"; "$"; "%"; "&"; "'"; "*"; "+"; "-"; ".";
                       "^"; "_"; "`"; "|"; "~"]%char).

Fixpoint allToken (s : string) : bool :=
  match s with
  | EmptyString => true
  | String a s' => isToken a && allToken s'
  end.

(** Upper case at the start and after each dash, lower case elsewhere. *)
Fixpoint canonicalize (upper : bool) (s : string) : string :=
  match s with
  | EmptyString => EmptyString
  | String a s' =>
      let a' := if upper then toUpper a else toLower a in
      String a' (canonicalize (Ascii.eqb a' "-") s')
  end.

Definition canonicalMIMEHeaderKey (s : string) : string :=
  if allToken s then canonicalize true s else s.

Definition tokenMethod (method : string) : bool :=
  negb (String.eqb method EmptyString) && allToken method.

Fixpoint toLowerString (s : string) : string :=
  match s with
  | EmptyString => EmptyString
  | String a s' => String (toLower a) (toLowerString s')
  end.

Fixpoint trimLeft (s : string) : string :=
  match s with
  | String " " s' => trimLeft s'
  | _ => s
  end.

Definition trimSpace (s : string) : string :=
  String.rev (trimLeft (String.rev (trimLeft s))).

Definition httpURL (host path : string) : URL :=
  {| Scheme := "http"; Host := host; Path := path; RawQuery := EmptyString;
     url_String := "http://" +:+ host +:+ path; Hostname := host;
     EscapedPath := path; QueryEncode := EmptyString |}.

(** The addresses the sample parsers know, in normal form. *)
Definition known : list (string * URL) :=
  map (fun u => (url_String u, u))
      [httpURL "a.com" "/"; httpURL "a.com" "/b"; httpURL "a.com" "/feed.xml";
       httpURL "a.com" "/robots.txt"; httpURL "a.com" "/private/x";
       httpURL "b.com" "/"; httpURL "b.com" "/robots.txt"].

(** Spellings that normalise to a known address. *)
Definition spellings : list (string * string) :=
  [("http://a.com", "http://a.com/"); ("HTTP://A.COM/", "http://a.com/");
   ("http://a.com:80/", "http://a.com/"); ("http://b.com", "http://b.com/")]%string.

Fixpoint assoc {A : Type} (k : string) (l : list (string * A)) : option A :=
  match l with
  | [] => None
  | (k', a) :: l' => if String.eqb k k' then Some a else assoc k l'
  end.

Definition parseURL (u : string) : string + URL :=
  match assoc u known with
  | Some parsed => inr parsed
  | None => inl "invalid URL"%string
  end.

Definition parseWhatwg (u : string) : string + string :=
  match assoc u spellings with
  | Some href => inr href
  | None =>
      match assoc u known with
      | Some parsed => inr (url_String parsed)
      | None => inl "invalid URL"%string
      end
  end.

(** An empty robots.txt has no group; any other one has a single group,
    for every user agent, that disallows [/private]. *)
Definition robotsFromResponse (status : Z) (body : list Byte.byte)
  : string + RobotsData :=
  if (500 <=? status) then inl "robots.txt unavailable"%string
  else if (length body =? 0)%nat then inr (fun _ => None)
  else inr (fun _ => Some (fun path => negb (String.prefix "/private" path))).

(** The HTML parsers accept everything; the XML parser wants a first
    byte [<]. *)
Definition anyDocument : Document :=
  {| doc_base_href := None; doc_count := fun _ => 1%nat |}.

Definition parseXML (body : list Byte.byte) : string + Document :=
  match body with
  | Byte.x3c :: _ => inr anyDocument
  | _ => inl "XML syntax error"%string
  end.

(** Detection gives up on a body of fewer than four bytes. *)
Definition detectOrKeep (detectCharset : bool) (defaultEncoding : string)
    (headers : Header) (body : list Byte.byte) : string + list Byte.byte :=
  if detectCharset && (0 <? length body)%nat && (length body <? 4)%nat
  then inl "Charset not detected."%string
  else inr body.

Definition platform : Platform :=
  {| urlParser_Parse := parseWhatwg;
     urlParser_ParseRef := fun _ ref => parseWhatwg ref;
     url_Parse := parseURL;
     url_ResolveReference := fun _ ref => parseURL ref;
     CanonicalMIMEHeaderKey := canonicalMIMEHeaderKey;
     validMethod := tokenMethod;
     robotstxt_FromResponse := robotsFromResponse;
     http_DetectContentType := fun _ => "text/plain; charset=utf-8"%string;
     strings_ToLower := toLowerString;
     strings_TrimSpace := trimSpace;
     goquery_NewDocumentFromReader := fun _ => inr anyDocument;
     htmlquery_Parse := fun _ => inr anyDocument;
     xmlquery_Parse := parseXML;
     fixCharset := detectOrKeep |}.

(** The same environment with an HTML parser that rejects every
    document. *)
Definition platformWithoutHTML : Platform :=
  {| urlParser_Parse := parseWhatwg;
     urlParser_ParseRef := fun _ ref => parseWhatwg ref;
     url_Parse := parseURL;
     url_ResolveReference := fun _ ref => parseURL ref;
     CanonicalMIMEHeaderKey := canonicalMIMEHeaderKey;
     validMethod := tokenMethod;
     robotstxt_FromResponse := robotsFromResponse;
     http_DetectContentType := fun _ => "text/plain; charset=utf-8"%string;
     strings_ToLower := toLowerString;
     strings_TrimSpace := trimSpace;
     goquery_NewDocumentFromReader := fun _ => inl "html: unreadable"%string;
     htmlquery_Parse := fun _ => inr anyDocument;
     xmlquery_Parse := parseXML;
     fixCharset := detectOrKeep |}.

(** A response with status 200, no header and the given body. *)
Definition ok200 (body : string) : Response :=
  {| rs_StatusCode := 200; rs_Body := String.list_byte_of_string body;
     rs_Ctx := None; rs_Request := None; rs_Headers := ∅ |}.

Definition withContentType (r : Response) (contentType : string) : Response :=
  {| rs_StatusCode := rs_StatusCode r; rs_Body := rs_Body r;
     rs_Ctx := rs_Ctx r; rs_Request := rs_Request r;
     rs_Headers := <["Content-Type"%string := [contentType]]> (rs_Headers r) |}.

(** A network that answers the request directly. *)
Definition direct (r : Response) : Network :=
  {| net_robots := {| x_hops := []; x_final := inr (ok200 EmptyString) |};
     net_fetch := {| x_hops := []; x_final := inr r |} |}.

Definition getRequest (u : URL) : HttpRequest :=
  {| hr_Method := "GET"; hr_URL := u; hr_Header := ∅; hr_Host := Host u;
     hr_Body := None; hr_GetBody := None |}.

Definition headRequest (u : URL) : HttpRequest :=
  {| hr_Method := "HEAD"; hr_URL := u; hr_Header := ∅; hr_Host := Host u;
     hr_Body := None; hr_GetBody := None |}.

(** The request of the collector for an outbound request, as [fetch]
    builds it at depth 1. *)
Definition asRequest (req : HttpRequest) (id : Z) : Request :=
  {| rq_URL := hr_URL req; rq_Headers := hr_Header req; rq_Host := hr_Host req;
     rq_Ctx := ∅; rq_Depth := 1; rq_Method := hr_Method req;
     rq_Body := hr_Body req; rq_ID := id; rq_abort := false;
     rq_baseURL := None; rq_ResponseCharacterEncoding := EmptyString |}.

Definition withAuthorization (req : HttpRequest) (credentials : string)
  : HttpRequest :=
  {| hr_Method := hr_Method req; hr_URL := hr_URL req;
     hr_Header := <["Authorization"%string := [credentials]]> (hr_Header req);
     hr_Host := hr_Host req; hr_Body := hr_Body req;
     hr_GetBody := hr_GetBody req |}.

Definition found302 : Response :=
  {| rs_StatusCode := 302; rs_Body := []; rs_Ctx := None;
     rs_Request := None; rs_Headers := ∅ |}.

(** A network that answers with one redirect to [target] and then with
    [r]; [next] is the request following the redirect. *)
Definition redirected (next : HttpRequest) (r : Response) : Network :=
  {| net_robots := {| x_hops := []; x_final := inr (ok200 EmptyString) |};
     net_fetch := {| x_hops := [{| hop_response := found302; hop_request := next |}];
                     x_final := inr r |} |}.

(** A form encoder without escaping: [k=v] for every value, joined
    by [&]. *)
Definition encodeForm (form : gmap string (list string)) : string :=
  String.concat "&"
    (flat_map (fun kv => map (fun v => fst kv +:+ "=" +:+ v) (snd kv))
              (map_to_list form)).

Definition formEncoding : FormEncoding := {| Values_Encode := encodeForm |}.

End Sample.

(** ** Notions used in the statements *)

(** [keeps_at R E m c]: started in [c], the computation [m] ends in a
    collector related to [c] by [R], and an error it returns is in [E]. *)
Definition keeps_at {S A : Type} (R : Collector S -> Collector S -> Prop)
    (E : error -> Prop) (m : Act S A) (c : Collector S) : Prop :=
  forall r c' ev, m c = (r, c', ev) -> R c c' /\ (forall e, r = Err e -> E e).

Definition any_error : error -> Prop := fun _ => True.

(** The errors that [scrape] can return from a stage other than the depth
    check. *)
Definition later_error (e : error) : Prop :=
  match e with
  | ErrForbiddenURL | ErrNoURLFiltersMatch | ErrForbiddenDomain
  | ErrMaxRequests | ErrRobotsTxtBlocked | ErrAbortedAfterHeaders
  | AlreadyVisitedError _ | UrlError _ | ErrExternal _ | ErrStatusText _ => True
  | _ => False
  end.

(** The part of a collector that no operation of this file assigns to:
    everything but the store, the robots cache, the counters and the wait
    group. *)
Definition policy {S : Type} (c : Collector S) : Collector unit :=
  mkCollector (UserAgent c) (Headers c) (MaxDepth c) (AllowedDomains c)
    (DisallowedDomains c) (DisallowedURLFilters c) (URLFilters c)
    (AllowURLRevisit c) (MaxBodySize c) (CacheDir c) (IgnoreRobotsTxt c)
    (Async c) (ParseHTTPErrorResponse c) (ID c) (DetectCharset c)
    (redirectHandler c) (CheckHead c) (TraceHTTP c) (MaxRequests c)
    tt ∅ (htmlCallbacks c) (xmlCallbacks c)
    (requestCallbacks c) (responseCallbacks c)
    (responseHeadersCallbacks c) (errorCallbacks c) (scrapedCallbacks c)
    0 0 0.

Definition same_policy {S : Type} (c c' : Collector S) : Prop :=
  policy c = policy c'.

(** A storage that behaves as a set of fingerprints: what has been
    recorded is found, and recording does not remove anything. *)
Class StorageLaws (S : Type) `{Storage S} : Prop := mkStorageLaws {
  Visited_recorded :
    forall s uHash s', Visited s uHash = (s', None) -> IsVisited s' uHash = inr true;
  Visited_kept :
    forall s uHash s' e h,
      Visited s uHash = (s', e) -> IsVisited s h = inr true ->
      IsVisited s' h = inr true
}.

(** Every fingerprint that the store of [c] holds is held by that of [c']. *)
Definition store_grows {S : Type} `{Storage S} (c c' : Collector S) : Prop :=
  forall h, IsVisited (store c) h = inr true -> IsVisited (store c') h = inr true.

(** The body bytes that enter the fingerprint of a request with the given
    [GetBody]. *)
Definition fingerprintBody (getBody : option GetBodyFunc) : option (list Byte.byte) :=
  match getBody with
  | Some (inr bytes) => Some bytes
  | _ => None
  end.

(** The already-visited error, as [scrape] returns it from admission
    control or, wrapped by the client, from a redirect. *)
Definition is_already_visited (e : error) : Prop :=
  match e with
  | AlreadyVisitedError _ | UrlError (AlreadyVisitedError _) => True
  | _ => False
  end.

(** The events of the error callbacks to which an extraction step reports
    its error. *)
Definition reported {S : Type} (c : Collector S) (err : option error) : list Event :=
  match err with
  | Some e => map (fun f => EvOnError f e) (errorCallbacks c)
  | None => []
  end.

(** The policy stays and the store only grows. *)
Definition steady {S : Type} `{Storage S} (c c' : Collector S) : Prop :=
  same_policy c c' /\ store_grows c c'.

(** [Head] called once for each element of [nets], whatever each call
    returns: the results in order and the collector left behind. *)
Fixpoint repeatHead `{Platform} {S : Type} `{Storage S} (URL : string)
    (nets : list Network) (c : Collector S) : list (result unit) * Collector S :=
  match nets with
  | [] => ([], c)
  | net :: nets' =>
      match Head URL net c with
      | (r, c1, _) =>
          match repeatHead URL nets' c1 with
          | (rs, c2) => (r :: rs, c2)
          end
      end
  end.

(** The wait group, the request counter and the policy are the same in
    both collectors. *)
Definition same_counters {S : Type} (c c' : Collector S) : Prop :=
  wg c' = wg c /\ requestCount c' = requestCount c /\ same_policy c c'.




(** The events of a computation, stage by stage: [in_order Ps ev] holds
    when [ev] is a block of events of the first stage of [Ps], followed by
    a block of events of the second, and so on; any block may be empty. *)
Inductive in_order : list (Event -> Prop) -> list Event -> Prop :=
  | in_order_done Ps : in_order Ps []
  | in_order_next P Ps ev : in_order Ps ev -> in_order (P :: Ps) ev
  | in_order_more (P : Event -> Prop) Ps e ev :
      P e -> in_order (P :: Ps) ev -> in_order (P :: Ps) (e :: ev).

Definition is_OnRequest (e : Event) : Prop :=
  match e with EvOnRequest _ _ => True | _ => False end.
Definition is_RoundTrip (e : Event) : Prop :=
  match e with EvRoundTrip _ => True | _ => False end.
Definition is_OnResponseHeaders (e : Event) : Prop :=
  match e with EvOnResponseHeaders _ _ => True | _ => False end.
Definition is_OnError (e : Event) : Prop :=
  match e with EvOnError _ _ => True | _ => False end.
Definition is_OnResponse (e : Event) : Prop :=
  match e with EvOnResponse _ => True | _ => False end.
Definition is_OnHTML (e : Event) : Prop :=
  match e with EvOnHTML _ _ _ => True | _ => False end.
Definition is_OnXML (e : Event) : Prop :=
  match e with EvOnXML _ _ _ => True | _ => False end.
Definition is_OnScraped (e : Event) : Prop :=
  match e with EvOnScraped _ => True | _ => False end.

(** The stages of [fetch]: of one that ends with the exchange (aborted,
    failed, or answered with an error status), and of one whose response
    is delivered to the callbacks. *)
Definition stages_exchange : list (Event -> Prop) :=
  [is_OnRequest; is_RoundTrip; is_OnResponseHeaders; is_OnError].

Definition stages_delivered : list (Event -> Prop) :=
  [is_OnRequest; is_RoundTrip; is_OnResponseHeaders;
   is_OnResponse; is_OnHTML; is_OnError; is_OnXML; is_OnError; is_OnScraped].

(** [emits_at P m c]: started in [c], the computation [m] leaves only
    events in [P]; [orders_at Ps m c]: its events are in the order [Ps]. *)
Definition emits_at {S A : Type} (P : Event -> Prop) (m : Act S A)
    (c : Collector S) : Prop :=
  forall r c' ev, m c = (r, c', ev) -> Forall P ev.

Definition orders_at {S A : Type} (Ps : list (Event -> Prop)) (m : Act S A)
    (c : Collector S) : Prop :=
  forall r c' ev, m c = (r, c', ev) -> in_order Ps ev.

Definition either_order_at {S A : Type} (Ps Qs : list (Event -> Prop))
    (m : Act S A) (c : Collector S) : Prop :=
  forall r c' ev, m c = (r, c', ev) -> in_order Ps ev \/ in_order Qs ev.



(** A collector on which no callback is registered, and one that has no
    redirect handler either. On such a collector a call runs no code of
    the user. *)
Definition no_callbacks {S : Type} (c : Collector S) : Prop :=
  htmlCallbacks c = [] /\ xmlCallbacks c = [] /\ requestCallbacks c = []
  /\ responseCallbacks c = [] /\ responseHeadersCallbacks c = []
  /\ errorCallbacks c = [] /\ scrapedCallbacks c = [].


(** * Properties *)

(** ** What a computation keeps and which errors it returns *)

Section Keeps.
Context {S : Type}.
Variable R : Collector S -> Collector S -> Prop.
Hypothesis R_refl : forall c, R c c.
Hypothesis R_trans : forall c1 c2 c3, R c1 c2 -> R c2 c3 -> R c1 c3.

Lemma keeps_ret {A} E (a : A) c : keeps_at R E (ret a) c.
Proof. intros r c' ev [= <- <- <-]. split; [apply R_refl | discriminate]. Qed.

Lemma keeps_get E c : keeps_at R E get c.
Proof. intros r c' ev [= <- <- <-]. split; [apply R_refl | discriminate]. Qed.

Lemma keeps_emit E evs c : keeps_at R E (emit evs) c.
Proof. intros r c' ev [= <- <- <-]. split; [apply R_refl | discriminate]. Qed.

Lemma keeps_panic {A} E c : keeps_at R E (@panic S A) c.
Proof. intros r c' ev [= <- <- <-]. split; [apply R_refl | discriminate]. Qed.

Lemma keeps_fail {A} (E : error -> Prop) e c : E e -> keeps_at R E (@fail S A e) c.
Proof.
  intros He r c' ev [= <- <- <-]. split; [apply R_refl | now intros ? [= <-]].
Qed.

Lemma keeps_lift {A} (E : error -> Prop) (x : result A) c :
  (forall e, x = Err e -> E e) -> keeps_at R E (lift x) c.
Proof. intros He r c' ev [= <- <- <-]. split; [apply R_refl | exact He]. Qed.

Lemma keeps_modify E f c : R c (f c) -> keeps_at R E (modify f) c.
Proof. intros Hf r c' ev [= <- <- <-]. split; [exact Hf | discriminate]. Qed.

Lemma keeps_bind {A B} E (m : Act S A) (k : A -> Act S B) c :
  keeps_at R E m c ->
  (forall a c1 ev1, m c = (Ok a, c1, ev1) -> keeps_at R E (k a) c1) ->
  keeps_at R E (bind m k) c.
Proof.
  intros Hm Hk r c' ev. unfold bind.
  specialize (Hm (fst (fst (m c))) (snd (fst (m c))) (snd (m c))).
  specialize (Hk) with (c1 := snd (fst (m c))) (ev1 := snd (m c)).
  destruct (m c) as [[[a | e |] c1] ev1]; simpl in Hm, Hk.
  - destruct (k a c1) as [[r2 c2] ev2] eqn:Ek. intros [= <- <- <-].
    destruct (Hm eq_refl) as [H1 _].
    destruct (Hk _ eq_refl _ _ _ Ek) as [H2 H3].
    split; [eapply R_trans; eassumption | exact H3].
  - intros [= <- <- <-]. destruct (Hm eq_refl) as [H1 H2].
    split; [exact H1 | intros e' [= <-]; now apply H2].
  - intros [= <- <- <-]. destruct (Hm eq_refl) as [H1 _].
    split; [exact H1 | discriminate].
Qed.

Lemma keeps_attempt {A} E E' (m : Act S A) c :
  keeps_at R E' m c -> keeps_at R E (attempt m) c.
Proof.
  intros Hm r c' ev. unfold attempt.
  specialize (Hm (fst (fst (m c))) (snd (fst (m c))) (snd (m c))).
  destruct (m c) as [[[a | e |] c1] ev1]; simpl in Hm; intros [= <- <- <-];
    destruct (Hm eq_refl) as [H1 _]; (split; [exact H1 | discriminate]).
Qed.

Lemma attempt_inl {A} (m : Act S A) c e c' ev :
  attempt m c = (Ok (inl e), c', ev) -> m c = (Err e, c', ev).
Proof.
  unfold attempt. destruct (m c) as [[[a | e1 |] c1] ev1]; congruence.
Qed.

Lemma attempt_inr {A} (m : Act S A) c a c' ev :
  attempt m c = (Ok (inr a), c', ev) -> m c = (Ok a, c', ev).
Proof.
  unfold attempt. destruct (m c) as [[[a1 | e1 |] c1] ev1]; congruence.
Qed.

Lemma keeps_weaken {A} (E E' : error -> Prop) (m : Act S A) c :
  (forall e, E e -> E' e) -> keeps_at R E m c -> keeps_at R E' m c.
Proof.
  intros HE Hm r c' ev Hrun. destruct (Hm _ _ _ Hrun) as [H1 H2].
  split; [exact H1 | intros e He; apply HE, H2, He].
Qed.

End Keeps.

(** Case analysis on a condition that contains no other condition. *)
Ltac case_cond :=
  match goal with
  | |- context [if ?b then _ else _] =>
      lazymatch b with
      | context [if _ then _ else _] => fail
      | context [match _ with _ => _ end] => fail
      | _ => destruct b eqn:?
      end
  | |- context [match ?x with _ => _ end] =>
      lazymatch x with
      | context [if _ then _ else _] => fail
      | context [match _ with _ => _ end] => fail
      | _ => destruct x eqn:?
      end
  end.

Ltac keeps_basic Rrefl Rtrans :=
  repeat first
    [ match goal with
      | |- keeps_at _ _ (ret _) _ => apply (keeps_ret _ Rrefl)
      | |- keeps_at _ _ get _ => apply (keeps_get _ Rrefl)
      | |- keeps_at _ _ (emit _) _ => apply (keeps_emit _ Rrefl)
      | |- keeps_at _ _ panic _ => apply (keeps_panic _ Rrefl)
      | |- keeps_at _ _ (fail _) _ => apply (keeps_fail _ Rrefl); try exact I
      | |- keeps_at _ _ (bind _ _) _ =>
          apply (keeps_bind _ Rtrans); [ | intros ? ? ? ? ]
      | |- keeps_at _ _ (match ?x with _ => _ end) _ => destruct x eqn:?
      | |- keeps_at _ _ (if ?x then _ else _) _ => destruct x eqn:?
      end
    | progress cbv zeta ].

(** *** The dispatcher and [fetch], for a given behaviour of the client *)

Section KeepsDispatch.
Context `{Platform} {S : Type} `{Storage S}.
Variable R : Collector S -> Collector S -> Prop.
Hypothesis R_refl : forall c, R c c.
Hypothesis R_trans : forall c1 c2 c3, R c1 c2 -> R c2 c3 -> R c1 c3.
Hypothesis R_requestCount : forall c n, R c (set_requestCount c n).
Hypothesis R_responseCount : forall c n, R c (set_responseCount c n).
Hypothesis R_wg : forall c n, R c (set_wg c n).

Lemma keeps_rangeRequestCallbacks E mk fs r c :
  keeps_at R E (rangeRequestCallbacks mk fs r) c.
Proof.
  revert r c. induction fs as [| f fs IH]; intros r c; simpl.
  - keeps_basic R_refl R_trans.
  - keeps_basic R_refl R_trans. apply IH.
Qed.

Lemma keeps_handleOnRequest E r c : keeps_at R E (handleOnRequest r) c.
Proof.
  unfold handleOnRequest. keeps_basic R_refl R_trans.
  apply keeps_rangeRequestCallbacks.
Qed.

Lemma keeps_handleOnResponseHeaders E code r c :
  keeps_at R E (handleOnResponseHeaders code r) c.
Proof.
  unfold handleOnResponseHeaders. keeps_basic R_refl R_trans.
  apply keeps_rangeRequestCallbacks.
Qed.

Lemma keeps_handleOnResponse E r c : keeps_at R E (handleOnResponse r) c.
Proof. unfold handleOnResponse. keeps_basic R_refl R_trans. Qed.

Lemma keeps_handleOnScraped E r c : keeps_at R E (handleOnScraped r) c.
Proof. unfold handleOnScraped. keeps_basic R_refl R_trans. Qed.

Lemma keeps_handleOnError E response err request ctx c :
  keeps_at R E (handleOnError response err request ctx) c.
Proof. unfold handleOnError. keeps_basic R_refl R_trans. Qed.

Lemma keeps_handleOnHTML E resp c : keeps_at R E (handleOnHTML resp) c.
Proof. unfold handleOnHTML. keeps_basic R_refl R_trans. Qed.

Lemma keeps_handleOnXML E resp c : keeps_at R E (handleOnXML resp) c.
Proof. unfold handleOnXML. keeps_basic R_refl R_trans. Qed.

Lemma keeps_checkHeadersFunc E request redirected code headers c :
  keeps_at R E (checkHeadersFunc request redirected code headers) c.
Proof.
  unfold checkHeadersFunc. keeps_basic R_refl R_trans.
  apply keeps_handleOnResponseHeaders.
Qed.

Lemma keeps_AddUint32_requestCount E c : keeps_at R E AddUint32_requestCount c.
Proof.
  intros r c' ev [= <- <- <-]. split; [apply R_requestCount | discriminate].
Qed.

Lemma keeps_AddUint32_responseCount E c : keeps_at R E AddUint32_responseCount c.
Proof.
  intros r c' ev [= <- <- <-]. split; [apply R_responseCount | discriminate].
Qed.

(** The value of [handleOnError] is an error of the caller or the status
    text. *)
Lemma handleOnError_value response err request ctx (c : Collector S) r c' ev :
  handleOnError response err request ctx c = (r, c', ev) ->
  forall e, r = Ok (Some e) ->
  err = Some e \/ (err = None /\ exists code, e = ErrStatusText code).
Proof.
  unfold handleOnError, bind, get, ret, emit, panic. simpl.
  destruct err as [e0 |]; [| destruct response as [resp |]].
  - intros [= <- <- <-] e [= <-]. now left.
  - destruct (ParseHTTPErrorResponse c || (rs_StatusCode resp <? 203)).
    + intros [= <- <- <-] e [=].
    + intros [= <- <- <-] e [= <-]. right. eauto.
  - destruct (ParseHTTPErrorResponse c); intros [= <- <- <-] e [=].
Qed.

(** An error that [handleOnXML] returns comes from a parser. *)
Lemma handleOnXML_value resp (c : Collector S) a c' ev :
  handleOnXML resp c = (Ok a, c', ev) ->
  forall e, snd a = Some e -> exists text, e = ErrExternal text.
Proof.
  unfold handleOnXML, bind, get, ret, emit, panic. simpl.
  repeat case_cond; intros [= <- <- <-] e; simpl; intros [= <-]; eauto.
Qed.

Variable E : error -> Prop.
Hypothesis E_external : forall text, E (ErrExternal text).
Hypothesis E_status : forall code, E (ErrStatusText code).
Hypothesis E_aborted : E ErrAbortedAfterHeaders.

Lemma keeps_deliver response request ctx c :
  keeps_at R E (deliver response request ctx) c.
Proof.
  unfold deliver.
  keeps_basic R_refl R_trans;
    first [ apply keeps_AddUint32_responseCount
          | apply keeps_handleOnResponse
          | apply keeps_handleOnHTML
          | apply keeps_handleOnXML
          | apply keeps_handleOnError
          | apply keeps_handleOnScraped
          | apply E_external
          | idtac ].
  match goal with
  | Hx : handleOnXML _ _ = (Ok ?a, _, _), Hs : snd ?a = Some _ |- _ =>
      destruct (handleOnXML_value _ _ _ _ _ Hx _ Hs) as [text ->]
  end.
  apply E_external.
Qed.

Section GivenClient.
Variable x : Exchange.
Hypothesis keeps_client : forall req c, keeps_at R E (Client_Do req x) c.

Lemma keeps_backend_Cache {Q} req
    (f : option HttpRequest -> Z -> Header -> Act S (bool * Q)) c :
  (forall o code h c, keeps_at R E (f o code h) c) ->
  keeps_at R E (backend_Cache req f x) c.
Proof.
  intros Hf. unfold backend_Cache. keeps_basic R_refl R_trans.
  - apply keeps_client.
  - apply Hf.
  - exact E_aborted.
Qed.

Lemma keeps_fetch_body u method depth requestData ctx hdr req c :
  keeps_at R E (fetch_body u method depth requestData ctx hdr req x) c.
Proof.
  unfold fetch_body.
  apply (keeps_bind _ R_trans); [apply keeps_AddUint32_requestCount |].
  intros id c1 ev1 _. cbv zeta.
  apply (keeps_bind _ R_trans); [apply keeps_handleOnRequest |].
  intros request c2 ev2 _.
  destruct (rq_abort request); [keeps_basic R_refl R_trans |].
  apply (keeps_bind _ R_trans).
  { eapply keeps_attempt.
    apply keeps_backend_Cache. intros. apply keeps_checkHeadersFunc. }
  intros answer c3 ev3 Hanswer.
  apply (keeps_bind _ R_trans); [apply keeps_handleOnError |].
  intros err c4 ev4 Herr.
  destruct err as [err |]; [| apply keeps_deliver].
  apply (keeps_fail _ R_refl).
  destruct (handleOnError_value _ _ _ _ _ _ _ _ Herr err eq_refl)
    as [He | [_ [code ->]]]; [| apply E_status].
  destruct answer as [e0 | a]; [| discriminate]. injection He as <-.
  apply attempt_inl in Hanswer.
  eapply (keeps_backend_Cache _ (checkHeadersFunc request)) in Hanswer;
    [now apply (proj2 Hanswer) |].
  intros. apply keeps_checkHeadersFunc.
Qed.

Lemma keeps_fetch u method depth requestData ctx hdr req c :
  keeps_at R E (fetch u method depth requestData ctx hdr req x) c.
Proof.
  intros r c' ev. unfold fetch.
  pose proof (keeps_fetch_body u method depth requestData ctx hdr req c) as Hb.
  specialize (Hb (fst (fst (fetch_body u method depth requestData ctx hdr req x c)))
                 (snd (fst (fetch_body u method depth requestData ctx hdr req x c)))
                 (snd (fetch_body u method depth requestData ctx hdr req x c))).
  destruct (fetch_body u method depth requestData ctx hdr req x c) as [[r1 c1] ev1].
  simpl in Hb. intros [= <- <- <-]. destruct (Hb eq_refl) as [H1 H2].
  split; [eapply R_trans; [exact H1 | apply R_wg] | exact H2].
Qed.

Lemma keeps_startFetch u method depth requestData ctx hdr req c :
  keeps_at R E (startFetch u method depth requestData ctx hdr req x) c.
Proof.
  unfold startFetch. keeps_basic R_refl R_trans.
  - apply keeps_modify, R_wg.
  - apply keeps_fetch.
Qed.

End GivenClient.

End KeepsDispatch.

(** *** The redirect loop, admission control and [scrape] *)

Section KeepsPipeline.
Context `{Platform} {S : Type} `{Storage S}.
Variable R : Collector S -> Collector S -> Prop.
Hypothesis R_refl : forall c, R c c.
Hypothesis R_trans : forall c1 c2 c3, R c1 c2 -> R c2 c3 -> R c1 c3.
Hypothesis R_requestCount : forall c n, R c (set_requestCount c n).
Hypothesis R_responseCount : forall c n, R c (set_responseCount c n).
Hypothesis R_wg : forall c n, R c (set_wg c n).
Hypothesis R_robotsMap : forall c m, R c (set_robotsMap c m).
Hypothesis R_Visited :
  forall c uHash, R c (set_store c (fst (Visited (store c) uHash))).

Lemma keeps_store_IsVisited uHash c :
  keeps_at R later_error (store_IsVisited uHash) c.
Proof.
  intros r c' ev [= <- <- <-]. split; [apply R_refl |].
  destruct (IsVisited (store c) uHash); simpl; [intros e [= <-]; exact I | discriminate].
Qed.

Lemma keeps_store_Visited uHash c :
  keeps_at R later_error (store_Visited uHash) c.
Proof.
  intros r c' ev. unfold store_Visited.
  pose proof (R_Visited c uHash) as HR.
  destruct (Visited (store c) uHash) as [s' [text |]]; intros [= <- <- <-];
    (split; [exact HR |]); [intros e [= <-]; exact I | discriminate].
Qed.

Lemma lift_external_error {A} (x : string + A) e :
  lift_external x = Err e -> later_error e.
Proof. destruct x; simpl; [intros [= <-]; exact I | discriminate]. Qed.

Lemma keeps_reopenBody getBody c :
  keeps_at R later_error (reopenBody getBody) c.
Proof.
  unfold reopenBody. destruct getBody as [reopened |].
  - keeps_basic R_refl R_trans. apply (keeps_lift _ R_refl).
    apply lift_external_error.
  - keeps_basic R_refl R_trans.
Qed.

Lemma keeps_redirectRevisit req via0 c :
  keeps_at R any_error (redirectRevisit req via0) c.
Proof.
  unfold redirectRevisit. keeps_basic R_refl R_trans.
  - eapply keeps_weaken; [| apply keeps_reopenBody]. easy.
  - eapply keeps_weaken; [| apply keeps_store_IsVisited]. easy.
  - eapply keeps_weaken; [| apply keeps_store_Visited]. easy.
Qed.

Lemma keeps_checkRedirectFunc req via c :
  keeps_at R any_error (checkRedirectFunc req via) c.
Proof.
  unfold checkRedirectFunc. keeps_basic R_refl R_trans.
  apply keeps_redirectRevisit.
Qed.

Lemma keeps_followRedirects hops final via current c :
  keeps_at R later_error (followRedirects hops final via current) c.
Proof.
  revert via current c. induction hops as [| hop hops IH]; intros via current c; simpl.
  - keeps_basic R_refl R_trans.
  - intros r c' ev.
    pose proof (keeps_checkRedirectFunc (hop_request hop) via c) as Hc.
    specialize (Hc (fst (fst (checkRedirectFunc (hop_request hop) via c)))
                   (snd (fst (checkRedirectFunc (hop_request hop) via c)))
                   (snd (checkRedirectFunc (hop_request hop) via c))).
    destruct (checkRedirectFunc (hop_request hop) via c) as [[[req' | e |] c1] ev1];
      simpl in Hc; destruct (Hc eq_refl) as [HR _].
    + match goal with
      | |- context [?m c1] =>
          lazymatch m with
          | bind _ _ =>
              assert (Hm : keeps_at R later_error m c1)
                by (keeps_basic R_refl R_trans; apply IH);
              specialize (Hm (fst (fst (m c1))) (snd (fst (m c1))) (snd (m c1)));
              destruct (m c1) as [[r2 c2] ev2]; simpl in Hm
          end
      end.
      intros [= <- <- <-]. destruct (Hm eq_refl) as [HR2 He].
      split; [eapply R_trans; eassumption | exact He].
    + destruct e; intros [= <- <- <-];
        (split; [exact HR | first [discriminate | intros ? [= <-]; exact I]]).
    + intros [= <- <- <-]. split; [exact HR | discriminate].
Qed.

Lemma keeps_Client_Do req x c : keeps_at R later_error (Client_Do req x) c.
Proof.
  unfold Client_Do. keeps_basic R_refl R_trans. apply keeps_followRedirects.
Qed.

(** [http.NewRequest] fails with an error of its own, and the [GetBody]
    it installs does not fail. *)
Lemma http_NewRequest_error method url body e :
  http_NewRequest method url body = Err e -> later_error e.
Proof.
  unfold http_NewRequest. repeat case_cond; intros [= <-]; exact I.
Qed.

Lemma http_NewRequest_GetBody method url body req :
  http_NewRequest method url body = Ok req ->
  hr_GetBody req = None \/ exists bytes, hr_GetBody req = Some (inr bytes).
Proof.
  unfold http_NewRequest.
  destruct (negb _); [discriminate |].
  destruct (url_Parse url); [discriminate |].
  intros [= <-]. simpl.
  destruct body as [r |]; [destruct (rd_kind r) |]; eauto.
Qed.

Lemma rewind_error requestData e : rewind requestData = Err e -> later_error e.
Proof.
  unfold rewind, Seek_start. repeat case_cond; intros [= <-]; exact I.
Qed.

Lemma keeps_Client_Get url x c : keeps_at R later_error (Client_Get url x) c.
Proof.
  unfold Client_Get. keeps_basic R_refl R_trans.
  - apply (keeps_lift _ R_refl). apply http_NewRequest_error.
  - apply keeps_Client_Do.
Qed.

Lemma keeps_checkRobots u x c : keeps_at R later_error (checkRobots u x) c.
Proof.
  unfold checkRobots. keeps_basic R_refl R_trans.
  - apply keeps_Client_Get.
  - apply (keeps_lift _ R_refl). apply lift_external_error.
  - apply keeps_modify. apply R_robotsMap.
Qed.

Section AnyLater.
Variable E : error -> Prop.
Hypothesis E_later : forall e, later_error e -> E e.

Lemma keeps_requestCheck parsedURL method getBody depth checkRevisit robots c :
  (0 < MaxDepth c /\ MaxDepth c < depth -> E ErrMaxDepth) ->
  keeps_at R E (requestCheck parsedURL method getBody depth checkRevisit robots) c.
Proof.
  intros Hdepth. unfold requestCheck. cbv zeta.
  apply (keeps_bind _ R_trans); [apply (keeps_get _ R_refl) |].
  intros c0 c1 ev1 [= <- <- <-].
  destruct ((0 <? MaxDepth c) && (MaxDepth c <? depth)) eqn:Ed.
  { apply (keeps_fail _ R_refl). apply Hdepth. lia. }
  destruct ((0 <? MaxRequests c) && (MaxRequests c <=? requestCount c)).
  { apply (keeps_fail _ R_refl). now apply E_later. }
  destruct (checkFilters c (url_String parsedURL) (Hostname parsedURL)) as [err |] eqn:Ef.
  { apply (keeps_fail _ R_refl). apply E_later. revert Ef.
    unfold checkFilters. repeat case_cond; intros [= <-]; exact I. }
  apply (keeps_weaken _ later_error); [exact E_later |].
  unfold revisitBlock. keeps_basic R_refl R_trans.
  - apply keeps_checkRobots.
  - apply keeps_reopenBody.
  - apply keeps_store_IsVisited.
  - apply keeps_store_Visited.
Qed.

Lemma keeps_scrape u method depth requestData ctx hdr checkRevisit net c :
  (0 < MaxDepth c /\ MaxDepth c < depth -> E ErrMaxDepth) ->
  keeps_at R E (scrape u method depth requestData ctx hdr checkRevisit net) c.
Proof.
  intros Hdepth. unfold scrape.
  apply (keeps_bind _ R_trans).
  { apply (keeps_lift _ R_refl). intros e He.
    apply E_later. eapply lift_external_error, He. }
  intros href c1 ev1 [= _ <- _].
  apply (keeps_bind _ R_trans).
  { apply (keeps_lift _ R_refl). intros e He.
    apply E_later. eapply lift_external_error, He. }
  intros parsedURL c1 ev2 [= _ <- _].
  apply (keeps_bind _ R_trans); [apply (keeps_get _ R_refl) |].
  intros c0 c1 ev3 [= <- <- _]. cbv zeta.
  apply (keeps_bind _ R_trans).
  { apply (keeps_lift _ R_refl). intros e He.
    apply E_later. eapply rewind_error, He. }
  intros rd c1 ev4 [= _ <- _].
  apply (keeps_bind _ R_trans).
  { apply (keeps_lift _ R_refl). intros e He.
    apply E_later. eapply http_NewRequest_error, He. }
  intros req c1 ev5 [= Hreq <- _].
  apply (keeps_bind _ R_trans).
  { apply keeps_requestCheck. exact Hdepth. }
  intros [] c2 ev6 _.
  apply (keeps_weaken _ later_error); [exact E_later |].
  apply keeps_startFetch; try assumption; try (intros; exact I).
  intros. apply keeps_Client_Do.
Qed.

End AnyLater.

End KeepsPipeline.

(** ** The policy filter *)

Lemma isMatchingFilter_Exists (fs : list Regexp) (d : string) :
  isMatchingFilter fs d = true <-> Exists (fun r : Regexp => r d = true) fs.
Proof.
  induction fs as [| r fs IH]; simpl.
  - split; [discriminate | intros Hex; inversion Hex].
  - destruct (r d) eqn:Er.
    + split; [intros _; now constructor | reflexivity].
    + rewrite IH. split; [now constructor 2 |].
      intros Hex. inversion Hex; subst; [congruence | assumption].
Qed.

Lemma isMatchingFilter_Forall (fs : list Regexp) (d : string) :
  isMatchingFilter fs d = false <-> Forall (fun r : Regexp => r d = false) fs.
Proof.
  induction fs as [| r fs IH]; simpl.
  - split; [constructor | reflexivity].
  - destruct (r d) eqn:Er.
    + split; [discriminate | intros Hall; inversion Hall; congruence].
    + rewrite IH. split; [now constructor | intros Hall; now inversion Hall].
Qed.

Lemma rangeFindsDomain_elem_of (ds : list string) (domain : string) :
  rangeFindsDomain ds domain = true <-> domain ∈ ds.
Proof.
  induction ds as [| d2 ds IH]; simpl.
  - split; [discriminate | intros Hin; inversion Hin].
  - destruct (String.eqb_spec d2 domain) as [-> | Hne].
    + split; [intros _; constructor | reflexivity].
    + rewrite IH. split; [now constructor |].
      intros Hin. inversion Hin; subst; [congruence | assumption].
Qed.

Lemma isDomainAllowed_spec {S : Type} (c : Collector S) (domain : string) :
  isDomainAllowed c domain = true <->
  (domain ∉ DisallowedDomains c)
  /\ (AllowedDomains c = [] \/ domain ∈ AllowedDomains c).
Proof.
  unfold isDomainAllowed.
  destruct (rangeFindsDomain (DisallowedDomains c) domain) eqn:Ed.
  - apply rangeFindsDomain_elem_of in Ed. split; [discriminate | tauto].
  - assert (Hd : domain ∉ DisallowedDomains c).
    { rewrite <- rangeFindsDomain_elem_of. congruence. }
    destruct (AllowedDomains c) as [| a l] eqn:Ea; simpl.
    { split; [intros _; split; [exact Hd | now left] | reflexivity]. }
    change (if (if (a =? domain)%string then true else rangeFindsDomain l domain)
            then true else false)
      with (if rangeFindsDomain (a :: l) domain then true else false).
    destruct (rangeFindsDomain (a :: l) domain) eqn:Ei.
    + apply rangeFindsDomain_elem_of in Ei.
      split; [intros _; split; [exact Hd | now right] | reflexivity].
    + assert (Hi : domain ∉ a :: l).
      { rewrite <- rangeFindsDomain_elem_of. congruence. }
      split; [discriminate | intros [_ [? | ?]]; [discriminate | tauto]].
Qed.

(** C5. [checkFilters] tests in this order, the first failure deciding the
    error: a matching disallowed-URL filter gives [ErrForbiddenURL]; else
    configured URL filters none of which matches give
    [ErrNoURLFiltersMatch]; else the domain check gives
    [ErrForbiddenDomain] for a domain of the disallowed list and, when the
    allowed list is not empty, for a domain that is not literally one of
    its entries; every other domain passes. *)
Theorem checkFilters_order {S : Type} (c : Collector S) (URL domain : string) :
  let forbidden :=
    Exists (fun r : Regexp => r URL = true) (DisallowedURLFilters c) in
  let unmatched :=
    URLFilters c <> [] /\ Forall (fun r : Regexp => r URL = false) (URLFilters c) in
  let rejected :=
    (domain ∈ DisallowedDomains c)
    \/ (AllowedDomains c <> [] /\ (domain ∉ AllowedDomains c)) in
  (checkFilters c URL domain = Some ErrForbiddenURL <-> forbidden)
  /\ (checkFilters c URL domain = Some ErrNoURLFiltersMatch <->
      ~ forbidden /\ unmatched)
  /\ (checkFilters c URL domain = Some ErrForbiddenDomain <->
      ~ forbidden /\ ~ unmatched /\ rejected)
  /\ (checkFilters c URL domain = None <->
      ~ forbidden /\ ~ unmatched /\ ~ rejected).
Proof.
  intros forbidden unmatched rejected.
  assert (Hf : isMatchingFilter (DisallowedURLFilters c) URL = true <-> forbidden)
    by apply isMatchingFilter_Exists.
  assert (Hu : (0 <? length (URLFilters c))%nat
               && negb (isMatchingFilter (URLFilters c) URL) = true <-> unmatched).
  { unfold unmatched. rewrite <- isMatchingFilter_Forall.
    destruct (URLFilters c) as [| r l]; simpl.
    - split; [discriminate | intros [Hne _]; congruence].
    - destruct (if r URL then true else isMatchingFilter l URL); simpl;
        split; try discriminate; try (intros [_ ?]; congruence).
      intros _. split; [discriminate | reflexivity]. }
  assert (Hr : isDomainAllowed c domain = false <-> rejected).
  { unfold rejected. pose proof (isDomainAllowed_spec c domain) as Hspec.
    destruct (isDomainAllowed c domain).
    - split; [discriminate |]. intros Hrej. exfalso.
      destruct (proj1 Hspec eq_refl) as [Hd Ha].
      destruct Hrej as [? | [Hne Hni]]; [tauto |]. destruct Ha; tauto.
    - split; [intros _ | reflexivity].
      destruct (decide (domain ∈ DisallowedDomains c)) as [? | Hd]; [now left |].
      right. destruct (AllowedDomains c) as [| a l] eqn:Ea.
      + exfalso. assert (false = true) by (apply Hspec; tauto). discriminate.
      + split; [discriminate |]. intros Hin.
        assert (false = true) by (apply Hspec; tauto). discriminate. }
  unfold checkFilters.
  assert (Hlen : (0 <? length (DisallowedURLFilters c))%nat
                 && isMatchingFilter (DisallowedURLFilters c) URL
                 = isMatchingFilter (DisallowedURLFilters c) URL).
  { destruct (DisallowedURLFilters c); reflexivity. }
  rewrite Hlen. clear Hlen. clearbody forbidden unmatched rejected.
  destruct (isMatchingFilter (DisallowedURLFilters c) URL);
    destruct ((0 <? length (URLFilters c))%nat
              && negb (isMatchingFilter (URLFilters c) URL));
    destruct (isDomainAllowed c domain); simpl;
    (split; [| split; [| split]]); split; intros Hx;
    solve [ discriminate Hx | reflexivity | intuition congruence ].
Qed.

(** The comparison of domains is that of byte strings: another spelling of
    an allowed domain is rejected. *)
Example checkFilters_case_sensitive :
  let c := NewCollector 1 [Options.AllowedDomains ["a.com"%string]] in
  checkFilters c "http://a.com/" "a.com" = None
  /\ checkFilters c "http://A.com/" "A.com" = Some ErrForbiddenDomain
  /\ checkFilters c "http://b.com/" "b.com" = Some ErrForbiddenDomain.
Proof. repeat split. Qed.

(** ** Equations of the computations *)

Section ActEquations.
Context {S A B : Type}.
Implicit Type c : Collector S.

Lemma bind_get (k : Collector S -> Act S B) c : bind get k c = k c c.
Proof. unfold bind, get. now destruct (k c c) as [[r c2] ev2]. Qed.

Lemma bind_ret (a : A) (k : A -> Act S B) c : bind (ret a) k c = k a c.
Proof. unfold bind, ret. now destruct (k a c) as [[r c2] ev2]. Qed.

Lemma bind_fail e (k : A -> Act S B) c : bind (fail e) k c = (Err e, c, []).
Proof. reflexivity. Qed.

Lemma bind_lift_Ok (a : A) (k : A -> Act S B) c : bind (lift (Ok a)) k c = k a c.
Proof. unfold bind, lift. now destruct (k a c) as [[r c2] ev2]. Qed.

Lemma bind_lift_Err e (k : A -> Act S B) c :
  bind (lift (Err e)) k c = (Err e, c, []).
Proof. reflexivity. Qed.

Lemma bind_Ok (m : Act S A) (k : A -> Act S B) c a c1 ev1 r c2 ev2 :
  m c = (Ok a, c1, ev1) -> k a c1 = (r, c2, ev2) ->
  bind m k c = (r, c2, ev1 ++ ev2).
Proof. unfold bind. now intros -> ->. Qed.

Lemma bind_Err (m : Act S A) (k : A -> Act S B) c e c1 ev1 :
  m c = (Err e, c1, ev1) -> bind m k c = (Err e, c1, ev1).
Proof. unfold bind. now intros ->. Qed.

Lemma bind_Panic (m : Act S A) (k : A -> Act S B) c c1 ev1 :
  m c = (Panic, c1, ev1) -> bind m k c = (Panic, c1, ev1).
Proof. unfold bind. now intros ->. Qed.

End ActEquations.

Lemma depth_test (M depth : Z) :
  (0 <? M) && (M <? depth) = true <-> 0 < M /\ M < depth.
Proof. rewrite andb_true_iff, !Z.ltb_lt. tauto. Qed.

Lemma budget_test (M n : Z) :
  (0 <? M) && (M <=? n) = true <-> 0 < M /\ M <= n.
Proof. rewrite andb_true_iff, Z.ltb_lt, Z.leb_le. tauto. Qed.

Lemma not_true_false (b : bool) (P : Prop) : (b = true <-> P) -> ~ P -> b = false.
Proof. destruct b; intuition. Qed.

(** ** Admission control *)

Section AdmissionOrder.
Context `{Platform} {S : Type} `{Storage S}.

(** C6. [requestCheck] runs the depth check, the request budget, the
    policy filter, the robots check and the revisit check in this order
    and returns the first failure. The robots check is skipped for the
    method HEAD and when robots checking is disabled. The revisit check
    is skipped when revisits are allowed, when [checkRevisit] is false,
    and for a method other than GET without a body that can be reopened;
    when it runs, a fingerprint found in the store is the failure. *)
Theorem requestCheck_order (c : Collector S) (parsedURL : URL)
    (method : string) (getBody : option GetBodyFunc) (depth : Z)
    (checkRevisit : bool) (robots : Exchange) :
  let u := url_String parsedURL in
  let run := requestCheck parsedURL method getBody depth checkRevisit robots c in
  let depthFails := 0 < MaxDepth c /\ MaxDepth c < depth in
  let budgetFails := 0 < MaxRequests c /\ MaxRequests c <= requestCount c in
  let robotsSkipped := method = "HEAD"%string \/ IgnoreRobotsTxt c = true in
  let revisitSkipped :=
    AllowURLRevisit c = true \/ checkRevisit = false
    \/ (method <> "GET"%string /\ getBody = None) in
  (depthFails -> run = (Err ErrMaxDepth, c, []))
  /\ (~ depthFails -> budgetFails -> run = (Err ErrMaxRequests, c, []))
  /\ (~ depthFails -> ~ budgetFails ->
      forall err, checkFilters c u (Hostname parsedURL) = Some err ->
                  run = (Err err, c, []))
  /\ (~ depthFails -> ~ budgetFails ->
      checkFilters c u (Hostname parsedURL) = None ->
      forall r1 c1 ev1,
        (robotsSkipped /\ (r1, c1, ev1) = (Ok tt, c, []))
        \/ (~ robotsSkipped /\ checkRobots parsedURL robots c = (r1, c1, ev1)) ->
        (forall err, r1 = Err err -> run = (Err err, c1, ev1))
        /\ (r1 = Ok tt -> revisitSkipped -> run = (Ok tt, c1, ev1))
        /\ (r1 = Ok tt -> ~ revisitSkipped ->
            forall body,
              (getBody = None /\ body = None)
              \/ (exists bytes, getBody = Some (inr bytes) /\ body = Some bytes) ->
              IsVisited (store c1) (requestHash u body) = inr true ->
              run = (Err (AlreadyVisitedError parsedURL), c1, ev1))).
Proof.
  intros u run depthFails budgetFails robotsSkipped revisitSkipped.
  subst run depthFails budgetFails robotsSkipped revisitSkipped.
  unfold requestCheck. cbv zeta. rewrite bind_get.
  pose proof (depth_test (MaxDepth c) depth) as Hd.
  pose proof (budget_test (MaxRequests c) (requestCount c)) as Hb.
  split; [| split; [| split]].
  - intros Hdf. now rewrite (proj2 Hd Hdf).
  - intros Hnd Hbf. rewrite (not_true_false _ _ Hd Hnd). now rewrite (proj2 Hb Hbf).
  - intros Hnd Hnb err Hf.
    rewrite (not_true_false _ _ Hd Hnd), (not_true_false _ _ Hb Hnb).
    fold u. now rewrite Hf.
  - intros Hnd Hnb Hf r1 c1 ev1 Hrobots.
    rewrite (not_true_false _ _ Hd Hnd), (not_true_false _ _ Hb Hnb).
    fold u. rewrite Hf.
    assert (Hstage :
      (if negb (method =? "HEAD")%string && negb (IgnoreRobotsTxt c)
       then checkRobots parsedURL robots else ret tt) c = (r1, c1, ev1)).
    { destruct Hrobots as [[Hskip Heq] | [Hrun Heq]].
      - injection Heq as -> -> ->.
        destruct Hskip as [-> | ->]; simpl; [reflexivity |].
        now rewrite andb_false_r.
      - assert (Hm : (method =? "HEAD")%string = false).
        { apply String.eqb_neq. intros ->. apply Hrun. now left. }
        assert (Hi : IgnoreRobotsTxt c = false).
        { destruct (IgnoreRobotsTxt c); [| reflexivity].
          exfalso. apply Hrun. now right. }
        now rewrite Hm, Hi. }
    split; [| split].
    + intros err ->. now apply bind_Err.
    + intros -> Hskip.
      erewrite bind_Ok; [| exact Hstage |].
      { now rewrite app_nil_r. }
      destruct Hskip as [-> | [-> | [Hm ->]]]; simpl.
      * now rewrite andb_false_r.
      * reflexivity.
      * apply String.eqb_neq in Hm. unfold revisitBlock. rewrite Hm. simpl.
        now destruct (checkRevisit && negb (AllowURLRevisit c)).
    + intros -> Hrun body Hbody Hvisited.
      erewrite bind_Ok; [| exact Hstage |].
      { now rewrite app_nil_r. }
      assert (Hc : checkRevisit = true).
      { destruct checkRevisit; [reflexivity |]. exfalso. apply Hrun. tauto. }
      assert (Ha : AllowURLRevisit c = false).
      { destruct (AllowURLRevisit c); [| reflexivity]. exfalso. apply Hrun. tauto. }
      rewrite Hc, Ha. simpl. unfold revisitBlock.
      assert (Hgate : negb (method =? "GET")%string && isNil getBody = false).
      { destruct getBody as [g |]; simpl; [apply andb_false_r |].
        rewrite andb_true_r. apply negb_false_iff, String.eqb_eq.
        destruct (String.eqb_spec method "GET") as [-> | Hne]; [reflexivity |].
        exfalso. apply Hrun. tauto. }
      rewrite Hgate.
      assert (Hre : reopenBody getBody c1 = (Ok body, c1, [])).
      { destruct Hbody as [[-> ->] | [bytes [-> ->]]]; reflexivity. }
      erewrite bind_Ok; [| exact Hre |]; [reflexivity |].
      unfold bind, store_IsVisited. fold u. now rewrite Hvisited.
Qed.

End AdmissionOrder.

(** ** The redirect interceptor *)

Section RedirectProperties.
Context `{Platform} {S : Type} `{Storage S}.

Lemma set_store_store (c : Collector S) : set_store c (store c) = c.
Proof. now destruct c. Qed.

(** What follows the revisit check in the closure does not look at the
    store. *)
Lemma checkRedirectFunc_after_revisit (c c1 : Collector S) req via0 rest ev1 :
  checkFilters c (url_String (hr_URL req)) (Hostname (hr_URL req)) = None ->
  redirectRevisit req via0 c = (Ok tt, c1, ev1) ->
  checkRedirectFunc req (via0 :: rest) c =
    (match redirectHandler c with
     | Some handler =>
         match handler req (via0 :: rest) with
         | (_, Some err) => Err err
         | (req', None) => Ok req'
         end
     | None =>
         if (10 <=? length (via0 :: rest))%nat then Err ErrUseLastResponse
         else
           match last (via0 :: rest) with
           | None => Panic
           | Some lastRequest =>
               if negb (Host (hr_URL req) =? Host (hr_URL lastRequest))%string
               then Ok (delAuthorization req)
               else Ok req
           end
     end, c1, ev1).
Proof.
  intros Hf Hr. unfold checkRedirectFunc. rewrite bind_get, Hf.
  destruct (redirectHandler c) as [handler |].
  - destruct (handler req (via0 :: rest)) as [req' [err |]];
      (erewrite bind_Ok; [| exact Hr |]; [now rewrite app_nil_r |]);
      reflexivity.
  - destruct (10 <=? length (via0 :: rest))%nat.
    { erewrite bind_Ok; [| exact Hr |]; [now rewrite app_nil_r | reflexivity]. }
    destruct (last (via0 :: rest)) as [lastRequest |].
    + destruct (negb _);
        (erewrite bind_Ok; [| exact Hr |]; [now rewrite app_nil_r | reflexivity]).
    + erewrite bind_Ok; [| exact Hr |]; [now rewrite app_nil_r | reflexivity].
Qed.

(** C7. In the redirect check, a redirect whose normalised target is the
    normalised URL of the first request of the chain skips the revisit
    check: the store is neither read nor written for that hop, and the
    same holds when revisits are allowed. Otherwise the target is
    fingerprinted; a fingerprint that the store holds ends the redirect
    with the already-visited error, and a new one is recorded. *)
Theorem checkRedirectFunc_revisit (c : Collector S) (req via0 : HttpRequest)
    (rest : list HttpRequest) :
  let via := via0 :: rest in
  let target := url_String (hr_URL req) in
  let samePage := normalizeURL target = normalizeURL (url_String (hr_URL via0)) in
  (samePage \/ AllowURLRevisit c = true ->
   forall r c' ev,
     checkRedirectFunc req via c = (r, c', ev) ->
     store c' = store c
     /\ forall s, checkRedirectFunc req via (set_store c s) = (r, set_store c' s, ev))
  /\ (~ samePage -> AllowURLRevisit c = false ->
      checkFilters c target (Hostname (hr_URL req)) = None ->
      forall body,
        (hr_GetBody req = None /\ body = None)
        \/ (exists bytes, hr_GetBody req = Some (inr bytes) /\ body = Some bytes) ->
        let uHash := requestHash target body in
        (IsVisited (store c) uHash = inr true ->
         checkRedirectFunc req via c = (Err (AlreadyVisitedError (hr_URL req)), c, []))
        /\ (IsVisited (store c) uHash = inr false ->
            forall s', Visited (store c) uHash = (s', None) ->
            exists r, checkRedirectFunc req via c = (r, set_store c s', []))).
Proof.
  intros via target samePage. subst via target samePage. split.
  - intros Hskip r c' ev.
    assert (Hgate : forall c0 : Collector S,
               AllowURLRevisit c0 = AllowURLRevisit c ->
               redirectRevisit req via0 c0 = (Ok tt, c0, [])).
    { intros c0 Ha. unfold redirectRevisit. rewrite bind_get, Ha.
      destruct Hskip as [Hsame | ->]; [| reflexivity].
      rewrite Hsame, String.eqb_refl. now rewrite andb_false_r. }
    intros Hrun.
    destruct (checkFilters c (url_String (hr_URL req)) (Hostname (hr_URL req)))
      as [err |] eqn:Ef.
    + assert (Hflt : forall c0 : Collector S,
                 checkFilters c0 (url_String (hr_URL req)) (Hostname (hr_URL req))
                 = Some err ->
                 checkRedirectFunc req (via0 :: rest) c0
                 = (Err (ErrNotFollowingRedirect (hr_URL req) err), c0, [])).
      { intros c0 Hc0. unfold checkRedirectFunc. now rewrite bind_get, Hc0. }
      rewrite (Hflt c Ef) in Hrun. injection Hrun as <- <- <-.
      split; [reflexivity |]. intros s. apply Hflt. exact Ef.
    + rewrite (checkRedirectFunc_after_revisit c c req via0 rest [] Ef
                 (Hgate c eq_refl)) in Hrun.
      injection Hrun as <- <- <-.
      split; [reflexivity |]. intros s.
      rewrite (checkRedirectFunc_after_revisit (set_store c s) (set_store c s)
                 req via0 rest [] Ef (Hgate (set_store c s) eq_refl)).
      reflexivity.
  - intros Hdiff Ha Hf body Hbody uHash. subst uHash.
    assert (Hne : (normalizeURL (url_String (hr_URL req))
                   =? normalizeURL (url_String (hr_URL via0)))%string = false).
    { now apply String.eqb_neq. }
    assert (Hre : forall c0 : Collector S,
               reopenBody (hr_GetBody req) c0 = (Ok body, c0, [])).
    { intros c0. destruct Hbody as [[-> ->] | [bytes [-> ->]]]; reflexivity. }
    split.
    + intros Hv. unfold checkRedirectFunc. rewrite bind_get, Hf.
      apply bind_Err. unfold redirectRevisit. rewrite bind_get, Ha, Hne. simpl.
      erewrite bind_Ok; [| apply Hre |]; [reflexivity |].
      unfold bind, store_IsVisited. now rewrite Hv.
    + intros Hv s' Hrec.
      assert (Hr : redirectRevisit req via0 c = (Ok tt, set_store c s', [])).
      { unfold redirectRevisit. rewrite bind_get, Ha, Hne. simpl.
        erewrite bind_Ok; [| apply Hre |]; [reflexivity |].
        unfold bind, store_IsVisited, store_Visited. rewrite Hv. simpl.
        now rewrite Hrec. }
      rewrite (checkRedirectFunc_after_revisit c _ req via0 rest [] Hf Hr).
      eauto.
Qed.

(** C8. After the filter and the revisit check of the redirect check: an
    installed redirect handler alone decides, and what it returns is
    returned; without one, a chain of ten or more earlier requests ends
    with [ErrUseLastResponse], which makes the client use the last
    response, and a shorter chain is followed, the [Authorization] header
    being deleted from the request exactly when the host of the target
    differs from the host of the last request of the chain. *)
Theorem checkRedirectFunc_handler_cap_authorization (c c1 : Collector S)
    (req via0 : HttpRequest) (rest : list HttpRequest) (ev1 : list Event) :
  let via := via0 :: rest in
  checkFilters c (url_String (hr_URL req)) (Hostname (hr_URL req)) = None ->
  redirectRevisit req via0 c = (Ok tt, c1, ev1) ->
  (forall handler, redirectHandler c = Some handler ->
     checkRedirectFunc req via c =
       (match snd (handler req via) with
        | Some err => Err err
        | None => Ok (fst (handler req via))
        end, c1, ev1))
  /\ (redirectHandler c = None -> (10 <= length via)%nat ->
      checkRedirectFunc req via c = (Err ErrUseLastResponse, c1, ev1))
  /\ (redirectHandler c = None -> (length via < 10)%nat ->
      exists lastRequest,
        last via = Some lastRequest
        /\ (Host (hr_URL req) <> Host (hr_URL lastRequest) ->
            checkRedirectFunc req via c = (Ok (delAuthorization req), c1, ev1)
            /\ hr_Header (delAuthorization req)
               !! CanonicalMIMEHeaderKey "Authorization" = None
            /\ forall k, k <> CanonicalMIMEHeaderKey "Authorization" ->
                         hr_Header (delAuthorization req) !! k = hr_Header req !! k)
        /\ (Host (hr_URL req) = Host (hr_URL lastRequest) ->
            checkRedirectFunc req via c = (Ok req, c1, ev1))).
Proof.
  intros via Hf Hr. subst via.
  rewrite (checkRedirectFunc_after_revisit c c1 req via0 rest ev1 Hf Hr).
  split; [| split].
  - intros handler ->. now destruct (handler req (via0 :: rest)) as [req' [err |]].
  - intros -> Hlen. apply Nat.leb_le in Hlen. now rewrite Hlen.
  - intros -> Hlen.
    assert (Hcap : (10 <=? length (via0 :: rest))%nat = false)
      by (apply Nat.leb_gt; exact Hlen).
    rewrite Hcap.
    destruct (last (via0 :: rest)) as [lastRequest |] eqn:El.
    + exists lastRequest. split; [reflexivity |]. split.
      * intros Hne. apply String.eqb_neq in Hne. rewrite Hne. simpl.
        split; [reflexivity |]. unfold Header_Del. split.
        -- apply lookup_delete_eq.
        -- intros k Hk. now apply lookup_delete_ne.
      * intros ->. now rewrite String.eqb_refl.
    + exfalso. revert El. clear. revert via0.
      induction rest as [| x rest IH]; intros via0; [discriminate | apply IH].
Qed.

End RedirectProperties.

(** ** The orchestrator *)

Section ScrapeProperties.
Context `{Platform} {S : Type} `{Storage S}.

Lemma hr_GetBody_withHeaderAndHost req hdr :
  hr_GetBody (withHeaderAndHost req hdr) = hr_GetBody req.
Proof. unfold withHeaderAndHost. now destruct (negb _). Qed.

(** [scrape] once the URL is parsed and the request is built. *)
Lemma scrape_unfold (c : Collector S) u method depth requestData ctx hdr
    checkRevisit net href parsedURL rd req :
  urlParser_Parse u = inr href ->
  url_Parse href = inr parsedURL ->
  rewind requestData = Ok rd ->
  http_NewRequest method (url_String parsedURL) rd = Ok req ->
  scrape u method depth requestData ctx hdr checkRevisit net c =
  bind (requestCheck parsedURL method (hr_GetBody req) depth checkRevisit
                     (net_robots net))
       (fun _ => startFetch (url_String parsedURL) method depth rd ctx
                            (scrapeHeaders c hdr)
                            (withHeaderAndHost req (scrapeHeaders c hdr))
                            (net_fetch net)) c.
Proof.
  intros Hu Hp Hr Hq. unfold scrape.
  rewrite Hu. simpl lift_external. rewrite bind_lift_Ok.
  rewrite Hp. simpl lift_external. rewrite bind_lift_Ok.
  rewrite bind_get. cbv zeta.
  rewrite Hr, bind_lift_Ok, Hq, bind_lift_Ok.
  now rewrite hr_GetBody_withHeaderAndHost.
Qed.

Lemma requestCheck_depth_fails (c : Collector S) parsedURL method getBody depth
    checkRevisit robots :
  0 < MaxDepth c -> MaxDepth c < depth ->
  requestCheck parsedURL method getBody depth checkRevisit robots c
  = (Err ErrMaxDepth, c, []).
Proof.
  intros H1 H2. unfold requestCheck. cbv zeta. rewrite bind_get.
  now rewrite (proj2 (depth_test _ _) (conj H1 H2)).
Qed.

(** Every error of [scrape] is one of [later_error], the depth error
    apart. *)
Lemma scrape_error (E : error -> Prop) (c : Collector S) u method depth
    requestData ctx hdr checkRevisit net r c' ev :
  (forall e, later_error e -> E e) ->
  (0 < MaxDepth c /\ MaxDepth c < depth -> E ErrMaxDepth) ->
  scrape u method depth requestData ctx hdr checkRevisit net c = (r, c', ev) ->
  forall e, r = Err e -> E e.
Proof.
  intros HE Hd Hrun.
  refine (proj2 (keeps_scrape (fun _ _ => True) _ _ _ _ _ _ _ E HE
                   u method depth requestData ctx hdr checkRevisit net c Hd
                   _ _ _ Hrun)); auto.
Qed.

(** C4. For a well-formed URL and a request that can be built, [scrape]
    at depth [depth] fails with the max-depth error if and only if a
    positive [MaxDepth] is configured and [depth] exceeds it; it then
    fails before anything else is done. With [MaxDepth] zero or
    [depth <= MaxDepth] no stage returns that error. *)
Theorem scrape_MaxDepth_iff (c : Collector S) (u method : string) (depth : Z)
    (requestData : option Reader) (ctx : option Ctx) (hdr : option Header)
    (checkRevisit : bool) (net : Network) (href : string) (parsedURL : URL)
    (rd : option Reader) (req : HttpRequest) :
  urlParser_Parse u = inr href ->
  url_Parse href = inr parsedURL ->
  rewind requestData = Ok rd ->
  http_NewRequest method (url_String parsedURL) rd = Ok req ->
  (fst (fst (scrape u method depth requestData ctx hdr checkRevisit net c))
     = Err ErrMaxDepth
   <-> 0 < MaxDepth c /\ MaxDepth c < depth)
  /\ (0 < MaxDepth c /\ MaxDepth c < depth ->
      scrape u method depth requestData ctx hdr checkRevisit net c
      = (Err ErrMaxDepth, c, [])).
Proof.
  intros Hu Hp Hr Hq.
  assert (Hfail : 0 < MaxDepth c /\ MaxDepth c < depth ->
                  scrape u method depth requestData ctx hdr checkRevisit net c
                  = (Err ErrMaxDepth, c, [])).
  { intros [H1 H2]. rewrite (scrape_unfold c _ _ _ _ _ _ _ _ _ _ _ _ Hu Hp Hr Hq).
    apply bind_Err. now apply requestCheck_depth_fails. }
  split; [| exact Hfail]. split.
  - intros Hres.
    destruct (scrape u method depth requestData ctx hdr checkRevisit net c)
      as [[r c'] ev] eqn:Hrun.
    simpl in Hres. subst r.
    destruct (decide (0 < MaxDepth c /\ MaxDepth c < depth)) as [Hd | Hd];
      [exact Hd | exfalso].
    change False with (later_error ErrMaxDepth).
    eapply (scrape_error later_error);
      [intros e He; exact He | | exact Hrun | reflexivity].
    intros Hd'. now destruct Hd.
  - intros Hd. now rewrite (Hfail Hd).
Qed.

(** C3, as the code has it. [scrape] never fails with
    [ErrRetryBodyUnseekable]. A body that is not an [io.ReadSeeker] is
    used as it is. A body that is one is rewound before the request is
    built, so that the fingerprint and the request sent are those of the
    body read from its start; if [Seek] fails, [scrape] returns that
    error and does nothing else. *)
Theorem scrape_body_rewound (c : Collector S) (u method : string) (depth : Z)
    (ctx : option Ctx) (hdr : option Header) (checkRevisit : bool)
    (net : Network) :
  (forall requestData,
     fst (fst (scrape u method depth requestData ctx hdr checkRevisit net c))
     <> Err ErrRetryBodyUnseekable)
  /\ (forall r, isReadSeeker r = false -> rewind (Some r) = Ok (Some r))
  /\ (forall r r0,
        isReadSeeker r = true -> Seek_start r = Ok r0 ->
        rd_off r0 = 0%nat /\ unread r0 = rd_data r
        /\ scrape u method depth (Some r) ctx hdr checkRevisit net c
           = scrape u method depth (Some r0) ctx hdr checkRevisit net c)
  /\ (forall r r0 url req,
        rd_kind r = BytesReader \/ rd_kind r = StringsReader ->
        rewind (Some r) = Ok (Some r0) ->
        http_NewRequest method url (Some r0) = Ok req ->
        hr_GetBody req = Some (inr (rd_data r)))
  /\ (forall r text href parsedURL,
        urlParser_Parse u = inr href ->
        url_Parse href = inr parsedURL ->
        rd_kind r = OtherSeeker (Some text) ->
        scrape u method depth (Some r) ctx hdr checkRevisit net c
        = (Err (ErrExternal text), c, [])).
Proof.
  split; [| split; [| split; [| split]]].
  - intros requestData Hres.
    destruct (scrape u method depth requestData ctx hdr checkRevisit net c)
      as [[r c'] ev] eqn:Hrun.
    simpl in Hres. subst r.
    assert (Hne : ErrRetryBodyUnseekable <> ErrRetryBodyUnseekable);
      [| now apply Hne].
    eapply (scrape_error (fun e => e <> ErrRetryBodyUnseekable));
      [ | | exact Hrun | reflexivity].
    + intros e He ->. exact He.
    + discriminate.
  - intros r Hr. unfold rewind. now rewrite Hr.
  - intros r r0 Hs Hseek.
    assert (Hr0 : r0 = {| rd_kind := rd_kind r; rd_data := rd_data r; rd_off := 0 |}).
    { unfold Seek_start in Hseek.
      destruct (rd_kind r) as [| | | [text |] |]; congruence. }
    assert (Hrw : rewind (Some r) = Ok (Some r0)).
    { unfold rewind. now rewrite Hs, Hseek. }
    assert (Hrw0 : rewind (Some r0) = Ok (Some r0)).
    { subst r0. unfold rewind, isReadSeeker, Seek_start in *. simpl.
      destruct (rd_kind r) as [| | | [text |] |]; try discriminate; reflexivity. }
    split; [now subst r0 | split; [now subst r0 |]].
    unfold scrape. now rewrite Hrw, Hrw0.
  - intros r r0 url req Hk Hrw Hq.
    assert (Hr0 : r0 = {| rd_kind := rd_kind r; rd_data := rd_data r; rd_off := 0 |}).
    { unfold rewind, isReadSeeker, Seek_start in Hrw.
      destruct Hk as [Hk | Hk]; rewrite Hk in Hrw; congruence. }
    subst r0. unfold http_NewRequest in Hq.
    destruct (negb _); [discriminate |].
    destruct (url_Parse url); [discriminate |].
    injection Hq as <-. simpl. unfold unread. simpl.
    now destruct Hk as [-> | ->].
  - intros r text href parsedURL Hu Hp Hk. unfold scrape.
    rewrite Hu. simpl lift_external. rewrite bind_lift_Ok.
    rewrite Hp. simpl lift_external. rewrite bind_lift_Ok.
    rewrite bind_get. cbv zeta.
    assert (Hrw : rewind (Some r) = Err (ErrExternal text)).
    { unfold rewind, isReadSeeker, Seek_start. now rewrite Hk. }
    now rewrite Hrw.
Qed.

End ScrapeProperties.

(** ** Deduplication *)

#[export] Instance InMemoryStorage_laws : StorageLaws InMemoryStorage.
Proof.
  split.
  - intros s uHash s' [= <-]. simpl. f_equal. apply bool_decide_eq_true. set_solver.
  - intros s uHash s' e h [= <- _]. simpl. intros [= Hin]. f_equal.
    apply bool_decide_eq_true in Hin. apply bool_decide_eq_true. set_solver.
Qed.

Lemma requestHash_hash64a `{Platform} (url : string) (body : option (list Byte.byte)) :
  requestHash url body
  = fnv.hash64a (String.list_byte_of_string (normalizeURL url) ++ default [] body).
Proof.
  unfold requestHash, fnv.hash64a, fnv.Sum64, fnv.Write.
  destruct body as [bytes |]; simpl.
  - now rewrite fold_left_app.
  - now rewrite app_nil_r.
Qed.

Section Dedup.
Context `{Platform} {S : Type} `{StorageLaws S}.

Lemma steady_refl c : steady c c.
Proof. split; [reflexivity | now intros h]. Qed.

Lemma steady_trans c1 c2 c3 : steady c1 c2 -> steady c2 c3 -> steady c1 c3.
Proof.
  intros [P1 G1] [P2 G2]. split; [now transitivity (policy c2) |].
  intros h Hh. apply G2, G1, Hh.
Qed.

Lemma steady_Visited (c : Collector S) uHash :
  steady c (set_store c (fst (Visited (store c) uHash))).
Proof.
  split; [reflexivity |]. intros h Hh. simpl.
  destruct (Visited (store c) uHash) as [s' e] eqn:Ev. simpl.
  eapply Visited_kept; eassumption.
Qed.

Lemma steady_basic :
  (forall (c : Collector S) n, steady c (set_requestCount c n))
  /\ (forall (c : Collector S) n, steady c (set_responseCount c n))
  /\ (forall (c : Collector S) n, steady c (set_wg c n))
  /\ (forall (c : Collector S) m, steady c (set_robotsMap c m)).
Proof. repeat split; now intros h. Qed.

Lemma steady_requestCheck parsedURL method getBody depth checkRevisit robots
    (c : Collector S) r c' ev :
  requestCheck parsedURL method getBody depth checkRevisit robots c = (r, c', ev) ->
  steady c c'.
Proof.
  intros Hrun. destruct steady_basic as (B1 & B2 & B3 & B4).
  assert (K : keeps_at steady any_error
                (requestCheck parsedURL method getBody depth checkRevisit robots) c).
  { apply keeps_requestCheck;
      first [ exact steady_refl | exact steady_trans | exact steady_Visited
            | exact B1 | exact B2 | exact B3 | exact B4 | easy ]. }
  exact (proj1 (K _ _ _ Hrun)).
Qed.

Lemma steady_startFetch u method depth rd ctx hdr req x (c : Collector S) r c' ev :
  startFetch u method depth rd ctx hdr req x c = (r, c', ev) -> steady c c'.
Proof.
  intros Hrun. destruct steady_basic as (B1 & B2 & B3 & B4).
  assert (K : keeps_at steady later_error
                (startFetch u method depth rd ctx hdr req x) c).
  { apply keeps_startFetch;
      try first [ exact steady_refl | exact steady_trans
                | exact B1 | exact B2 | exact B3 | easy ].
    intros. apply keeps_Client_Do;
      first [ exact steady_refl | exact steady_trans | exact steady_Visited ]. }
  exact (proj1 (K _ _ _ Hrun)).
Qed.

Lemma reopenBody_fingerprintBody getBody (c : Collector S) :
  getBody = None \/ (exists bytes, getBody = Some (inr bytes)) ->
  reopenBody getBody c = (Ok (fingerprintBody getBody), c, []).
Proof. now intros [-> | [bytes ->]]. Qed.

Lemma revisitBlock_gate method (getBody : option GetBodyFunc) :
  method = "GET"%string \/ getBody <> None ->
  negb (method =? "GET")%string && isNil getBody = false.
Proof.
  intros [-> | Hg]; [reflexivity |].
  destruct getBody; [apply andb_false_r | congruence].
Qed.

Lemma revisitBlock_visited parsedURL method getBody (c : Collector S) :
  method = "GET"%string \/ getBody <> None ->
  getBody = None \/ (exists bytes, getBody = Some (inr bytes)) ->
  IsVisited (store c) (requestHash (url_String parsedURL) (fingerprintBody getBody))
  = inr true ->
  revisitBlock parsedURL method getBody c
  = (Err (AlreadyVisitedError parsedURL), c, []).
Proof.
  intros Hm Hg Hv. unfold revisitBlock. cbv zeta.
  rewrite (revisitBlock_gate _ _ Hm).
  erewrite bind_Ok; [| now apply reopenBody_fingerprintBody |]; [reflexivity |].
  unfold bind, store_IsVisited. now rewrite Hv.
Qed.

Lemma revisitBlock_fresh parsedURL method getBody (c : Collector S) s' :
  method = "GET"%string \/ getBody <> None ->
  getBody = None \/ (exists bytes, getBody = Some (inr bytes)) ->
  IsVisited (store c) (requestHash (url_String parsedURL) (fingerprintBody getBody))
  = inr false ->
  Visited (store c) (requestHash (url_String parsedURL) (fingerprintBody getBody))
  = (s', None) ->
  revisitBlock parsedURL method getBody c = (Ok tt, set_store c s', []).
Proof.
  intros Hm Hg Hv Hrec. unfold revisitBlock. cbv zeta.
  rewrite (revisitBlock_gate _ _ Hm).
  erewrite bind_Ok; [| now apply reopenBody_fingerprintBody |]; [reflexivity |].
  unfold bind, store_IsVisited, store_Visited. rewrite Hv. simpl. now rewrite Hrec.
Qed.

(** A method other than GET without a body that can be reopened is not
    checked at all. *)
Lemma revisitBlock_gap parsedURL method (c : Collector S) :
  method <> "GET"%string ->
  revisitBlock parsedURL method None c = (Ok tt, c, []).
Proof.
  intros Hm. unfold revisitBlock. cbv zeta.
  apply String.eqb_neq in Hm. now rewrite Hm.
Qed.

(** With the revisit check on, [requestCheck] is what it is without it,
    followed by the revisit check. *)
Lemma requestCheck_then_revisit parsedURL method getBody depth robots
    (c c1 : Collector S) ev1 :
  AllowURLRevisit c = false ->
  requestCheck parsedURL method getBody depth false robots c = (Ok tt, c1, ev1) ->
  forall r c2 ev2,
    revisitBlock parsedURL method getBody c1 = (r, c2, ev2) ->
    requestCheck parsedURL method getBody depth true robots c = (r, c2, ev1 ++ ev2).
Proof.
  intros Ha. unfold requestCheck. cbv zeta. rewrite !bind_get, Ha.
  destruct ((0 <? MaxDepth c) && (MaxDepth c <? depth)); [discriminate |].
  destruct ((0 <? MaxRequests c) && (MaxRequests c <=? requestCount c));
    [discriminate |].
  destruct (checkFilters c (url_String parsedURL) (Hostname parsedURL));
    [discriminate |].
  simpl. unfold bind at 1.
  destruct ((if negb (method =? "HEAD")%string && negb (IgnoreRobotsTxt c)
             then checkRobots parsedURL robots else ret tt) c)
    as [[[[] | e |] c1'] ev1'] eqn:Estage; try discriminate.
  unfold ret. intros [= <- <-] r c2 ev2 Hrev.
  erewrite bind_Ok; [| exact Estage | exact Hrev].
  now rewrite app_nil_r.
Qed.

Lemma bind_Ok_inv {A B} (m : Act S A) (k : A -> Act S B) (c : Collector S)
    a c1 ev1 r c2 ev :
  m c = (Ok a, c1, ev1) -> bind m k c = (r, c2, ev) ->
  exists ev2, k a c1 = (r, c2, ev2) /\ ev = ev1 ++ ev2.
Proof.
  unfold bind. intros ->. destruct (k a c1) as [[r' c'] ev'].
  intros [= <- <- <-]. eauto.
Qed.

(** C1, with the condition under which the revisit check runs. For a
    collector that does not allow revisits, two calls of [scrape] with
    [checkRevisit] whose URLs normalise to the same string and whose
    bodies enter the fingerprint identically (or not at all), each with
    the method GET or a body that can be reopened: the fingerprint is the
    FNV-64a hash of the normalised URL followed by the body bytes, in
    which method and headers take no part; if the first call passes the
    checks before the revisit check and its fingerprint is new, it passes
    the revisit check and the fingerprint is in the store from then on;
    and the second call, if it passes the checks before the revisit
    check, fails with the already-visited error. *)
Theorem scrape_dedup (c : Collector S)
    (u1 u2 method1 method2 : string) (depth1 depth2 : Z)
    (body1 body2 : option Reader) (ctx1 ctx2 : option Ctx)
    (hdr1 hdr2 : option Header) (net1 net2 : Network)
    (href : string) (parsedURL : URL) (rd1 rd2 : option Reader)
    (req1 req2 : HttpRequest) :
  AllowURLRevisit c = false ->
  urlParser_Parse u1 = inr href ->
  urlParser_Parse u2 = inr href ->
  url_Parse href = inr parsedURL ->
  rewind body1 = Ok rd1 ->
  http_NewRequest method1 (url_String parsedURL) rd1 = Ok req1 ->
  rewind body2 = Ok rd2 ->
  http_NewRequest method2 (url_String parsedURL) rd2 = Ok req2 ->
  hr_GetBody req1 = hr_GetBody req2 ->
  method1 = "GET"%string \/ hr_GetBody req1 <> None ->
  method2 = "GET"%string \/ hr_GetBody req2 <> None ->
  let fingerprint :=
    requestHash (url_String parsedURL) (fingerprintBody (hr_GetBody req1)) in
  fingerprint
  = fnv.hash64a (String.list_byte_of_string (normalizeURL (url_String parsedURL))
                 ++ default [] (fingerprintBody (hr_GetBody req1)))
  /\ forall c1 ev1 s',
       requestCheck parsedURL method1 (hr_GetBody req1) depth1 false
                    (net_robots net1) c = (Ok tt, c1, ev1) ->
       IsVisited (store c1) fingerprint = inr false ->
       Visited (store c1) fingerprint = (s', None) ->
       requestCheck parsedURL method1 (hr_GetBody req1) depth1 true
                    (net_robots net1) c = (Ok tt, set_store c1 s', ev1)
       /\ forall r c2 ev,
            scrape u1 method1 depth1 body1 ctx1 hdr1 true net1 c = (r, c2, ev) ->
            IsVisited (store c2) fingerprint = inr true
            /\ forall c3 ev3,
                 requestCheck parsedURL method2 (hr_GetBody req2) depth2 false
                              (net_robots net2) c2 = (Ok tt, c3, ev3) ->
                 scrape u2 method2 depth2 body2 ctx2 hdr2 true net2 c2
                 = (Err (AlreadyVisitedError parsedURL), c3, ev3).
Proof.
  intros Ha Hu1 Hu2 Hp Hr1 Hq1 Hr2 Hq2 Hsame Hm1 Hm2 fingerprint.
  split; [apply requestHash_hash64a |].
  intros c1 ev1 s' Hpre Hnew Hrec.
  pose proof (http_NewRequest_GetBody _ _ _ _ Hq1) as Hg1.
  pose proof (http_NewRequest_GetBody _ _ _ _ Hq2) as Hg2.
  assert (Hfirst :
    requestCheck parsedURL method1 (hr_GetBody req1) depth1 true
                 (net_robots net1) c = (Ok tt, set_store c1 s', ev1)).
  { rewrite (requestCheck_then_revisit _ _ _ _ _ _ _ _ Ha Hpre _ _ _
               (revisitBlock_fresh _ _ _ _ _ Hm1 Hg1 Hnew Hrec)).
    now rewrite app_nil_r. }
  split; [exact Hfirst |].
  intros r c2 ev Hrun.
  rewrite (scrape_unfold c _ _ _ _ _ _ _ _ _ _ _ _ Hu1 Hp Hr1 Hq1) in Hrun.
  destruct (bind_Ok_inv _ _ _ _ _ _ _ _ _ Hfirst Hrun) as [ev2 [Hk _]].
  destruct (steady_startFetch _ _ _ _ _ _ _ _ _ _ _ _ Hk) as [Hpol Hgrow].
  assert (Hin : IsVisited (store c2) fingerprint = inr true).
  { apply Hgrow. simpl. eapply Visited_recorded, Hrec. }
  split; [exact Hin |].
  intros c3 ev3 Hpre2.
  assert (Ha2 : AllowURLRevisit c2 = false).
  { destruct (steady_requestCheck _ _ _ _ _ _ _ _ _ _ Hpre) as [Hp1 _].
    unfold same_policy in *.
    change (AllowURLRevisit (policy c2) = false).
    rewrite <- Hpol. change (AllowURLRevisit (policy c1) = false).
    rewrite <- Hp1. exact Ha. }
  destruct (steady_requestCheck _ _ _ _ _ _ _ _ _ _ Hpre2) as [_ Hgrow2].
  rewrite (scrape_unfold c2 _ _ _ _ _ _ _ _ _ _ _ _ Hu2 Hp Hr2 Hq2).
  apply bind_Err.
  rewrite (requestCheck_then_revisit _ _ _ _ _ _ _ _ Ha2 Hpre2
             (Err (AlreadyVisitedError parsedURL)) c3 []).
  - now rewrite app_nil_r.
  - apply revisitBlock_visited; [exact Hm2 | exact Hg2 |].
    rewrite <- Hsame. apply Hgrow2, Hin.
Qed.

End Dedup.

(** ** The headers of the outbound request *)

Section OutboundHeaders.
Context `{Platform} {S : Type} `{Storage S}.

(** C2, as the code has it. The header set given to [scrape], when it is
    not nil, is the header of the outbound request by itself: the default
    headers of the collector are copied only when the caller gives none.
    In both cases the [User-Agent] of the collector is added exactly when
    there is no [User-Agent] key, so that the request built by [scrape]
    always has one. *)
Theorem scrape_headers (c : Collector S) (hdr : option Header) :
  CanonicalMIMEHeaderKey "User-Agent" = "User-Agent"%string ->
  let out := scrapeHeaders c hdr in
  (forall caller, hdr = Some caller ->
     out = (if isNil (caller !! "User-Agent"%string)
            then <["User-Agent"%string := [UserAgent c]]> caller
            else caller)
     /\ (forall k, k <> "User-Agent"%string -> out !! k = caller !! k)
     /\ out !! "User-Agent"%string
        = Some (default [UserAgent c] (caller !! "User-Agent"%string)))
  /\ (hdr = None ->
      forall copied,
        copied = match Headers c with
                 | Some defaults => copyHeaders defaults
                 | None => ∅
                 end ->
        out = (if isNil (copied !! "User-Agent"%string)
               then <["User-Agent"%string := [UserAgent c]]> copied
               else copied))
  /\ is_Some (out !! "User-Agent"%string)
  /\ (forall u method depth requestData ctx checkRevisit net href parsedURL rd req,
        urlParser_Parse u = inr href ->
        url_Parse href = inr parsedURL ->
        rewind requestData = Ok rd ->
        http_NewRequest method (url_String parsedURL) rd = Ok req ->
        hr_Header (withHeaderAndHost req out) = out
        /\ scrape u method depth requestData ctx hdr checkRevisit net c
           = bind (requestCheck parsedURL method (hr_GetBody req) depth
                                checkRevisit (net_robots net))
                  (fun _ => startFetch (url_String parsedURL) method depth rd ctx
                                       out (withHeaderAndHost req out)
                                       (net_fetch net)) c).
Proof.
  intros Hua out.
  assert (Hinject : forall h : Header,
             (if isNil (h !! "User-Agent"%string)
              then Header_Set h "User-Agent" (UserAgent c) else h)
             = (if isNil (h !! "User-Agent"%string)
                then <["User-Agent"%string := [UserAgent c]]> h else h)).
  { intros h. unfold Header_Set. now rewrite Hua. }
  split; [| split; [| split]].
  - intros caller ->. subst out. unfold scrapeHeaders. rewrite Hinject.
    split; [reflexivity |].
    destruct (caller !! "User-Agent"%string) as [v |] eqn:Ev; simpl.
    + split; [reflexivity | exact Ev].
    + split; [intros k Hk; now apply lookup_insert_ne | apply lookup_insert_eq].
  - intros -> copied ->. subst out. unfold scrapeHeaders. now rewrite Hinject.
  - subst out. unfold scrapeHeaders.
    match goal with
    | |- context [isNil (?h !! _)] =>
        rewrite (Hinject h); destruct (h !! "User-Agent"%string) eqn:Ev; simpl
    end.
    + rewrite Ev. eauto.
    + rewrite lookup_insert_eq. eauto.
  - intros u method depth requestData ctx checkRevisit net href parsedURL rd req
           Hu Hp Hr Hq.
    split.
    + unfold withHeaderAndHost. now destruct (negb _).
    + now apply (scrape_unfold c _ _ _ _ _ _ _ _ href).
Qed.

End OutboundHeaders.

(** C2 as stated does not hold: with default headers on the collector and
    a header set given by the caller, the request sent carries no default
    header. *)
Lemma scrape_headers_not_merged :
  let c := NewCollector 1 [Options.Headers {[ "X-Trace"%string := ["on"%string] ]}] in
  let caller : Header := {[ "Accept-Language"%string := ["en"%string] ]} in
  Headers c = Some {[ "X-Trace"%string := ["on"%string] ]}
  /\ exists req,
       @scrape Sample.platform _ _ "http://a.com/" "GET" 1 None None (Some caller) true
               (Sample.direct (Sample.ok200 "hello")) c
       = (Ok tt,
          set_wg (set_responseCount (set_requestCount (set_store c
             {[ requestHash (H := Sample.platform) "http://a.com/" None ]}) 1) 1) 0,
          [EvRoundTrip req])
       /\ hr_Header req !! "Accept-Language"%string = Some ["en"%string]
       /\ hr_Header req !! "X-Trace"%string = None.
Proof.
  split; [reflexivity |]. eexists. split; [vm_compute; reflexivity |].
  split; vm_compute; reflexivity.
Qed.

(** ** The response dispatcher *)

Section DispatchProperties.
Context `{Platform} {S : Type} `{Storage S}.

(** The handlers leave the collector as it is. *)
Lemma handleOnHTML_collector resp (c : Collector S) r c' ev :
  handleOnHTML resp c = (r, c', ev) -> c' = c.
Proof.
  intros Hrun. symmetry.
  refine (proj1 (keeps_handleOnHTML eq _ _ any_error resp c _ _ _ Hrun));
    congruence.
Qed.

Lemma handleOnXML_collector resp (c : Collector S) r c' ev :
  handleOnXML resp c = (r, c', ev) -> c' = c.
Proof.
  intros Hrun. symmetry.
  refine (proj1 (keeps_handleOnXML eq _ _ any_error resp c _ _ _ Hrun));
    congruence.
Qed.

Lemma rs_Request_set_baseURL resp request baseURL :
  exists request', rs_Request (set_baseURL resp request baseURL) = Some request'
                   /\ rq_URL request' = rq_URL request.
Proof. eexists. split; reflexivity. Qed.

(** With its request attached, a response makes neither handler panic,
    and the request stays attached. *)
Lemma handleOnHTML_total resp request (c : Collector S) :
  rs_Request resp = Some request ->
  exists html ev,
    handleOnHTML resp c = (Ok html, c, ev)
    /\ exists request', rs_Request (fst html) = Some request'.
Proof.
  intros Hreq. unfold handleOnHTML. rewrite bind_get.
  destruct (length (htmlCallbacks c) =? 0)%nat; [simpl; eauto 6 |].
  cbv zeta. destruct (negb _); [simpl; eauto 6 |].
  destruct (goquery_NewDocumentFromReader (rs_Body resp)) as [text | doc];
    [simpl; eauto 6 |].
  rewrite Hreq. unfold bind, emit, ret. simpl.
  eexists. eexists. split; [reflexivity |]. simpl.
  destruct (doc_base_href doc) as [href |]; [| eauto].
  destruct (urlParser_ParseRef _ href) as [? | u]; [eauto |].
  destruct (url_Parse u) as [? | baseURL]; [eauto |].
  simpl. eauto.
Qed.

Lemma handleOnXML_total resp request (c : Collector S) :
  rs_Request resp = Some request ->
  exists xml ev, handleOnXML resp c = (Ok xml, c, ev).
Proof.
  intros Hreq. unfold handleOnXML. rewrite bind_get.
  destruct (length (xmlCallbacks c) =? 0)%nat; [simpl; eauto |].
  rewrite Hreq. cbv zeta.
  destruct (negb _ && _); [simpl; eauto |].
  destruct (strings_Contains _ "html").
  - destruct (htmlquery_Parse (rs_Body resp)) as [text | doc]; [simpl; eauto |].
    unfold bind, emit, ret. simpl. eauto.
  - destruct (_ || _); [| simpl; eauto].
    destruct (xmlquery_Parse (rs_Body resp)) as [text | doc]; [simpl; eauto |].
    unfold bind, emit, ret. simpl. eauto.
Qed.

Lemma handleOnError_Some response e request ctx (c : Collector S) :
  handleOnError response (Some e) request ctx c
  = (Ok (Some e), c, map (fun f => EvOnError f e) (errorCallbacks c)).
Proof.
  unfold handleOnError. rewrite bind_get. unfold bind, emit, ret. simpl.
  now rewrite app_nil_r.
Qed.

(** C9, as the code has it. An exchange without transport error counts
    as a success exactly when error responses are parsed or the status is
    below 203. For such a response whose character set normalisation
    succeeds, the Response callbacks run, then the HTML and the XML
    extraction, an error of either being reported to the Error
    callbacks, and then the Scraped callbacks in every case; [fetch]
    returns the error of the XML extraction if there is one, and nil if
    neither extraction failed. When the character set normalisation
    fails, [fetch] returns that error at once: the response has been
    counted, and no Response, HTML, XML, Error or Scraped callback is
    invoked. *)
Theorem deliver_scraped (c : Collector S) (response : Response)
    (request : Request) (ctx : Ctx) :
  (handleOnError (Some response) None request ctx c = (Ok None, c, [])
   <-> ParseHTTPErrorResponse c = true \/ rs_StatusCode response < 203)
  /\ (forall body,
       fixCharset (DetectCharset c) (rq_ResponseCharacterEncoding request)
                  (rs_Headers response) (rs_Body response) = inr body ->
       let c1 := set_responseCount c ((responseCount c + 1) mod 2 ^ 32) in
       let response0 :=
         {| rs_StatusCode := rs_StatusCode response; rs_Body := body;
            rs_Ctx := Some ctx; rs_Request := Some request;
            rs_Headers := rs_Headers response |} in
       exists html evH xml evX r,
         handleOnHTML response0 c1 = (Ok html, c1, evH)
         /\ handleOnXML (fst html) c1 = (Ok xml, c1, evX)
         /\ deliver (Some response) request ctx c
            = (r, c1,
               map EvOnResponse (responseCallbacks c)
               ++ evH ++ reported c (snd html)
               ++ evX ++ reported c (snd xml)
               ++ map EvOnScraped (scrapedCallbacks c))
         /\ (forall e, snd xml = Some e -> r = Err e)
         /\ (snd html = None -> snd xml = None -> r = Ok tt))
  /\ forall text,
       fixCharset (DetectCharset c) (rq_ResponseCharacterEncoding request)
                  (rs_Headers response) (rs_Body response) = inl text ->
       deliver (Some response) request ctx c
       = (Err (ErrExternal text),
          set_responseCount c ((responseCount c + 1) mod 2 ^ 32), []).
Proof.
  split; [| split].
  - unfold handleOnError. rewrite bind_get.
    destruct (ParseHTTPErrorResponse c); simpl.
    + split; [now left | reflexivity].
    + destruct (rs_StatusCode response <? 203) eqn:Es.
      * apply Z.ltb_lt in Es. split; [now right | reflexivity].
      * apply Z.ltb_ge in Es. split; [discriminate |].
        intros [? | ?]; [discriminate | lia].
  - intros body Hfix c1 response0.
    destruct (handleOnHTML_total response0 request c1 eq_refl)
      as (html & evH & Hhtml & request' & Hreq').
    destruct (handleOnXML_total (fst html) request' c1 Hreq')
      as (xml & evX & Hxml).
    exists html, evH, xml, evX.
    exists (match snd xml with Some e => Err e | None => Ok tt end).
    split; [exact Hhtml |]. split; [exact Hxml |].
    split; [| split; [intros e -> | intros _ ->]; reflexivity].
    unfold deliver.
    erewrite bind_Ok; [| reflexivity |]; [reflexivity |].
    fold c1. rewrite bind_get.
    change (DetectCharset c1) with (DetectCharset c). rewrite Hfix.
    fold response0.
    erewrite bind_Ok;
      [| unfold handleOnResponse; rewrite bind_get; reflexivity |];
      [reflexivity |].
    erewrite bind_Ok; [| exact Hhtml |]; [reflexivity |].
    cbv zeta.
    erewrite bind_Ok with (ev1 := reported c (snd html));
      [| destruct (snd html) as [e |]; simpl;
         [erewrite bind_Ok; [| apply handleOnError_Some | reflexivity];
          now rewrite app_nil_r
         | reflexivity] |];
      [reflexivity |].
    erewrite bind_Ok; [| exact Hxml |]; [reflexivity |].
    erewrite bind_Ok with (ev1 := reported c (snd xml));
      [| destruct (snd xml) as [e |]; simpl;
         [erewrite bind_Ok; [| apply handleOnError_Some | reflexivity];
          now rewrite app_nil_r
         | reflexivity] |];
      [reflexivity |].
    erewrite bind_Ok;
      [| unfold handleOnScraped; rewrite bind_get; reflexivity |];
      [now rewrite app_nil_r |].
    now destruct (snd xml) as [e |].
  - intros text Hfix. unfold deliver.
    erewrite bind_Ok; [| reflexivity |]; [reflexivity |].
    rewrite bind_get.
    change (DetectCharset (set_responseCount c _)) with (DetectCharset c).
    now rewrite Hfix.
Qed.

End DispatchProperties.

(** C9 as stated does not hold: a response with status 200 whose character
    set normalisation fails ends [fetch] with that error before any
    callback; the registered Scraped callback is not invoked. *)
Lemma fetch_charset_failure_skips_scraped :
  let c := NewCollector 1 [Options.DetectCharset; Options.OnScraped "done"] in
  scrapedCallbacks c = ["done"%string]
  /\ exists req c',
       @scrape Sample.platform _ _ "http://a.com/" "GET" 1 None None None true
               (Sample.direct (Sample.ok200 "ab")) c
       = (Err (ErrExternal "Charset not detected."), c', [EvRoundTrip req])
       /\ responseCount c' = 1.
Proof.
  split; [reflexivity |]. eexists. eexists.
  split; [vm_compute; reflexivity | reflexivity].
Qed.

(** The error of the HTML extraction is reported to the Error callbacks
    but, the XML extraction not failing, it is not what [fetch] returns. *)
Example fetch_html_error_not_returned :
  let c := NewCollector 1 [Options.OnHTML "a[href]" "link"; Options.OnError "log";
                           Options.OnScraped "done"] in
  exists req c',
    @scrape Sample.platformWithoutHTML _ _ "http://a.com/" "GET" 1 None None None true
            (Sample.direct (Sample.withContentType (Sample.ok200 "<p>") "text/html")) c
    = (Ok tt, c',
       [EvRoundTrip req; EvOnError "log" (ErrExternal "html: unreadable");
        EvOnScraped "done"]).
Proof. eexists. eexists. vm_compute. reflexivity. Qed.

(** ** [Head] *)

Section HeadProperties.
Context `{Platform} {S : Type} `{Storage S}.

(** Admission control of a HEAD request that is not checked for
    revisits: no network, no store. *)
Lemma requestCheck_HEAD_unchecked parsedURL getBody depth robots (c : Collector S) :
  exists r,
    (forall s, requestCheck parsedURL "HEAD" getBody depth false robots (set_store c s)
               = (r, set_store c s, []))
    /\ forall e, r = Err e -> ~ is_already_visited e.
Proof.
  unfold requestCheck. cbv zeta.
  destruct ((0 <? MaxDepth c) && (MaxDepth c <? depth)) eqn:Ed.
  { exists (Err ErrMaxDepth). split.
    - intros s. rewrite bind_get. simpl. now rewrite Ed.
    - intros e [= <-]. easy. }
  destruct ((0 <? MaxRequests c) && (MaxRequests c <=? requestCount c)) eqn:Eb.
  { exists (Err ErrMaxRequests). split.
    - intros s. rewrite bind_get. simpl. now rewrite Ed, Eb.
    - intros e [= <-]. easy. }
  destruct (checkFilters c (url_String parsedURL) (Hostname parsedURL))
    as [err |] eqn:Ef.
  { exists (Err err). split.
    - intros s. rewrite bind_get. simpl. rewrite Ed, Eb.
      change (checkFilters (set_store c s)) with (checkFilters c). now rewrite Ef.
    - intros e [= <-]. revert Ef. unfold checkFilters.
      repeat case_cond; intros [= <-]; easy. }
  exists (Ok tt). split.
  - intros s. rewrite bind_get. simpl. rewrite Ed, Eb.
    change (checkFilters (set_store c s)) with (checkFilters c). now rewrite Ef.
  - discriminate.
Qed.

Lemma keeps_Client_Do_direct req x (c : Collector S) :
  x_hops x = [] ->
  keeps_at (fun c c' : Collector S => store c' = store c)
           (fun e => ~ is_already_visited e) (Client_Do req x) c.
Proof.
  intros Hx r c' ev. unfold Client_Do. rewrite Hx. simpl.
  unfold bind, emit. destruct (x_final x); simpl; intros [= <- <- <-];
    (split; [reflexivity |]); [intros e [= <-]; easy | discriminate].
Qed.

Lemma Head_direct URL net (c : Collector S) r c' ev :
  x_hops (net_fetch net) = [] ->
  Head URL net c = (r, c', ev) ->
  store c' = store c /\ forall e, r = Err e -> ~ is_already_visited e.
Proof.
  intros Hx. unfold Head, scrape.
  destruct (urlParser_Parse URL) as [text | href]; simpl lift_external.
  { rewrite bind_lift_Err. intros [= <- <- <-]. split; [reflexivity |].
    intros e [= <-]. easy. }
  rewrite bind_lift_Ok.
  destruct (url_Parse href) as [text | parsedURL]; simpl lift_external.
  { rewrite bind_lift_Err. intros [= <- <- <-]. split; [reflexivity |].
    intros e [= <-]. easy. }
  rewrite bind_lift_Ok, bind_get. cbv zeta. simpl rewind. rewrite bind_lift_Ok.
  destruct (http_NewRequest "HEAD" (url_String parsedURL) None) as [req | e0 |] eqn:Eq.
  - rewrite bind_lift_Ok.
    destruct (requestCheck_HEAD_unchecked parsedURL
                (hr_GetBody (withHeaderAndHost req (scrapeHeaders c None))) 1
                (net_robots net) c) as (r1 & Hr1 & He1).
    specialize (Hr1 (store c)). rewrite set_store_store in Hr1.
    destruct r1 as [[] | e1 |].
    + intros Hrun. destruct (bind_Ok_inv _ _ _ _ _ _ _ _ _ Hr1 Hrun) as [ev2 [Hk _]].
      assert (K : keeps_at (fun c c' : Collector S => store c' = store c)
                    (fun e => ~ is_already_visited e)
                    (startFetch (url_String parsedURL) "HEAD" 1 None None
                       (scrapeHeaders c None)
                       (withHeaderAndHost req (scrapeHeaders c None))
                       (net_fetch net)) c).
      { apply keeps_startFetch; try easy; try congruence.
        intros. now apply keeps_Client_Do_direct. }
      exact (K _ _ _ Hk).
    + rewrite (bind_Err _ _ _ _ _ _ Hr1). intros [= <- <- <-].
      split; [reflexivity |]. intros e [= <-]. now apply He1.
    + rewrite (bind_Panic _ _ _ _ _ Hr1). intros [= <- <- <-].
      split; [reflexivity | discriminate].
  - rewrite bind_lift_Err. intros [= <- <- <-]. split; [reflexivity |].
    intros e [= <-]. revert Eq. unfold http_NewRequest.
    repeat case_cond; intros [= <-]; easy.
  - unfold bind, lift. intros [= <- <- <-]. split; [reflexivity | discriminate].
Qed.

(** C10, as the code has it. [Head] calls [scrape] with [checkRevisit]
    false, so admission control of a Head call neither reads nor writes
    the store and does not return the already-visited error. The
    redirect check of the fetch still fingerprints redirect targets; for
    calls whose fetch is not redirected, none of any number of Head calls
    fails with the already-visited error, and on a collector without
    registered callbacks they leave the store as it is. (A callback is
    code of the user: one that calls [Visit] records a fingerprint while
    the Head call runs.) *)
Theorem Head_store (c : Collector S) (URL : string) :
  (forall net, Head URL net c = scrape URL "HEAD" 1 None None None false net c)
  /\ (forall parsedURL getBody depth robots,
        exists r,
          (forall s, requestCheck parsedURL "HEAD" getBody depth false robots
                                  (set_store c s)
                     = (r, set_store c s, []))
          /\ forall e, r = Err e -> ~ is_already_visited e)
  /\ (forall nets rs c',
        Forall (fun net => x_hops (net_fetch net) = []) nets ->
        repeatHead URL nets c = (rs, c') ->
        length rs = length nets
        /\ Forall (fun r => forall e, r = Err e -> ~ is_already_visited e) rs
        /\ (no_callbacks c -> store c' = store c)).
Proof.
  split; [reflexivity |]. split; [intros; apply requestCheck_HEAD_unchecked |].
  intros nets rs c' Hall Hrun.
  assert (Hall3 : store c' = store c
                  /\ length rs = length nets
                  /\ Forall (fun r => forall e, r = Err e -> ~ is_already_visited e) rs).
  { revert c rs c' Hall Hrun.
    induction nets as [| net nets IH]; intros c rs c' Hall; simpl.
    - intros [= <- <-]. repeat split. constructor.
    - inversion Hall as [| ? ? Hx Hall']; subst.
      destruct (Head URL net c) as [[r c1] ev] eqn:Eh.
      destruct (repeatHead URL nets c1) as [rs' c2] eqn:Er.
      intros [= <- <-].
      destruct (Head_direct _ _ _ _ _ _ Hx Eh) as [Hs1 He1].
      destruct (IH c1 rs' c2 Hall' Er) as (Hs2 & Hlen & Hrs).
      split; [congruence |]. split; [simpl; congruence |]. now constructor. }
  destruct Hall3 as (Hstore & Hlen & Hrs). auto.
Qed.

End HeadProperties.

(** C10 as stated does not hold: a Head call that is redirected to another
    document records the fingerprint of the target, and a second Head call
    to the same URL fails with the already-visited error of the redirect
    check. *)
Lemma Head_redirect_recorded_then_rejected :
  let c := Init 1 in
  let target := Sample.httpURL "a.com" "/b" in
  let net := Sample.redirected (Sample.headRequest target) (Sample.ok200 EmptyString) in
  store c = ∅
  /\ exists c1 ev1 c2 ev2,
       @Head Sample.platform _ _ "http://a.com/" net c = (Ok tt, c1, ev1)
       /\ store c1 = {[ requestHash (H := Sample.platform) "http://a.com/b" None ]}
       /\ @Head Sample.platform _ _ "http://a.com/" net c1
          = (Err (UrlError (AlreadyVisitedError target)), c2, ev2).
Proof.
  split; [reflexivity |]. do 4 eexists.
  split; [vm_compute; reflexivity |]. split; vm_compute; reflexivity.
Qed.

(** C1 as stated does not hold: two POST requests without a body to URLs
    that normalise to the same string are both accepted by a collector
    that does not allow revisits, and nothing is recorded. *)
Lemma scrape_POST_without_body_not_deduplicated :
  let c := Init 1 in
  let net := Sample.direct (Sample.ok200 "hello") in
  AllowURLRevisit c = false
  /\ normalizeURL (H := Sample.platform) "http://a.com"
     = normalizeURL (H := Sample.platform) "HTTP://A.COM/"
  /\ exists c1 ev1 c2 ev2,
       @scrape Sample.platform _ _ "http://a.com" "POST" 1 None None None true net c
       = (Ok tt, c1, ev1)
       /\ store c1 = ∅
       /\ @scrape Sample.platform _ _ "HTTP://A.COM/" "POST" 1 None None None true net c1
          = (Ok tt, c2, ev2).
Proof.
  split; [reflexivity |]. split; [reflexivity |]. do 4 eexists.
  split; [vm_compute; reflexivity |]. split; vm_compute; reflexivity.
Qed.

(** C3 as stated does not hold: with [checkRevisit] true and a body that
    is not seekable, [scrape] does not fail; the request is sent. *)
Lemma scrape_unseekable_body_accepted :
  let body := {| rd_kind := OtherReader;
                 rd_data := String.list_byte_of_string "x=1"; rd_off := 0 |} in
  isReadSeeker body = false
  /\ exists req c',
       @scrape Sample.platform _ _ "http://a.com/" "POST" 1 (Some body) None None true
               (Sample.direct (Sample.ok200 "hello")) (Init 1)
       = (Ok tt, c', [EvRoundTrip req])
       /\ hr_Body req = Some body.
Proof.
  split; [reflexivity |]. do 2 eexists.
  split; [vm_compute; reflexivity | reflexivity].
Qed.

(** ** The theorems at work on the concrete environment *)

Lemma scrape_dedup_witness :
  let net := Sample.direct (Sample.ok200 "hello") in
  let first :=
    @scrape Sample.platform _ _ "http://a.com" "GET" 1 None None None true net (Init 1) in
  fst (fst first) = Ok tt
  /\ @scrape Sample.platform _ _ "HTTP://A.COM/" "GET" 1 None None None true net
             (snd (fst first))
     = (Err (AlreadyVisitedError (Sample.httpURL "a.com" "/")), snd (fst first), []).
Proof.
  intros net first.
  pose proof (@scrape_dedup Sample.platform InMemoryStorage _ _ (Init 1)
                "http://a.com" "HTTP://A.COM/" "GET" "GET" 1 1 None None None None
                None None net net "http://a.com/" (Sample.httpURL "a.com" "/")
                None None
                (Sample.getRequest (Sample.httpURL "a.com" "/"))
                (Sample.getRequest (Sample.httpURL "a.com" "/"))
                eq_refl eq_refl eq_refl eq_refl eq_refl eq_refl eq_refl eq_refl
                eq_refl (or_introl eq_refl) (or_introl eq_refl)) as [_ Hrun].
  specialize (Hrun (Init 1) []
                {[ requestHash (H := Sample.platform) "http://a.com/" None ]}).
  destruct Hrun as [_ Hrun]; [reflexivity | reflexivity | reflexivity |].
  specialize (Hrun (fst (fst first)) (snd (fst first)) (snd first)).
  destruct Hrun as [_ Hsecond]; [vm_compute; reflexivity |].
  split; [vm_compute; reflexivity |].
  apply Hsecond. vm_compute. reflexivity.
Defined.

Lemma scrape_headers_witness :
  let c := NewCollector 1 [Options.Headers {[ "X-Trace"%string := ["on"%string] ]}] in
  let caller : Header := {[ "Accept-Language"%string := ["en"%string] ]} in
  scrapeHeaders (H := Sample.platform) c (Some caller)
  = <["User-Agent"%string := [UserAgent c]]> caller.
Proof.
  intros c caller.
  exact (proj1 (proj1 (@scrape_headers Sample.platform InMemoryStorage _ c (Some caller)
                         eq_refl) caller eq_refl)).
Defined.

Lemma scrape_body_rewound_witness :
  let r := {| rd_kind := BytesReader;
              rd_data := String.list_byte_of_string "x=1"; rd_off := 2 |} in
  let r0 := {| rd_kind := BytesReader;
               rd_data := String.list_byte_of_string "x=1"; rd_off := 0 |} in
  let net := Sample.direct (Sample.ok200 "hello") in
  @scrape Sample.platform _ _ "http://a.com/" "POST" 1 (Some r) None None true net (Init 1)
  = @scrape Sample.platform _ _ "http://a.com/" "POST" 1 (Some r0) None None true net (Init 1).
Proof.
  intros r r0 net.
  pose proof (@scrape_body_rewound Sample.platform InMemoryStorage _ (Init 1)
                "http://a.com/" "POST" 1 None None true net) as (_ & _ & Hrw & _).
  exact (proj2 (proj2 (Hrw r r0 eq_refl eq_refl))).
Defined.

Lemma scrape_MaxDepth_iff_witness :
  let c := NewCollector 1 [Options.MaxDepth 1] in
  let net := Sample.direct (Sample.ok200 "hello") in
  @scrape Sample.platform _ _ "http://a.com/" "GET" 2 None None None true net c
  = (Err ErrMaxDepth, c, []).
Proof.
  intros c net.
  apply (proj2 (@scrape_MaxDepth_iff Sample.platform InMemoryStorage _ c
                  "http://a.com/" "GET" 2 None None None true net "http://a.com/"
                  (Sample.httpURL "a.com" "/") None
                  (Sample.getRequest (Sample.httpURL "a.com" "/"))
                  eq_refl eq_refl eq_refl eq_refl)).
  simpl. lia.
Defined.

Lemma requestCheck_order_witness :
  let c := NewCollector 1 [Options.AllowedDomains ["a.com"%string]] in
  @requestCheck Sample.platform _ _ (Sample.httpURL "b.com" "/") "GET" None 1 true
                (net_robots (Sample.direct (Sample.ok200 "hello"))) c
  = (Err ErrForbiddenDomain, c, []).
Proof.
  intros c.
  destruct (@requestCheck_order Sample.platform InMemoryStorage _ c
              (Sample.httpURL "b.com" "/") "GET" None 1 true
              (net_robots (Sample.direct (Sample.ok200 "hello"))))
    as (_ & _ & Hfilter & _).
  apply Hfilter; [simpl; lia | simpl; lia | reflexivity].
Defined.

Lemma checkRedirectFunc_revisit_witness :
  let first := Sample.getRequest (Sample.httpURL "a.com" "/") in
  let run := @checkRedirectFunc Sample.platform _ _ first [first] (Init 1) in
  store (snd (fst run)) = store (Init 1).
Proof.
  intros first run.
  destruct (@checkRedirectFunc_revisit Sample.platform InMemoryStorage _ (Init 1)
              first first []) as [Hskip _].
  exact (proj1 (Hskip (or_introl eq_refl) (fst (fst run)) (snd (fst run)) (snd run)
                  eq_refl)).
Defined.

Lemma checkRedirectFunc_handler_cap_authorization_witness :
  let c := NewCollector 1 [Options.AllowURLRevisit] in
  let first := Sample.withAuthorization
                 (Sample.getRequest (Sample.httpURL "a.com" "/")) "Basic abc" in
  let next := Sample.withAuthorization
                (Sample.getRequest (Sample.httpURL "b.com" "/")) "Basic abc" in
  @checkRedirectFunc Sample.platform _ _ next [first] c
  = (Ok (delAuthorization (H := Sample.platform) next), c, [])
  /\ hr_Header (delAuthorization (H := Sample.platform) next)
     !! "Authorization"%string = None.
Proof.
  intros c first next.
  destruct (@checkRedirectFunc_handler_cap_authorization Sample.platform
              InMemoryStorage _ c c next first [] [] eq_refl eq_refl)
    as (_ & _ & Hfollow).
  destruct (Hfollow eq_refl ltac:(simpl; lia)) as (lastRequest & Hlast & Hdiff & _).
  injection Hlast as <-.
  destruct (Hdiff ltac:(discriminate)) as (Hrun & Hdel & _).
  split; [exact Hrun | exact Hdel].
Defined.

Lemma deliver_scraped_witness :
  let c := NewCollector 1 [Options.OnResponse "seen"; Options.OnScraped "done"] in
  let c2 := NewCollector 1 [Options.DetectCharset; Options.OnScraped "done"] in
  let request := Sample.asRequest (Sample.getRequest (Sample.httpURL "a.com" "/")) 1 in
  @deliver Sample.platform _ (Some (Sample.ok200 "hello")) request ∅ c
  = (Ok tt, set_responseCount c 1, [EvOnResponse "seen"; EvOnScraped "done"])
  /\ @deliver Sample.platform _ (Some (Sample.ok200 "ab")) request ∅ c2
     = (Err (ErrExternal "Charset not detected."), set_responseCount c2 1, []).
Proof.
  intros c c2 request. split.
  - destruct (proj1 (proj2 (@deliver_scraped Sample.platform InMemoryStorage c
                              (Sample.ok200 "hello") request ∅))
                (String.list_byte_of_string "hello") eq_refl)
      as (html & evH & xml & evX & r & Hhtml & Hxml & Hrun & _ & Hnil).
    injection Hhtml as <- <-. injection Hxml as <- <-.
    rewrite Hrun, (Hnil eq_refl eq_refl). reflexivity.
  - exact (proj2 (proj2 (@deliver_scraped Sample.platform InMemoryStorage c2
                           (Sample.ok200 "ab") request ∅))
             "Charset not detected."%string eq_refl).
Defined.

Lemma Head_store_witness :
  let net := Sample.direct (Sample.ok200 EmptyString) in
  let run := @repeatHead Sample.platform _ _ "http://a.com/" [net; net; net] (Init 1) in
  store (snd run) = store (Init 1) /\ length (fst run) = 3%nat.
Proof.
  intros net run.
  destruct (@Head_store Sample.platform InMemoryStorage _ (Init 1) "http://a.com/")
    as (_ & _ & Hrepeat).
  assert (Hrun : @repeatHead Sample.platform _ _ "http://a.com/" [net; net; net] (Init 1)
                 = (fst run, snd run)) by (vm_compute; reflexivity).
  destruct (Hrepeat [net; net; net] (fst run) (snd run)
              ltac:(repeat constructor) Hrun) as (Hlen & _ & Hstore).
  split; [apply Hstore; repeat split | exact Hlen].
Defined.

(** * Further properties of the code *)

(** ** The fingerprint *)

Lemma fnv_Write_app (hash : Z) (a b : list Byte.byte) :
  fnv.Write (fnv.Write hash a) b = fnv.Write hash (a ++ b).
Proof. unfold fnv.Write. now rewrite fold_left_app. Qed.

Section FingerprintProperties.
Context `{Platform}.

(** X2. The fingerprint hashes the normalised URL and the body as one
    stream of bytes: a nil body and an empty body give the same
    fingerprint, and two requests whose normalised URL followed by the
    body is the same byte sequence have the same fingerprint, wherever the
    URL ends and the body begins. *)
Theorem requestHash_one_stream (u1 u2 : string) (b1 b2 : list Byte.byte) :
  requestHash u1 None = requestHash u1 (Some [])
  /\ (String.list_byte_of_string (normalizeURL u1) ++ b1
      = String.list_byte_of_string (normalizeURL u2) ++ b2 ->
      requestHash u1 (Some b1) = requestHash u2 (Some b2)).
Proof.
  split; [reflexivity |].
  intros Heq. unfold requestHash, fnv.Sum64. now rewrite !fnv_Write_app, Heq.
Qed.

End FingerprintProperties.

Lemma requestHash_one_stream_witness :
  requestHash (H := Sample.platform) "http://a.com/"
              (Some (String.list_byte_of_string "b"))
  = requestHash (H := Sample.platform) "http://a.com/b" (Some []).
Proof.
  apply (proj2 (@requestHash_one_stream Sample.platform "http://a.com/" "http://a.com/b"
                  (String.list_byte_of_string "b") [])).
  reflexivity.
Defined.

(** ** The robots cache *)

Section RobotsProperties.
Context `{Platform} {S : Type} `{Storage S}.

(** An error of the client is a wrapped one; [Client.Get] can also fail
    to build its request. *)
Lemma followRedirects_error hops final via current (c : Collector S) e c' ev :
  followRedirects hops final via current c = (Err e, c', ev) ->
  exists e', e = UrlError e'.
Proof.
  revert via current c c' ev.
  induction hops as [| hop hops IH]; intros via current c c' ev; simpl.
  - destruct final; intros [= <- <- <-]; eauto.
  - destruct (checkRedirectFunc (hop_request hop) via c) as [[[req' | e0 |] c4] ev4].
    + unfold bind at 1, emit.
      destruct (followRedirects hops final (via ++ [req']) (Some req') c4)
        as [[r5 c5] ev5] eqn:E5.
      intros [= -> <- <-]. exact (IH _ _ _ _ _ E5).
    + destruct e0; intros [= <- <- <-]; eauto.
    + discriminate.
Qed.

Lemma Client_Do_error req x (c : Collector S) e c' ev :
  Client_Do req x c = (Err e, c', ev) -> exists e', e = UrlError e'.
Proof.
  unfold Client_Do, bind, emit.
  destruct (followRedirects (x_hops x) (x_final x) [req] None c)
    as [[r1 c1] ev1] eqn:E1.
  intros [= -> <- <-]. exact (followRedirects_error _ _ _ _ _ _ _ _ E1).
Qed.

Lemma Client_Get_error url x (c : Collector S) e c' ev :
  Client_Get url x c = (Err e, c', ev) ->
  (exists e', e = UrlError e') \/ (exists text, e = ErrExternal text).
Proof.
  unfold Client_Get.
  destruct (http_NewRequest "GET" url None) as [req | e1 |] eqn:Enew.
  - rewrite bind_lift_Ok. unfold bind at 1.
    destruct (Client_Do req x c) as [[[a | e2 |] c3] ev3] eqn:Edo; try discriminate.
    intros [= <- <- <-]. left. exact (Client_Do_error _ _ _ _ _ _ Edo).
  - rewrite bind_lift_Err. intros [= <- <- <-]. right.
    revert Enew. unfold http_NewRequest. repeat case_cond; intros [= <-]; eauto.
  - discriminate.
Qed.

Lemma checkRobots_hit (u : URL) (x : Exchange) (c : Collector S) (robot : RobotsData) :
  robotsMap c !! Host u = Some robot ->
  checkRobots u x c
  = (match robot (UserAgent c) with
     | None => Ok tt
     | Some uaGroup =>
         if uaGroup (if negb (RawQuery u =? "")%string
                     then EscapedPath u +:+ "?" +:+ QueryEncode u
                     else EscapedPath u)
         then Ok tt else Err ErrRobotsTxtBlocked
     end, c, []).
Proof.
  intros Hhit. unfold checkRobots. rewrite bind_get, Hhit, bind_ret.
  destruct (robot (UserAgent c)) as [uaGroup |]; [| reflexivity].
  cbv zeta. now destruct (uaGroup _).
Qed.

(** X3. A host whose ruleset is in the cache is checked without network
    I/O: the outcome does not depend on what the network would answer, the
    collector is left as it is, and the URL is blocked exactly when the
    group of the collector's user agent exists and rejects the escaped
    path, extended by the re-encoded query when there is one. *)
Theorem checkRobots_cached (u : URL) (x : Exchange) (c : Collector S)
    (robot : RobotsData) :
  robotsMap c !! Host u = Some robot ->
  let eu := if negb (RawQuery u =? "")%string
            then EscapedPath u +:+ "?" +:+ QueryEncode u
            else EscapedPath u in
  exists r,
    (forall x', checkRobots u x' c = (r, c, []))
    /\ (r = Err ErrRobotsTxtBlocked <->
        exists uaGroup, robot (UserAgent c) = Some uaGroup /\ uaGroup eu = false)
    /\ (r = Ok tt <->
        robot (UserAgent c) = None
        \/ exists uaGroup, robot (UserAgent c) = Some uaGroup /\ uaGroup eu = true).
Proof.
  intros Hhit eu. eexists.
  split; [intros x'; exact (checkRobots_hit u x' c robot Hhit) |].
  fold eu. destruct (robot (UserAgent c)) as [uaGroup |].
  - destruct (uaGroup eu) eqn:Et.
    + split; [| split].
      * split; [discriminate | intros (g & [= <-] & Hg); congruence].
      * intros _. right. eauto.
      * reflexivity.
    + split; [| split].
      * split; [eauto | reflexivity].
      * discriminate.
      * intros [? | (g & [= <-] & Hg)]; congruence.
  - split; [| split].
    + split; [discriminate | intros (g & Hg & _); discriminate].
    + now left.
    + reflexivity.
Qed.

(** X4. At most one fetch of robots.txt per host: once a check for a host
    has ended with a verdict (allowed or blocked), the ruleset is in the
    cache, also when the verdict was to block, and every later check for a
    URL of that host is made without network I/O and leaves the collector
    as it is. *)
Theorem checkRobots_once_per_host (u u' : URL) (x x' : Exchange)
    (c c1 : Collector S) (r : result unit) (ev : list Event) :
  checkRobots u x c = (r, c1, ev) ->
  r = Ok tt \/ r = Err ErrRobotsTxtBlocked ->
  Host u' = Host u ->
  is_Some (robotsMap c1 !! Host u)
  /\ exists r', checkRobots u' x' c1 = (r', c1, [])
                /\ (r' = Ok tt \/ r' = Err ErrRobotsTxtBlocked).
Proof.
  intros Hrun Hverdict Hhost.
  assert (Hcached : is_Some (robotsMap c1 !! Host u)).
  { revert Hrun. unfold checkRobots. rewrite bind_get.
    destruct (robotsMap c !! Host u) as [robot |] eqn:Hlook.
    - rewrite bind_ret.
      destruct (robot (UserAgent c)) as [g |]; [cbv zeta; destruct (g _) |];
        intros [= <- <- <-]; rewrite Hlook; eauto.
    - unfold bind at 1. unfold bind at 1.
      destruct (Client_Get _ x c) as [[[resp | e |] c2] ev2] eqn:Eget.
      + destruct (robotstxt_FromResponse (rs_StatusCode resp) (rs_Body resp))
          as [text | robot] eqn:Eparse; simpl.
        * intros [= <- <- <-]. destruct Hverdict; discriminate.
        * destruct (robot (UserAgent c)) as [g |]; [cbv zeta; destruct (g _) |];
            intros [= <- <- <-]; simpl; rewrite lookup_insert_eq; eauto.
      + intros [= <- <- <-].
        destruct Hverdict as [Hv | Hv]; [discriminate |]. injection Hv as ->.
        destruct (Client_Get_error _ _ _ _ _ _ Eget) as [[e' He] | [text He]];
          discriminate.
      + intros [= <- <- <-]. destruct Hverdict; discriminate. }
  split; [exact Hcached |].
  destruct Hcached as [robot Hrobot]. rewrite <- Hhost in Hrobot.
  rewrite (checkRobots_hit u' x' c1 robot Hrobot).
  eexists. split; [reflexivity |].
  destruct (robot (UserAgent c1)) as [g |]; [destruct (g _) |]; auto.
Qed.

End RobotsProperties.

(** ** What [scrape] keeps *)

Section ScrapeFrame.
Context `{Platform} {S : Type} `{StorageLaws S}.


End ScrapeFrame.

Section ScrapeCounters.
Context `{Platform} {S : Type} `{Storage S}.

Lemma same_counters_refl (c : Collector S) : same_counters c c.
Proof. now repeat split. Qed.

Lemma same_counters_trans (c1 c2 c3 : Collector S) :
  same_counters c1 c2 -> same_counters c2 c3 -> same_counters c1 c3.
Proof.
  intros (A1 & A2 & A3) (B1 & B2 & B3).
  repeat split; [congruence | congruence | now transitivity (policy c2)].
Qed.

Lemma requestCheck_same_counters parsedURL method getBody depth checkRevisit robots
    (c : Collector S) r c' ev :
  requestCheck parsedURL method getBody depth checkRevisit robots c = (r, c', ev) ->
  same_counters c c'.
Proof.
  intros Hrun.
  assert (K : keeps_at same_counters any_error
                (requestCheck parsedURL method getBody depth checkRevisit robots) c).
  { apply keeps_requestCheck;
      first [ exact same_counters_refl | exact same_counters_trans
            | easy | (intros; now repeat split) ]. }
  exact (proj1 (K _ _ _ Hrun)).
Qed.

(** [fetch] without the deferred [Done]: the wait group stays, the request
    counter moves by one. *)
Lemma bind_AddUint32_requestCount {B} (k : Z -> Act S B) (c : Collector S) :
  bind AddUint32_requestCount k c
  = k ((requestCount c + 1) mod 2 ^ 32)
      (set_requestCount c ((requestCount c + 1) mod 2 ^ 32)).
Proof.
  unfold bind, AddUint32_requestCount.
  now destruct (k _ _) as [[r1 c1] ev1].
Qed.

Lemma fetch_body_counters u method depth rd ctx hdr req x (c : Collector S) r c' ev :
  fetch_body u method depth rd ctx hdr req x c = (r, c', ev) ->
  wg c' = wg c /\ requestCount c' = (requestCount c + 1) mod 2 ^ 32.
Proof.
  unfold fetch_body. cbv zeta. rewrite bind_AddUint32_requestCount.
  intros Hrun.
  assert (Rr : forall a : Collector S, wg a = wg a /\ requestCount a = requestCount a)
    by (intros; split; reflexivity).
  assert (Rt : forall a b d : Collector S,
             wg b = wg a /\ requestCount b = requestCount a ->
             wg d = wg b /\ requestCount d = requestCount b ->
             wg d = wg a /\ requestCount d = requestCount a)
    by (intros a b d [? ?] [? ?]; split; congruence).
  match type of Hrun with
  | ?m ?c0 = _ =>
      assert (K : keeps_at (fun a b : Collector S =>
                              wg b = wg a /\ requestCount b = requestCount a)
                           any_error m c0)
  end.
  { apply (keeps_bind _ Rt); [now apply keeps_handleOnRequest |].
    intros request c2 ev2 _.
    destruct (rq_abort request); [now apply keeps_ret |].
    apply (keeps_bind _ Rt).
    { eapply keeps_attempt.
      apply (keeps_backend_Cache _ Rr Rt any_error I);
        [| intros; now apply keeps_checkHeadersFunc].
      intros. eapply keeps_weaken; [| apply keeps_Client_Do]; try easy;
        try (intros; split; reflexivity). }
    intros answer c3 ev3 _.
    apply (keeps_bind _ Rt); [now apply keeps_handleOnError |].
    intros err c4 ev4 _.
    destruct err; [now apply keeps_fail |].
    apply keeps_deliver; try easy; try (intros; split; reflexivity). }
  destruct (K _ _ _ Hrun) as [[Hw Hn] _]. simpl in Hw, Hn.
  now split.
Qed.

(** X6. The wait group is balanced: a call of [scrape] on a synchronous
    collector leaves its counter where it was, however the call ends (the
    [Done] of [fetch] is deferred); on an asynchronous collector the
    counter is one higher exactly when the call returns nil, the fetch
    being then handed to a goroutine, and unchanged when the request is
    rejected. *)
Theorem scrape_wg_balanced (c c' : Collector S) (u method : string) (depth : Z)
    (requestData : option Reader) (ctx : option Ctx) (hdr : option Header)
    (checkRevisit : bool) (net : Network) (r : result unit) (ev : list Event) :
  scrape u method depth requestData ctx hdr checkRevisit net c = (r, c', ev) ->
  (Async c = false -> wg c' = wg c)
  /\ (Async c = true -> r = Ok tt -> wg c' = wg c + 1)
  /\ (Async c = true -> r <> Ok tt -> wg c' = wg c).
Proof.
  unfold scrape.
  destruct (urlParser_Parse u) as [text | href]; simpl lift_external.
  { rewrite bind_lift_Err. intros [= <- <- <-]. repeat split; congruence. }
  rewrite bind_lift_Ok.
  destruct (url_Parse href) as [text | parsedURL]; simpl lift_external.
  { rewrite bind_lift_Err. intros [= <- <- <-]. repeat split; congruence. }
  rewrite bind_lift_Ok, bind_get. cbv zeta.
  destruct (rewind requestData) as [rd | e0 |].
  2: { rewrite bind_lift_Err. intros [= <- <- <-]. repeat split; congruence. }
  2: { unfold bind, lift. intros [= <- <- <-]. repeat split; congruence. }
  rewrite bind_lift_Ok.
  destruct (http_NewRequest method (url_String parsedURL) rd) as [req | e0 |].
  2: { rewrite bind_lift_Err. intros [= <- <- <-]. repeat split; congruence. }
  2: { unfold bind, lift. intros [= <- <- <-]. repeat split; congruence. }
  rewrite bind_lift_Ok. unfold bind at 1.
  destruct (requestCheck parsedURL method _ depth checkRevisit (net_robots net) c)
    as [[[[] | e1 |] c1] ev1] eqn:Echeck;
    pose proof (requestCheck_same_counters _ _ _ _ _ _ _ _ _ _ Echeck)
      as (Hw1 & Hn1 & Hp1).
  - unfold startFetch. unfold bind at 1. unfold modify at 1.
    rewrite bind_get.
    change (Async (set_wg c1 (wg c1 + 1))) with (Async (policy c1)).
    unfold same_policy in Hp1. rewrite <- Hp1.
    change (Async (policy c)) with (Async c).
    destruct (Async c).
    + unfold emit. intros [= <- <- <-]. simpl.
      split; [discriminate |]. split; [intros; congruence | congruence].
    + unfold fetch.
      destruct (fetch_body _ _ _ _ _ _ _ _ (set_wg c1 (wg c1 + 1)))
        as [[r2 c2] ev2] eqn:Ebody.
      intros [= <- <- <-]. simpl.
      destruct (fetch_body_counters _ _ _ _ _ _ _ _ _ _ _ _ Ebody) as [Hw2 _].
      simpl in Hw2. split; [intros _; lia |]. split; discriminate.
  - intros [= <- <- <-]. repeat split; congruence.
  - intros [= <- <- <-]. repeat split; congruence.
Qed.



End ScrapeCounters.

(** ** Aborting a request, and the error path *)

Section FetchPaths.
Context `{Platform} {S : Type} `{Storage S}.

Lemma rangeRequestCallbacks_run mk fs r (c : Collector S) :
  rangeRequestCallbacks mk fs r c
  = (Ok (fold_left (fun r f => rc_run f r) fs r), c, map (fun f => mk (rc_name f)) fs).
Proof.
  revert r. induction fs as [| f fs IH]; intros r; simpl; [reflexivity |].
  erewrite bind_Ok; [| reflexivity | apply IH]. reflexivity.
Qed.



(** X10. [handleOnError] for a response that is there: it returns nil
    exactly when there is no error and the status is below 203 or error
    responses are parsed, and then it invokes nothing and leaves the
    collector as it is; otherwise it returns the error it was given or,
    without one, the status text as an error, after invoking every Error
    callback once, in registration order, with that error. *)
Theorem handleOnError_outcome (c : Collector S) (response : Response)
    (err : option error) (request : Request) (ctx : Ctx) :
  let accepted :=
    err = None /\ (ParseHTTPErrorResponse c = true \/ rs_StatusCode response < 203) in
  exists returned c',
    handleOnError (Some response) err request ctx c
    = (Ok returned, c', reported c returned)
    /\ (returned = None <-> accepted)
    /\ (returned = None -> c' = c)
    /\ (forall e, err = Some e -> returned = Some e)
    /\ (err = None -> ~ accepted ->
        returned = Some (ErrStatusText (rs_StatusCode response))).
Proof.
  intros accepted. subst accepted.
  assert (Hrun : exists returned,
            handleOnError (Some response) err request ctx c
            = (Ok returned, c, reported c returned)
            /\ (returned = None <->
                err = None
                /\ (ParseHTTPErrorResponse c = true \/ rs_StatusCode response < 203))
            /\ (forall e, err = Some e -> returned = Some e)
            /\ (err = None ->
                ~ (err = None
                   /\ (ParseHTTPErrorResponse c = true
                       \/ rs_StatusCode response < 203)) ->
                returned = Some (ErrStatusText (rs_StatusCode response)))).
  { unfold handleOnError. rewrite bind_get.
    destruct err as [e |].
    - exists (Some e). unfold bind, emit, ret. simpl. rewrite app_nil_r.
      split; [reflexivity |]. split; [| split].
      + split; [discriminate | intros [? _]; discriminate].
      + now intros e0 [= <-].
      + discriminate.
    - destruct (ParseHTTPErrorResponse c) eqn:Ep; simpl.
      + exists None. split; [reflexivity |]. split; [| split].
        * split; [intros _; split; [reflexivity | now left] | reflexivity].
        * discriminate.
        * intros _ Hn. exfalso. apply Hn. split; [reflexivity | now left].
      + destruct (rs_StatusCode response <? 203) eqn:Es.
        * apply Z.ltb_lt in Es. exists None. split; [reflexivity |]. split; [| split].
          -- split; [intros _; split; [reflexivity | now right] | reflexivity].
          -- discriminate.
          -- intros _ Hn. exfalso. apply Hn. split; [reflexivity | now right].
        * apply Z.ltb_ge in Es. exists (Some (ErrStatusText (rs_StatusCode response))).
          unfold bind, emit, ret. simpl. rewrite app_nil_r.
          split; [reflexivity |]. split; [| split].
          -- split; [discriminate |]. intros [_ [? | ?]]; [discriminate | lia].
          -- discriminate.
          -- reflexivity. }
  destruct Hrun as (returned & Hrun & Hnil & Hgiven & Hstatus).
  exists returned, c. auto.
Qed.

End FetchPaths.

(** ** [Visit] and its HEAD probe *)

Section VisitProperties.
Context `{Platform} {S : Type} `{Storage S}.


Lemma http_NewRequest_nil_body method url req :
  http_NewRequest method url None = Ok req -> hr_GetBody req = None.
Proof.
  unfold http_NewRequest. destruct (negb _); [discriminate |].
  destruct (url_Parse url); [discriminate |]. now intros [= <-].
Qed.



End VisitProperties.

(** ** Detaching callbacks *)

Lemma rangeFindIndex_first {A : Type} (matches : A -> bool) (before : list A)
    (cc : A) (after : list A) (i : nat) :
  Forall (fun x => matches x = false) before -> matches cc = true ->
  rangeFindIndex matches (before ++ cc :: after) i = Some (i + length before)%nat.
Proof.
  intros Hbefore Hcc. revert i.
  induction Hbefore as [| x before Hx _ IH]; intros i; simpl.
  - rewrite Hcc. f_equal. lia.
  - rewrite Hx, IH. f_equal. lia.
Qed.

Lemma rangeFindIndex_none {A : Type} (matches : A -> bool) (cs : list A) (i : nat) :
  Forall (fun x => matches x = false) cs -> rangeFindIndex matches cs i = None.
Proof.
  intros Hcs. revert i. induction Hcs as [| x cs Hx _ IH]; intros i; simpl.
  - reflexivity.
  - now rewrite Hx, IH.
Qed.

Lemma take_drop_middle_removed {A : Type} (before : list A) (cc : A) (after : list A)
    (n : nat) :
  n = length before ->
  take n (before ++ cc :: after) ++ drop (n + 1) (before ++ cc :: after)
  = before ++ after.
Proof.
  intros ->. rewrite take_app_length.
  replace (length before + 1)%nat with (length before + 1 + 0)%nat by lia.
  rewrite <- Nat.add_assoc, drop_app_add. reflexivity.
Qed.

Lemma Forall_eqb_false {A : Type} (key : A -> string) (k : string) (cs : list A) :
  Forall (fun x => key x <> k) cs ->
  Forall (fun x => String.eqb (key x) k = false) cs.
Proof.
  intros Hcs. eapply Forall_impl; [exact Hcs |].
  intros x. apply String.eqb_neq.
Qed.

Section DetachProperties.
Context {S : Type}.

(** X12. [OnHTMLDetach] removes the first container registered for the
    selector and nothing else: the containers before and after it keep
    their places, so that of two registrations of one selector the later
    one stays; without a container for the selector the collector is left
    as it is. Registering a callback for a selector that has none and
    detaching the selector gives the collector back. *)
Theorem OnHTMLDetach_first (c : Collector S) (goquerySelector f : string) :
  (forall before cc after,
     htmlCallbacks c = before ++ cc :: after ->
     Forall (fun cc' => Selector cc' <> goquerySelector) before ->
     Selector cc = goquerySelector ->
     OnHTMLDetach goquerySelector c = set_htmlCallbacks c (before ++ after))
  /\ (Forall (fun cc' => Selector cc' <> goquerySelector) (htmlCallbacks c) ->
      OnHTMLDetach goquerySelector c = c
      /\ OnHTMLDetach goquerySelector (Options.OnHTML goquerySelector f c) = c).
Proof.
  split.
  - intros before cc after Hsplit Hbefore Hcc. unfold OnHTMLDetach.
    rewrite Hsplit, (rangeFindIndex_first _ before cc after 0).
    + now rewrite take_drop_middle_removed by reflexivity.
    + now apply (Forall_eqb_false Selector).
    + now apply String.eqb_eq.
  - intros Hnone. split.
    + unfold OnHTMLDetach.
      now rewrite (rangeFindIndex_none _ _ 0 (Forall_eqb_false Selector _ _ Hnone)).
    + unfold OnHTMLDetach. destruct c. simpl in *.
      rewrite (rangeFindIndex_first _ _ (mkHtmlCallbackContainer goquerySelector f)
                 [] 0 (Forall_eqb_false Selector _ _ Hnone) (String.eqb_refl _)).
      unfold set_htmlCallbacks. simpl.
      rewrite take_drop_middle_removed by reflexivity. now rewrite app_nil_r.
Qed.

(** X13. [OnXMLDetach] removes the first container registered for the
    query and nothing else; without a container for the query the
    collector is left as it is, and registering a callback for a query
    that has none and detaching the query gives the collector back. *)
Theorem OnXMLDetach_first (c : Collector S) (xpathQuery f : string) :
  (forall before cc after,
     xmlCallbacks c = before ++ cc :: after ->
     Forall (fun cc' => Query cc' <> xpathQuery) before ->
     Query cc = xpathQuery ->
     OnXMLDetach xpathQuery c = set_xmlCallbacks c (before ++ after))
  /\ (Forall (fun cc' => Query cc' <> xpathQuery) (xmlCallbacks c) ->
      OnXMLDetach xpathQuery c = c
      /\ OnXMLDetach xpathQuery (Options.OnXML xpathQuery f c) = c).
Proof.
  split.
  - intros before cc after Hsplit Hbefore Hcc. unfold OnXMLDetach.
    rewrite Hsplit, (rangeFindIndex_first _ before cc after 0).
    + now rewrite take_drop_middle_removed by reflexivity.
    + now apply (Forall_eqb_false Query).
    + now apply String.eqb_eq.
  - intros Hnone. split.
    + unfold OnXMLDetach.
      now rewrite (rangeFindIndex_none _ _ 0 (Forall_eqb_false Query _ _ Hnone)).
    + unfold OnXMLDetach. destruct c. simpl in *.
      rewrite (rangeFindIndex_first _ _ (mkXmlCallbackContainer xpathQuery f)
                 [] 0 (Forall_eqb_false Query _ _ Hnone) (String.eqb_refl _)).
      unfold set_xmlCallbacks. simpl.
      rewrite take_drop_middle_removed by reflexivity. now rewrite app_nil_r.
Qed.

End DetachProperties.

(** ** The visited test after a visit *)

Section VisitedProperties.
Context `{Platform} `{FormEncoding} {S : Type} `{StorageLaws S}.

(** A request that passes admission control with the revisit check has
    its fingerprint in the store. *)
Lemma requestCheck_recorded parsedURL method getBody depth robots
    (c c' : Collector S) ev :
  AllowURLRevisit c = false ->
  method = "GET"%string \/ getBody <> None ->
  getBody = None \/ (exists bytes, getBody = Some (inr bytes)) ->
  requestCheck parsedURL method getBody depth true robots c = (Ok tt, c', ev) ->
  IsVisited (store c') (requestHash (url_String parsedURL) (fingerprintBody getBody))
  = inr true.
Proof.
  intros Ha Hm Hg. unfold requestCheck. cbv zeta. rewrite bind_get, Ha.
  destruct ((0 <? MaxDepth c) && (MaxDepth c <? depth)); [discriminate |].
  destruct ((0 <? MaxRequests c) && (MaxRequests c <=? requestCount c));
    [discriminate |].
  destruct (checkFilters c (url_String parsedURL) (Hostname parsedURL));
    [discriminate |].
  simpl. unfold bind at 1.
  destruct ((if negb (method =? "HEAD")%string && negb (IgnoreRobotsTxt c)
             then checkRobots parsedURL robots else ret tt) c)
    as [[[[] | e |] c1] ev1]; try discriminate.
  destruct (revisitBlock parsedURL method getBody c1) as [[r2 c2] ev2] eqn:Hrev.
  intros [= -> <- <-].
  unfold revisitBlock in Hrev. cbv zeta in Hrev.
  rewrite (revisitBlock_gate _ _ Hm) in Hrev.
  destruct (bind_Ok_inv _ _ _ _ _ _ _ _ _
              (reopenBody_fingerprintBody getBody c1 Hg) Hrev) as [ev3 [Hk _]].
  revert Hk. unfold bind, store_IsVisited, store_Visited.
  destruct (IsVisited (store c1) _) as [text | []]; simpl; try discriminate.
  destruct (Visited (store c1) _) as [s' [text |]] eqn:Hrec; try discriminate.
  intros [= <- <-]. simpl. eapply Visited_recorded, Hrec.
Qed.

(** [scrape] that returns nil with the revisit check has recorded the
    fingerprint of its request. *)
Lemma scrape_recorded (c c' : Collector S) u method depth requestData ctx hdr net
    href parsedURL rd req ev :
  AllowURLRevisit c = false ->
  urlParser_Parse u = inr href ->
  url_Parse href = inr parsedURL ->
  rewind requestData = Ok rd ->
  http_NewRequest method (url_String parsedURL) rd = Ok req ->
  method = "GET"%string \/ hr_GetBody req <> None ->
  scrape u method depth requestData ctx hdr true net c = (Ok tt, c', ev) ->
  IsVisited (store c')
            (requestHash (url_String parsedURL) (fingerprintBody (hr_GetBody req)))
  = inr true.
Proof.
  intros Ha Hu Hp Hr Hq Hm.
  rewrite (scrape_unfold c _ _ _ _ _ _ _ _ _ _ _ _ Hu Hp Hr Hq).
  unfold bind at 1.
  destruct (requestCheck parsedURL method (hr_GetBody req) depth true
                         (net_robots net) c) as [[[[] | e |] c1] ev1] eqn:Hcheck;
    try discriminate.
  destruct (startFetch _ _ _ _ _ _ _ _ c1) as [[r2 c2] ev2] eqn:Hfetch.
  intros [= -> <- <-].
  apply (proj2 (steady_startFetch _ _ _ _ _ _ _ _ _ _ _ _ Hfetch)).
  exact (requestCheck_recorded _ _ _ _ _ _ _ _ Ha Hm
           (http_NewRequest_GetBody _ _ _ _ Hq) Hcheck).
Qed.

Lemma scrape_policy (c c' : Collector S) u method depth requestData ctx hdr
    checkRevisit net r ev :
  scrape u method depth requestData ctx hdr checkRevisit net c = (r, c', ev) ->
  same_policy c c'.
Proof.
  intros Hrun. destruct steady_basic as (B1 & B2 & B3 & B4).
  assert (K : keeps_at steady any_error
                (scrape u method depth requestData ctx hdr checkRevisit net) c).
  { apply keeps_scrape;
      first [ exact steady_refl | exact steady_trans | exact steady_Visited
            | exact B1 | exact B2 | exact B3 | exact B4 | easy ]. }
  exact (proj1 (proj1 (K _ _ _ Hrun))).
Qed.

Lemma requestHash_normalizeURL (u1 u2 : string) (body : option (list Byte.byte)) :
  normalizeURL u1 = normalizeURL u2 -> requestHash u1 body = requestHash u2 body.
Proof. unfold requestHash. now intros ->. Qed.

Lemma http_NewRequest_strings method url (r : Reader) req :
  rd_kind r = StringsReader ->
  http_NewRequest method url (Some r) = Ok req ->
  hr_GetBody req = Some (inr (unread r)).
Proof.
  intros Hk. unfold http_NewRequest. destruct (negb _); [discriminate |].
  destruct (url_Parse url); [discriminate |]. rewrite Hk. now intros [= <-].
Qed.

(** When [scrape] returns nil, its URL was parsed and its request built. *)
Lemma scrape_Ok_built (c c' : Collector S) u method depth requestData ctx hdr
    checkRevisit net ev :
  scrape u method depth requestData ctx hdr checkRevisit net c = (Ok tt, c', ev) ->
  exists href parsedURL rd req,
    urlParser_Parse u = inr href /\ url_Parse href = inr parsedURL
    /\ rewind requestData = Ok rd
    /\ http_NewRequest method (url_String parsedURL) rd = Ok req.
Proof.
  unfold scrape.
  destruct (urlParser_Parse u) as [text | href] eqn:Hu; simpl lift_external.
  { rewrite bind_lift_Err. discriminate. }
  rewrite bind_lift_Ok.
  destruct (url_Parse href) as [text | parsedURL] eqn:Hp; simpl lift_external.
  { rewrite bind_lift_Err. discriminate. }
  rewrite bind_lift_Ok, bind_get. cbv zeta.
  destruct (rewind requestData) as [rd | e0 |] eqn:Hr.
  2: { rewrite bind_lift_Err. discriminate. }
  2: { unfold bind, lift. discriminate. }
  rewrite bind_lift_Ok.
  destruct (http_NewRequest method (url_String parsedURL) rd) as [req | e0 |] eqn:Hq.
  2: { rewrite bind_lift_Err. discriminate. }
  2: { unfold bind, lift. discriminate. }
  intros _. exists href, parsedURL, rd, req. auto.
Qed.

(** X14. [HasVisited] agrees with [Visit]: on a collector that does not
    allow revisits, after [Visit(URL)] has returned nil, [HasVisited(URL)]
    returns true, without an error and without changing the collector,
    also when a HEAD request went first. This needs that the URL and the
    string of its parsed form normalise to the same string ([Visit]
    fingerprints the latter, [HasVisited] the former) and that the empty
    form encodes to the empty string. *)
Theorem HasVisited_after_Visit (c c' : Collector S) (URL : string)
    (net_head net_get : Network) (ev : list Event) :
  Values_Encode ∅ = EmptyString ->
  AllowURLRevisit c = false ->
  (forall href parsedURL,
     urlParser_Parse URL = inr href -> url_Parse href = inr parsedURL ->
     normalizeURL (url_String parsedURL) = normalizeURL URL) ->
  Visit URL net_head net_get c = (Ok tt, c', ev) ->
  HasVisited URL c' = (Ok true, c', []).
Proof.
  intros Hempty Ha Hstable. unfold Visit. rewrite bind_get.
  assert (Hget : forall c1 ev1,
            AllowURLRevisit c1 = false ->
            scrape URL "GET" 1 None None None true net_get c1 = (Ok tt, c', ev1) ->
            HasVisited URL c' = (Ok true, c', [])).
  { intros c1 ev1 Ha1 Hrun.
    destruct (scrape_Ok_built _ _ _ _ _ _ _ _ _ _ _ Hrun)
      as (href & parsedURL & rd & req & Hu & Hp & Hr & Hq).
    pose proof (scrape_recorded _ _ _ _ _ _ _ _ _ _ _ _ _ _ Ha1 Hu Hp Hr Hq
                  (or_introl eq_refl) Hrun) as Hin.
    injection Hr as <-. rewrite (http_NewRequest_nil_body _ _ _ Hq) in Hin.
    unfold HasVisited, checkHasVisited, store_IsVisited, createFormReader.
    rewrite map_fold_empty, Hempty.
    change (requestHash URL (Some (unread _))) with (requestHash URL None).
    rewrite <- (requestHash_normalizeURL _ _ None (Hstable _ _ Hu Hp)).
    unfold fingerprintBody in Hin. now rewrite Hin. }
  destruct (CheckHead c).
  - unfold bind at 1.
    destruct (scrape URL "HEAD" 1 None None None true net_head c)
      as [[[[] | e |] c1] ev1] eqn:Hhead; try discriminate.
    destruct (scrape URL "GET" 1 None None None true net_get c1)
      as [[r2 c2] ev2] eqn:Hrun.
    intros [= -> <- <-]. apply (Hget c1 ev2); [| exact Hrun].
    pose proof (scrape_policy _ _ _ _ _ _ _ _ _ _ _ _ Hhead) as Hpol.
    unfold same_policy in Hpol.
    change (AllowURLRevisit (policy c1) = false). rewrite <- Hpol. exact Ha.
  - rewrite bind_ret. apply Hget, Ha.
Qed.

(** X15. [HasPosted] agrees with [Post]: on a collector that does not
    allow revisits, after [Post(URL, requestData)] has returned nil,
    [HasPosted(URL, requestData)] returns true, without an error and
    without changing the collector, provided the URL and the string of
    its parsed form normalise to the same string. The fingerprint that
    [Post] records comes from the [GetBody] snapshot of the form reader,
    that of [HasPosted] from a second encoding of the form. *)
Theorem HasPosted_after_Post (c c' : Collector S) (URL : string)
    (requestData : gmap string string) (net : Network) (ev : list Event) :
  AllowURLRevisit c = false ->
  (forall href parsedURL,
     urlParser_Parse URL = inr href -> url_Parse href = inr parsedURL ->
     normalizeURL (url_String parsedURL) = normalizeURL URL) ->
  Post URL requestData net c = (Ok tt, c', ev) ->
  HasPosted URL requestData c' = (Ok true, c', []).
Proof.
  intros Ha Hstable. unfold Post. intros Hrun.
  destruct (scrape_Ok_built _ _ _ _ _ _ _ _ _ _ _ Hrun)
    as (href & parsedURL & rd & req & Hu & Hp & Hr & Hq).
  assert (Hin := fun Hm =>
            scrape_recorded _ _ _ _ _ _ _ _ _ _ _ _ _ _ Ha Hu Hp Hr Hq Hm Hrun).
  injection Hr as <-.
  pose proof (fun Hk => http_NewRequest_strings _ _ _ _ Hk Hq) as Hbody.
  specialize (Hbody eq_refl).
  rewrite Hbody in Hin. specialize (Hin (or_intror (Some_ne_None _))).
  unfold HasPosted, checkHasVisited, store_IsVisited.
  rewrite <- (requestHash_normalizeURL _ _ _ (Hstable _ _ Hu Hp)).
  unfold fingerprintBody in Hin.
  match goal with
  | |- context [IsVisited ?s ?h] =>
      replace (IsVisited s h) with (@inr string bool true) by (symmetry; exact Hin)
  end.
  reflexivity.
Qed.

End VisitedProperties.

(** ** The errors of [fetch] *)

Section FetchErrors.
Context `{Platform} {S : Type} `{Storage S}.

Lemma bind_Err_inv {A B} (m : Act S A) (k : A -> Act S B) (c : Collector S)
    e c' ev :
  bind m k c = (Err e, c', ev) ->
  m c = (Err e, c', ev)
  \/ exists a c1 ev1 ev2,
       m c = (Ok a, c1, ev1) /\ k a c1 = (Err e, c', ev2) /\ ev = ev1 ++ ev2.
Proof.
  unfold bind. destruct (m c) as [[[a | e1 |] c1] ev1].
  - destruct (k a c1) as [[r2 c2] ev2] eqn:Hk. intros [= -> <- <-].
    right. exists a, c1, ev1, ev2. auto.
  - intros [= <- <- <-]. now left.
  - discriminate.
Qed.

(** A step that returns no error and keeps the collector, followed by a
    continuation that fails. *)
Lemma bind_Err_after {A B} (m : Act S A) (k : A -> Act S B) (c : Collector S)
    e c' ev :
  keeps_at eq (fun _ => False) m c ->
  bind m k c = (Err e, c', ev) ->
  exists a ev1 ev2,
    m c = (Ok a, c, ev1) /\ k a c = (Err e, c', ev2) /\ ev = ev1 ++ ev2.
Proof.
  intros Hm Hrun.
  destruct (bind_Err_inv _ _ _ _ _ _ Hrun) as [Herr | (a & c1 & ev1 & ev2 & Ha & Hk & ->)].
  - destruct (proj2 (Hm _ _ _ Herr) e eq_refl).
  - destruct (Hm _ _ _ Ha) as [<- _]. exists a, ev1, ev2. auto.
Qed.

Lemma handleOnError_run response err request ctx (c : Collector S) o c' ev :
  handleOnError response err request ctx c = (Ok o, c', ev) ->
  c' = c /\ ev = reported c o.
Proof.
  unfold handleOnError, bind, get, ret, emit, panic. simpl.
  destruct err as [e0 |]; [| destruct response as [resp |]].
  - intros [= <- <- <-]. now rewrite app_nil_r.
  - destruct (ParseHTTPErrorResponse c || (rs_StatusCode resp <? 203)).
    + now intros [= <- <- <-].
    + intros [= <- <- <-]. now rewrite app_nil_r.
  - destruct (ParseHTTPErrorResponse c); [now intros [= <- <- <-] | discriminate].
Qed.

(** The report of an extraction error in [fetch]:
    [if err != nil { c.handleOnError(response, err, request, ctx) }]. *)
Lemma report_run (response : Response) (o : option error) request ctx
    (c : Collector S) :
  match o with
  | Some err =>
      bind (handleOnError (Some response) (Some err) request ctx) (fun _ => ret tt)
  | None => ret tt
  end c = (Ok tt, c, reported c o).
Proof.
  destruct o as [err |]; [| reflexivity].
  erewrite bind_Ok; [| apply handleOnError_Some | reflexivity].
  simpl. now rewrite app_nil_r.
Qed.

Lemma bind_AddUint32_responseCount {B} (k : Z -> Act S B) (c : Collector S) :
  bind AddUint32_responseCount k c
  = k ((responseCount c + 1) mod 2 ^ 32)
      (set_responseCount c ((responseCount c + 1) mod 2 ^ 32)).
Proof.
  unfold bind, AddUint32_responseCount. cbv zeta.
  now destruct (k _ _) as [[r2 c2] ev2].
Qed.

Lemma deliver_error_reported response request ctx (c c' : Collector S) e ev :
  deliver response request ctx c = (Err e, c', ev) ->
  (exists pre post, ev = pre ++ reported c (Some e) ++ post)
  \/ (exists encoding headers body text,
        fixCharset (DetectCharset c) encoding headers body = inl text
        /\ e = ErrExternal text).
Proof.
  unfold deliver. rewrite bind_AddUint32_responseCount.
  set (c0 := set_responseCount c _).
  destruct response as [response |]; [| discriminate].
  rewrite bind_get.
  change (DetectCharset c0) with (DetectCharset c).
  destruct (fixCharset (DetectCharset c) (rq_ResponseCharacterEncoding request)
                       (rs_Headers response) (rs_Body response))
    as [text | body] eqn:Hfix.
  { intros [= <- <- <-]. right. eauto 6. }
  cbv zeta. intros Hrun1.
  apply bind_Err_after in Hrun1;
    [| apply keeps_handleOnResponse; congruence].
  destruct Hrun1 as ([] & ev1 & ev2 & _ & Hrun2 & ->).
  apply bind_Err_after in Hrun2;
    [| apply keeps_handleOnHTML; congruence].
  destruct Hrun2 as (html & ev3 & ev4 & _ & Hrun3 & ->).
  destruct (bind_Ok_inv _ _ _ _ _ _ _ _ _ (report_run _ _ _ _ _) Hrun3)
    as (ev5 & Hrun4 & ->).
  apply bind_Err_after in Hrun4;
    [| apply keeps_handleOnXML; congruence].
  destruct Hrun4 as (xml & ev6 & ev7 & _ & Hrun5 & ->).
  cbv zeta in Hrun5.
  destruct (bind_Ok_inv _ _ _ _ _ _ _ _ _ (report_run _ _ _ _ _) Hrun5)
    as (ev8 & Hrun6 & ->).
  apply bind_Err_after in Hrun6;
    [| apply keeps_handleOnScraped; congruence].
  destruct Hrun6 as ([] & ev9 & ev10 & _ & Hrun7 & ->).
  destruct (snd xml) as [err |]; [| discriminate].
  injection Hrun7 as <- <- <-.
  left. exists (ev1 ++ ev3 ++ reported c0 (snd html) ++ ev6), (ev9 ++ []).
  change (reported c0 (Some err)) with (reported c (Some err)).
  now rewrite <- !app_assoc.
Qed.

Lemma same_policy_refl (c : Collector S) : same_policy c c.
Proof. reflexivity. Qed.

Lemma same_policy_trans (c1 c2 c3 : Collector S) :
  same_policy c1 c2 -> same_policy c2 c3 -> same_policy c1 c3.
Proof. unfold same_policy. congruence. Qed.

Lemma backend_Cache_policy request req x (c c' : Collector S) r ev :
  attempt (backend_Cache req (checkHeadersFunc request) x) c = (r, c', ev) ->
  same_policy c c' /\ forall e, r <> Err e.
Proof.
  intros Hrun.
  assert (K : keeps_at same_policy (fun _ => False)
                (attempt (backend_Cache req (checkHeadersFunc request) x)) c).
  { apply (keeps_attempt _ _ any_error).
    apply keeps_backend_Cache;
      try first [ exact same_policy_refl | exact same_policy_trans | easy ].
    - intros req0 c0. eapply keeps_weaken; [| apply keeps_Client_Do;
        first [ exact same_policy_refl | exact same_policy_trans | easy ] ].
      easy.
    - intros. apply keeps_checkHeadersFunc;
        first [ exact same_policy_refl | exact same_policy_trans ]. }
  destruct (K _ _ _ Hrun) as [Hp He]. split; [exact Hp |].
  intros e ->. exact (He e eq_refl).
Qed.

(** X16. Every error that [fetch] returns has been handed to the Error
    callbacks: each of them was invoked with that very error, in
    registration order and without another callback in between. The one
    exception is a failed conversion of the character set, whose error
    [fetch] returns without reporting it. *)
Theorem fetch_error_reported (c c' : Collector S) (u method : string) (depth : Z)
    (requestData : option Reader) (ctx : option Ctx) (hdr : Header)
    (req : HttpRequest) (x : Exchange) (e : error) (ev : list Event) :
  fetch u method depth requestData ctx hdr req x c = (Err e, c', ev) ->
  (exists pre post, ev = pre ++ reported c (Some e) ++ post)
  \/ (exists encoding headers body text,
        fixCharset (DetectCharset c) encoding headers body = inl text
        /\ e = ErrExternal text).
Proof.
  unfold fetch.
  destruct (fetch_body u method depth requestData ctx hdr req x c)
    as [[r1 c1] ev1] eqn:Hbody.
  intros [= -> <- <-]. revert Hbody.
  unfold fetch_body. cbv zeta. rewrite bind_AddUint32_requestCount.
  set (c0 := set_requestCount c _).
  intros Hrun1.
  apply bind_Err_after in Hrun1;
    [| apply keeps_handleOnRequest; congruence].
  destruct Hrun1 as (request & ev2 & ev3 & _ & Hrun2 & ->).
  destruct (rq_abort request); [discriminate |].
  destruct (bind_Err_inv _ _ _ _ _ _ Hrun2)
    as [Herr | (answer & c2 & ev4 & ev5 & Hanswer & Hrun3 & ->)].
  { destruct (proj2 (backend_Cache_policy _ _ _ _ _ _ _ Herr) e eq_refl). }
  destruct (backend_Cache_policy _ _ _ _ _ _ _ Hanswer) as [Hpol _].
  assert (Hcallbacks : forall o, reported c2 o = reported c o).
  { intros o. unfold reported.
    change (errorCallbacks c2) with (errorCallbacks (policy c2)).
    unfold same_policy in Hpol. rewrite <- Hpol. reflexivity. }
  assert (Hdetect : DetectCharset c2 = DetectCharset c).
  { change (DetectCharset (policy c2) = DetectCharset (policy c0)).
    unfold same_policy in Hpol. now rewrite Hpol. }
  apply bind_Err_after in Hrun3;
    [| apply keeps_handleOnError; congruence].
  destruct Hrun3 as (o & ev6 & ev7 & Herror & Hrun4 & ->).
  apply handleOnError_run in Herror. destruct Herror as [_ ->].
  destruct o as [err |].
  - injection Hrun4 as <- <- <-. left.
    exists (ev2 ++ ev4), []. rewrite Hcallbacks. now rewrite <- !app_assoc.
  - apply deliver_error_reported in Hrun4.
    rewrite Hdetect in Hrun4.
    destruct Hrun4 as [(pre & post & ->) | Hcharset]; [left | now right].
    exists (ev2 ++ ev4 ++ pre), post. rewrite !Hcallbacks.
    simpl. now rewrite <- !app_assoc.
Qed.

End FetchErrors.

(** ** The order of the callbacks *)

Lemma in_order_block (P : Event -> Prop) Ps ev1 ev2 :
  Forall P ev1 -> in_order (P :: Ps) ev2 -> in_order (P :: Ps) (ev1 ++ ev2).
Proof.
  intros H1 H2. induction H1 as [| e ev1 He _ IH]; simpl; [exact H2 |].
  now apply in_order_more.
Qed.

Lemma in_order_later Ps Qs ev : in_order Qs ev -> in_order (Ps ++ Qs) ev.
Proof.
  intros Hq. induction Ps as [| P Ps IH]; simpl; [exact Hq |].
  now apply in_order_next.
Qed.

Lemma in_order_app Ps Qs ev1 ev2 :
  in_order Ps ev1 -> in_order Qs ev2 -> in_order (Ps ++ Qs) (ev1 ++ ev2).
Proof.
  intros H1 H2. induction H1 as [Ps | P Ps ev1 _ IH | P Ps e ev1 He _ IH]; simpl.
  - now apply in_order_later.
  - now apply in_order_next.
  - now apply in_order_more.
Qed.

Section Orders.
Context {S : Type}.
Implicit Type c : Collector S.

Lemma emits_ret {A} P (a : A) c : emits_at P (ret a) c.
Proof. intros r c' ev [= <- <- <-]. constructor. Qed.

Lemma emits_get P c : emits_at P get c.
Proof. intros r c' ev [= <- <- <-]. constructor. Qed.

Lemma emits_panic {A} P c : emits_at P (@panic S A) c.
Proof. intros r c' ev [= <- <- <-]. constructor. Qed.

Lemma emits_fail {A} P e c : emits_at P (@fail S A e) c.
Proof. intros r c' ev [= <- <- <-]. constructor. Qed.

Lemma emits_lift {A} P (x : result A) c : emits_at P (lift x) c.
Proof. intros r c' ev [= <- <- <-]. constructor. Qed.

Lemma emits_modify P f c : emits_at P (modify f) c.
Proof. intros r c' ev [= <- <- <-]. constructor. Qed.

Lemma emits_emit (P : Event -> Prop) evs c : Forall P evs -> emits_at P (emit evs) c.
Proof. now intros Hevs r c' ev [= <- <- <-]. Qed.

Lemma emits_bind {A B} P (m : Act S A) (k : A -> Act S B) c :
  emits_at P m c ->
  (forall a c1 ev1, m c = (Ok a, c1, ev1) -> emits_at P (k a) c1) ->
  emits_at P (bind m k) c.
Proof.
  intros Hm Hk r c' ev. unfold bind.
  specialize (Hm (fst (fst (m c))) (snd (fst (m c))) (snd (m c))).
  specialize (Hk) with (c1 := snd (fst (m c))) (ev1 := snd (m c)).
  destruct (m c) as [[[a | e |] c1] ev1]; simpl in Hm, Hk.
  - destruct (k a c1) as [[r2 c2] ev2] eqn:Ek. intros [= <- <- <-].
    apply Forall_app. split; [now apply Hm | exact (Hk _ eq_refl _ _ _ Ek)].
  - intros [= <- <- <-]. now apply Hm.
  - intros [= <- <- <-]. now apply Hm.
Qed.

Lemma orders_ret {A} Ps (a : A) c : orders_at Ps (ret a) c.
Proof. intros r c' ev [= <- <- <-]. constructor. Qed.

Lemma orders_fail {A} Ps e c : orders_at Ps (@fail S A e) c.
Proof. intros r c' ev [= <- <- <-]. constructor. Qed.

Lemma orders_panic {A} Ps c : orders_at Ps (@panic S A) c.
Proof. intros r c' ev [= <- <- <-]. constructor. Qed.

Lemma orders_skip {A} P Ps (m : Act S A) c :
  orders_at Ps m c -> orders_at (P :: Ps) m c.
Proof. intros Hm r c' ev Hrun. apply in_order_next, (Hm _ _ _ Hrun). Qed.

Lemma orders_seq {A B} Ps Qs (m : Act S A) (k : A -> Act S B) c :
  orders_at Ps m c ->
  (forall a c1 ev1, m c = (Ok a, c1, ev1) -> orders_at Qs (k a) c1) ->
  orders_at (Ps ++ Qs) (bind m k) c.
Proof.
  intros Hm Hk r c' ev. unfold bind.
  specialize (Hm (fst (fst (m c))) (snd (fst (m c))) (snd (m c))).
  specialize (Hk) with (c1 := snd (fst (m c))) (ev1 := snd (m c)).
  destruct (m c) as [[[a | e |] c1] ev1]; simpl in Hm, Hk.
  - destruct (k a c1) as [[r2 c2] ev2] eqn:Ek. intros [= <- <- <-].
    apply in_order_app; [now apply Hm | exact (Hk _ eq_refl _ _ _ Ek)].
  - intros [= <- <- <-]. rewrite <- (app_nil_r ev1).
    apply in_order_app; [now apply Hm | constructor].
  - intros [= <- <- <-]. rewrite <- (app_nil_r ev1).
    apply in_order_app; [now apply Hm | constructor].
Qed.

Lemma orders_bind {A B} P Ps (m : Act S A) (k : A -> Act S B) c :
  emits_at P m c ->
  (forall a c1 ev1, m c = (Ok a, c1, ev1) -> orders_at (P :: Ps) (k a) c1) ->
  orders_at (P :: Ps) (bind m k) c.
Proof.
  intros Hm Hk r c' ev. unfold bind.
  specialize (Hm (fst (fst (m c))) (snd (fst (m c))) (snd (m c))).
  specialize (Hk) with (c1 := snd (fst (m c))) (ev1 := snd (m c)).
  destruct (m c) as [[[a | e |] c1] ev1]; simpl in Hm, Hk.
  - destruct (k a c1) as [[r2 c2] ev2] eqn:Ek. intros [= <- <- <-].
    apply in_order_block; [now apply Hm | exact (Hk _ eq_refl _ _ _ Ek)].
  - intros [= <- <- <-]. rewrite <- (app_nil_r ev1).
    apply in_order_block; [now apply Hm | constructor].
  - intros [= <- <- <-]. rewrite <- (app_nil_r ev1).
    apply in_order_block; [now apply Hm | constructor].
Qed.

Lemma either_order_ret {A} Ps Qs (a : A) c : either_order_at Ps Qs (ret a) c.
Proof. intros r c' ev [= <- <- <-]. left. constructor. Qed.

Lemma either_order_skip {A} P Ps Qs (m : Act S A) c :
  either_order_at Ps Qs m c -> either_order_at (P :: Ps) (P :: Qs) m c.
Proof.
  intros Hm r c' ev Hrun.
  destruct (Hm _ _ _ Hrun); [left | right]; now apply in_order_next.
Qed.

Lemma either_order_seq {A B} Rs Ps Qs (m : Act S A) (k : A -> Act S B) c :
  orders_at Rs m c ->
  (forall a c1 ev1, m c = (Ok a, c1, ev1) -> either_order_at Ps Qs (k a) c1) ->
  either_order_at (Rs ++ Ps) (Rs ++ Qs) (bind m k) c.
Proof.
  intros Hm Hk r c' ev. unfold bind.
  specialize (Hm (fst (fst (m c))) (snd (fst (m c))) (snd (m c))).
  specialize (Hk) with (c1 := snd (fst (m c))) (ev1 := snd (m c)).
  destruct (m c) as [[[a | e |] c1] ev1]; simpl in Hm, Hk.
  - destruct (k a c1) as [[r2 c2] ev2] eqn:Ek. intros [= <- <- <-].
    destruct (Hk _ eq_refl _ _ _ Ek); [left | right];
      (apply in_order_app; [now apply Hm | assumption]).
  - intros [= <- <- <-]. left. rewrite <- (app_nil_r ev1).
    apply in_order_app; [now apply Hm | constructor].
  - intros [= <- <- <-]. left. rewrite <- (app_nil_r ev1).
    apply in_order_app; [now apply Hm | constructor].
Qed.

Lemma either_order_bind {A B} P Ps Qs (m : Act S A) (k : A -> Act S B) c :
  emits_at P m c ->
  (forall a c1 ev1, m c = (Ok a, c1, ev1) ->
                    either_order_at (P :: Ps) (P :: Qs) (k a) c1) ->
  either_order_at (P :: Ps) (P :: Qs) (bind m k) c.
Proof.
  intros Hm Hk r c' ev. unfold bind.
  specialize (Hm (fst (fst (m c))) (snd (fst (m c))) (snd (m c))).
  specialize (Hk) with (c1 := snd (fst (m c))) (ev1 := snd (m c)).
  destruct (m c) as [[[a | e |] c1] ev1]; simpl in Hm, Hk.
  - destruct (k a c1) as [[r2 c2] ev2] eqn:Ek. intros [= <- <- <-].
    destruct (Hk _ eq_refl _ _ _ Ek); [left | right];
      (apply in_order_block; [now apply Hm | assumption]).
  - intros [= <- <- <-]. left. rewrite <- (app_nil_r ev1).
    apply in_order_block; [now apply Hm | constructor].
  - intros [= <- <- <-]. left. rewrite <- (app_nil_r ev1).
    apply in_order_block; [now apply Hm | constructor].
Qed.

Lemma orders_attempt {A} Ps (m : Act S A) c :
  orders_at Ps m c -> orders_at Ps (attempt m) c.
Proof.
  intros Hm r c' ev. unfold attempt.
  specialize (Hm (fst (fst (m c))) (snd (fst (m c))) (snd (m c))).
  destruct (m c) as [[[a | e |] c1] ev1]; simpl in Hm; intros [= <- <- <-];
    now apply Hm.
Qed.

End Orders.

Ltac emits_basic :=
  repeat first
    [ match goal with
      | |- emits_at _ (ret _) _ => apply emits_ret
      | |- emits_at _ get _ => apply emits_get
      | |- emits_at _ panic _ => apply emits_panic
      | |- emits_at _ (fail _) _ => apply emits_fail
      | |- emits_at _ (lift _) _ => apply emits_lift
      | |- emits_at _ (modify _) _ => apply emits_modify
      | |- emits_at _ (bind _ _) _ => apply emits_bind; [ | intros ? ? ? ? ]
      | |- emits_at _ (match ?x with _ => _ end) _ => destruct x eqn:?
      | |- emits_at _ (if ?x then _ else _) _ => destruct x eqn:?
      end
    | progress cbv zeta ].

Section FetchOrder.
Context `{Platform} {S : Type} `{Storage S}.
Implicit Type c : Collector S.

Lemma emits_rangeRequestCallbacks (P : Event -> Prop) mk fs r c :
  (forall f, P (mk f)) -> emits_at P (rangeRequestCallbacks mk fs r) c.
Proof.
  intros Hmk r0 c' ev. rewrite rangeRequestCallbacks_run. intros [= <- <- <-].
  apply Forall_map, Forall_forall. intros f _. apply Hmk.
Qed.

Lemma emits_handleOnRequest r c : emits_at is_OnRequest (handleOnRequest r) c.
Proof.
  unfold handleOnRequest. emits_basic. now apply emits_rangeRequestCallbacks.
Qed.

Lemma emits_checkHeadersFunc request redirected code headers c :
  emits_at is_OnResponseHeaders (checkHeadersFunc request redirected code headers) c.
Proof.
  unfold checkHeadersFunc, handleOnResponseHeaders. emits_basic.
  now apply emits_rangeRequestCallbacks.
Qed.

Lemma emits_handleOnResponse r c : emits_at is_OnResponse (handleOnResponse r) c.
Proof.
  unfold handleOnResponse. emits_basic.
  apply emits_emit, Forall_map, Forall_forall. now intros f _.
Qed.

Lemma emits_handleOnScraped r c : emits_at is_OnScraped (handleOnScraped r) c.
Proof.
  unfold handleOnScraped. emits_basic.
  apply emits_emit, Forall_map, Forall_forall. now intros f _.
Qed.

Lemma emits_handleOnError response err request ctx c :
  emits_at is_OnError (handleOnError response err request ctx) c.
Proof.
  unfold handleOnError. emits_basic;
    apply emits_emit, Forall_map, Forall_forall; now intros f _.
Qed.

Lemma Forall_htmlCalls doc cs :
  Forall is_OnHTML (concat (map (htmlCalls doc) cs)).
Proof.
  apply Forall_concat, Forall_map, Forall_forall. intros cc _.
  unfold htmlCalls. apply Forall_map, Forall_forall. now intros n _.
Qed.

Lemma Forall_xmlCalls doc cs :
  Forall is_OnXML (concat (map (xmlCalls doc) cs)).
Proof.
  apply Forall_concat, Forall_map, Forall_forall. intros cc _.
  unfold xmlCalls. apply Forall_map, Forall_forall. now intros n _.
Qed.

Lemma emits_handleOnHTML resp c : emits_at is_OnHTML (handleOnHTML resp) c.
Proof.
  unfold handleOnHTML. emits_basic. apply emits_emit, Forall_htmlCalls.
Qed.

Lemma emits_handleOnXML resp c : emits_at is_OnXML (handleOnXML resp) c.
Proof.
  unfold handleOnXML. emits_basic; apply emits_emit, Forall_xmlCalls.
Qed.

Lemma emits_store_IsVisited P uHash c : emits_at P (store_IsVisited uHash) c.
Proof. intros r c' ev [= <- <- <-]. constructor. Qed.

Lemma emits_store_Visited P uHash c : emits_at P (store_Visited uHash) c.
Proof.
  intros r c' ev. unfold store_Visited.
  destruct (Visited (store c) uHash) as [s' [text |]]; intros [= <- <- <-];
    constructor.
Qed.

(** The redirect interceptor invokes no callback. *)
Lemma emits_checkRedirectFunc P req via c :
  emits_at P (checkRedirectFunc req via) c.
Proof.
  unfold checkRedirectFunc, redirectRevisit, reopenBody.
  emits_basic; first [apply emits_store_IsVisited | apply emits_store_Visited].
Qed.

Lemma emits_followRedirects hops final via current c :
  emits_at is_RoundTrip (followRedirects hops final via current) c.
Proof.
  revert via current c.
  induction hops as [| hop hops IH]; intros via current c; simpl.
  - emits_basic.
  - intros r c' ev.
    pose proof (emits_checkRedirectFunc is_RoundTrip (hop_request hop) via c) as Hc.
    specialize (Hc (fst (fst (checkRedirectFunc (hop_request hop) via c)))
                   (snd (fst (checkRedirectFunc (hop_request hop) via c)))
                   (snd (checkRedirectFunc (hop_request hop) via c))).
    destruct (checkRedirectFunc (hop_request hop) via c)
      as [[[req' | e0 |] c1] ev1]; simpl in Hc.
    + destruct ((bind (emit [EvRoundTrip req'])
                      (fun _ => followRedirects hops final (via ++ [req']) (Some req')))
                  c1) as [[r2 c2] ev2] eqn:Hnext.
      intros [= <- <- <-]. apply Forall_app. split; [now apply Hc |].
      revert Hnext. apply emits_bind; [apply emits_emit; now repeat constructor |].
      intros. apply IH.
    + destruct e0; intros [= <- <- <-]; now apply Hc.
    + intros [= <- <- <-]. now apply Hc.
Qed.

Lemma emits_Client_Do req x c : emits_at is_RoundTrip (Client_Do req x) c.
Proof.
  unfold Client_Do. apply emits_bind; [apply emits_emit; now repeat constructor |].
  intros. apply emits_followRedirects.
Qed.

Lemma orders_backend_Cache request req x c :
  orders_at [is_RoundTrip; is_OnResponseHeaders]
            (attempt (backend_Cache req (checkHeadersFunc request) x)) c.
Proof.
  apply orders_attempt. unfold backend_Cache.
  apply orders_bind; [apply emits_Client_Do |]. intros answer c1 ev1 _. cbv zeta.
  apply orders_skip.
  apply orders_bind; [apply emits_checkHeadersFunc |]. intros checked c2 ev2 _.
  destruct (fst checked); [apply orders_ret | apply orders_fail].
Qed.

(** The report of an extraction error leaves Error events only. *)
Lemma emits_report (response : Response) (o : option error) request ctx c :
  emits_at is_OnError
    match o with
    | Some err =>
        bind (handleOnError (Some response) (Some err) request ctx) (fun _ => ret tt)
    | None => ret tt
    end c.
Proof.
  destruct o; [| apply emits_ret].
  apply emits_bind; [apply emits_handleOnError | intros; apply emits_ret].
Qed.

Lemma orders_deliver response request ctx c :
  orders_at [is_OnResponse; is_OnHTML; is_OnError; is_OnXML; is_OnError; is_OnScraped]
            (deliver response request ctx) c.
Proof.
  unfold deliver.
  apply orders_bind.
  { intros r c' ev [= <- <- <-]. constructor. }
  intros n c1 ev1 _.
  destruct response as [response |]; [| apply orders_panic].
  apply orders_bind; [apply emits_get |]. intros c2 c3 ev2 _.
  destruct (fixCharset _ _ _ _) as [text | body]; [apply orders_fail |].
  cbv zeta.
  apply orders_bind; [apply emits_handleOnResponse |]. intros [] c4 ev4 _.
  apply orders_skip.
  apply orders_bind; [apply emits_handleOnHTML |]. intros html c5 ev5 _.
  apply orders_skip.
  apply orders_bind; [apply emits_report |]. intros [] c6 ev6 _.
  apply orders_skip.
  apply orders_bind; [apply emits_handleOnXML |]. intros xml c7 ev7 _.
  cbv zeta. apply orders_skip.
  apply orders_bind; [apply emits_report |]. intros [] c8 ev8 _.
  apply orders_skip.
  apply orders_bind; [apply emits_handleOnScraped |]. intros [] c9 ev9 _.
  destruct (snd xml); [apply orders_fail | apply orders_ret].
Qed.

(** After the exchange: an error, given or made from the status, is
    reported and ends the fetch; otherwise the response is delivered. *)
Lemma either_order_after_exchange response err request ctx c :
  either_order_at
    [is_OnError]
    [is_OnResponse; is_OnHTML; is_OnError; is_OnXML; is_OnError; is_OnScraped]
    (bind (handleOnError response err request ctx)
          (fun err => match err with
                      | Some err => fail err
                      | None => deliver response request ctx
                      end)) c.
Proof.
  intros r c' ev. unfold bind.
  pose proof (emits_handleOnError response err request ctx c) as Hemits.
  destruct (handleOnError response err request ctx c) as [[[o | e |] c1] ev1] eqn:Hh.
  - destruct (handleOnError_run _ _ _ _ _ _ _ _ Hh) as [-> ->].
    destruct o as [e |].
    + intros [= <- <- <-]. left.
      apply in_order_block; [exact (Hemits _ _ _ Hh) | constructor].
    + destruct (deliver response request ctx c) as [[r2 c2] ev2] eqn:Hd.
      intros [= <- <- <-]. right. exact (orders_deliver _ _ _ _ _ _ _ Hd).
  - intros [= <- <- <-]. left. rewrite <- (app_nil_r ev1).
    apply in_order_block; [exact (Hemits _ _ _ Hh) | constructor].
  - intros [= <- <- <-]. left. rewrite <- (app_nil_r ev1).
    apply in_order_block; [exact (Hemits _ _ _ Hh) | constructor].
Qed.

(** X17. The callbacks of one [fetch] come in the order of the pipeline,
    in one of two shapes. Either the fetch ends with the exchange
    (aborted by a callback, failed, or answered with an error status):
    then its events are the Request callbacks, the round trips of the
    exchange (one for the request and one for every redirect followed),
    the ResponseHeaders callbacks and the Error callbacks, in this order,
    and nothing after them. Or the response is delivered: then no Error
    callback follows the exchange, and the events are the Request
    callbacks, the round trips, the ResponseHeaders callbacks, the
    Response callbacks, the HTML callbacks, the Error callbacks for a
    failed HTML extraction, the XML callbacks, the Error callbacks for a
    failed XML extraction, and the Scraped callbacks, in this order. Any
    of these blocks may be empty. *)
Theorem fetch_in_order (c c' : Collector S) (u method : string) (depth : Z)
    (requestData : option Reader) (ctx : option Ctx) (hdr : Header)
    (req : HttpRequest) (x : Exchange) (r : result unit) (ev : list Event) :
  fetch u method depth requestData ctx hdr req x c = (r, c', ev) ->
  in_order stages_exchange ev \/ in_order stages_delivered ev.
Proof.
  unfold fetch.
  destruct (fetch_body u method depth requestData ctx hdr req x c)
    as [[r1 c1] ev1] eqn:Hbody.
  intros [= <- <- <-]. revert Hbody. generalize r1 c1 ev1.
  change (either_order_at stages_exchange stages_delivered
            (fetch_body u method depth requestData ctx hdr req x) c).
  unfold fetch_body, stages_exchange, stages_delivered. cbv zeta.
  apply either_order_bind.
  { intros r0 c0 ev0 [= <- <- <-]. constructor. }
  intros id c2 ev2 _.
  apply either_order_bind; [apply emits_handleOnRequest |]. intros request c3 ev3 _.
  destruct (rq_abort request); [apply either_order_ret |].
  apply either_order_skip.
  apply (either_order_seq [is_RoundTrip; is_OnResponseHeaders]);
    [apply orders_backend_Cache |].
  intros answer c4 ev4 _.
  apply either_order_after_exchange.
Qed.

End FetchOrder.

(** ** Rejected requests *)

Section ScrapeSilence.
Context `{Platform} {S : Type} `{Storage S}.
Implicit Type c : Collector S.







End ScrapeSilence.

(** ** The properties at work *)

Lemma checkRobots_cached_witness :
  let rules : RobotsData :=
    fun _ => Some (fun path => negb (String.prefix "/private" path)) in
  let c := set_robotsMap (Init 1) {[ "a.com"%string := rules ]} in
  let x' := {| x_hops := []; x_final := inl "no route to host"%string |} in
  @checkRobots Sample.platform _ _ (Sample.httpURL "a.com" "/private/x") x' c
  = (Err ErrRobotsTxtBlocked, c, []).
Proof.
  intros rules c x'.
  destruct (@checkRobots_cached Sample.platform InMemoryStorage _
              (Sample.httpURL "a.com" "/private/x") x' c rules eq_refl)
    as (r & Hr & Hblocked & _).
  rewrite (Hr x'). f_equal. f_equal.
  apply Hblocked. exists (fun path => negb (String.prefix "/private" path)).
  split; reflexivity.
Defined.

Lemma checkRobots_once_per_host_witness :
  let x := {| x_hops := []; x_final := inr (Sample.ok200 "Disallow: /private") |} in
  let run := @checkRobots Sample.platform _ _ (Sample.httpURL "a.com" "/") x (Init 1) in
  is_Some (robotsMap (snd (fst run)) !! "a.com"%string)
  /\ exists r',
       @checkRobots Sample.platform _ _ (Sample.httpURL "a.com" "/private/x") x
                    (snd (fst run))
       = (r', snd (fst run), [])
       /\ (r' = Ok tt \/ r' = Err ErrRobotsTxtBlocked).
Proof.
  intros x run.
  assert (Hrun : @checkRobots Sample.platform _ _ (Sample.httpURL "a.com" "/") x (Init 1)
                 = (Ok tt, snd (fst run), snd run)) by (vm_compute; reflexivity).
  exact (@checkRobots_once_per_host Sample.platform InMemoryStorage _
           (Sample.httpURL "a.com" "/") (Sample.httpURL "a.com" "/private/x")
           x x (Init 1) (snd (fst run)) (Ok tt) (snd run)
           Hrun (or_introl eq_refl) eq_refl).
Defined.


Lemma scrape_wg_balanced_witness :
  let net := Sample.direct (Sample.ok200 "hello") in
  let c := NewCollector 1 [Options.Async true] in
  let run := @scrape Sample.platform _ _ "http://a.com/" "GET" 1
               None None None true net c in
  wg (snd (fst run)) = wg c + 1.
Proof.
  intros net c run.
  assert (Hrun : @scrape Sample.platform _ _ "http://a.com/" "GET" 1
                   None None None true net c
                 = (Ok tt, snd (fst run), snd run)) by (vm_compute; reflexivity).
  exact (proj1 (proj2 (@scrape_wg_balanced Sample.platform InMemoryStorage _
                         c (snd (fst run)) "http://a.com/" "GET" 1
                         None None None true net (Ok tt) (snd run) Hrun))
           eq_refl eq_refl).
Defined.




Lemma handleOnError_outcome_witness :
  let c := NewCollector 1 [Options.OnError "log"%string] in
  let u := Sample.httpURL "a.com" "/" in
  let notFound := {| rs_StatusCode := 404; rs_Body := []; rs_Ctx := None;
                     rs_Request := None; rs_Headers := ∅ |} in
  exists c',
    @handleOnError InMemoryStorage (Some notFound) None
                   (Sample.asRequest (Sample.getRequest u) 1) ∅ c
    = (Ok (Some (ErrStatusText 404)), c', [EvOnError "log" (ErrStatusText 404)]).
Proof.
  intros c u notFound.
  destruct (@handleOnError_outcome InMemoryStorage c notFound None
              (Sample.asRequest (Sample.getRequest u) 1) ∅)
    as (returned & c' & Hrun & _ & _ & _ & Hstatus).
  exists c'. rewrite Hrun, Hstatus; [reflexivity | reflexivity |].
  vm_compute. intros [_ [Hparse | Hlow]]; discriminate.
Defined.


Lemma OnHTMLDetach_first_witness :
  let c := NewCollector 1 [Options.OnHTML "a[href]" "first"; Options.OnHTML "p" "second";
                           Options.OnHTML "a[href]" "third"] in
  htmlCallbacks (OnHTMLDetach "a[href]" c)
  = [mkHtmlCallbackContainer "p" "second"; mkHtmlCallbackContainer "a[href]" "third"].
Proof.
  intros c.
  rewrite (proj1 (@OnHTMLDetach_first InMemoryStorage c "a[href]" "first")
             [] (mkHtmlCallbackContainer "a[href]" "first")
             [mkHtmlCallbackContainer "p" "second";
              mkHtmlCallbackContainer "a[href]" "third"]
             eq_refl ltac:(constructor) eq_refl).
  reflexivity.
Defined.

Lemma OnXMLDetach_first_witness :
  let c := NewCollector 1 [Options.OnXML "//item" "first"] in
  OnXMLDetach "//title" c = c
  /\ OnXMLDetach "//title" (Options.OnXML "//title" "second" c) = c.
Proof.
  intros c.
  apply (proj2 (@OnXMLDetach_first InMemoryStorage c "//title" "second")).
  repeat constructor. discriminate.
Defined.

Lemma HasVisited_after_Visit_witness :
  let net := Sample.direct (Sample.ok200 "hello") in
  let run := @Visit Sample.platform _ _ "http://a.com" net net (Init 1) in
  @HasVisited Sample.platform Sample.formEncoding _ _ "http://a.com" (snd (fst run))
  = (Ok true, snd (fst run), []).
Proof.
  intros net run.
  assert (Hrun : @Visit Sample.platform _ _ "http://a.com" net net (Init 1)
                 = (Ok tt, snd (fst run), snd run)) by (vm_compute; reflexivity).
  apply (@HasVisited_after_Visit Sample.platform Sample.formEncoding
           InMemoryStorage _ InMemoryStorage_laws (Init 1) (snd (fst run))
           "http://a.com" net net (snd run)); [reflexivity | reflexivity | | exact Hrun].
  intros href parsedURL Hhref Hparsed.
  vm_compute in Hhref. injection Hhref as <-.
  vm_compute in Hparsed. injection Hparsed as <-.
  reflexivity.
Defined.

Lemma HasPosted_after_Post_witness :
  let net := Sample.direct (Sample.ok200 "hello") in
  let form : gmap string string := {[ "q"%string := "colly"%string ]} in
  let run := @Post Sample.platform Sample.formEncoding _ _ "http://a.com/b" form net
               (Init 1) in
  @HasPosted Sample.platform Sample.formEncoding _ _ "http://a.com/b" form
             (snd (fst run))
  = (Ok true, snd (fst run), []).
Proof.
  intros net form run.
  assert (Hrun : @Post Sample.platform Sample.formEncoding _ _ "http://a.com/b" form
                   net (Init 1)
                 = (Ok tt, snd (fst run), snd run)) by (vm_compute; reflexivity).
  apply (@HasPosted_after_Post Sample.platform Sample.formEncoding
           InMemoryStorage _ InMemoryStorage_laws (Init 1) (snd (fst run))
           "http://a.com/b" form net (snd run)); [reflexivity | | exact Hrun].
  intros href parsedURL Hhref Hparsed.
  vm_compute in Hhref. injection Hhref as <-.
  vm_compute in Hparsed. injection Hparsed as <-.
  reflexivity.
Defined.

Lemma fetch_error_reported_witness :
  let c := NewCollector 1 [Options.OnError "log"%string] in
  let notFound := {| rs_StatusCode := 404; rs_Body := []; rs_Ctx := None;
                     rs_Request := None; rs_Headers := ∅ |} in
  let run := @fetch Sample.platform _ _ "http://a.com/" "GET" 1 None None ∅
               (Sample.getRequest (Sample.httpURL "a.com" "/"))
               (net_fetch (Sample.direct notFound)) c in
  exists pre post,
    snd run = pre ++ [EvOnError "log" (ErrStatusText 404)] ++ post.
Proof.
  intros c notFound run.
  assert (Hrun : @fetch Sample.platform _ _ "http://a.com/" "GET" 1 None None ∅
                   (Sample.getRequest (Sample.httpURL "a.com" "/"))
                   (net_fetch (Sample.direct notFound)) c
                 = (Err (ErrStatusText 404), snd (fst run), snd run))
    by (vm_compute; reflexivity).
  destruct (@fetch_error_reported Sample.platform InMemoryStorage _ c (snd (fst run))
              "http://a.com/" "GET" 1 None None ∅
              (Sample.getRequest (Sample.httpURL "a.com" "/"))
              (net_fetch (Sample.direct notFound)) (ErrStatusText 404) (snd run) Hrun)
    as [Hreported | (encoding & headers & body & text & _ & Hcharset)].
  - exact Hreported.
  - discriminate Hcharset.
Defined.

Lemma fetch_in_order_witness :
  let c := NewCollector 1 [Options.OnScraped "done"%string;
                           Options.OnHTML "a[href]" "links";
                           Options.OnResponse "save"%string;
                           Options.OnRequest (mkRequestCallback "sign" (fun r => r))] in
  let page := Sample.withContentType (Sample.ok200 "<a href=x>") "text/html" in
  let run := @fetch Sample.platform _ _ "http://a.com/" "GET" 1 None None ∅
               (Sample.getRequest (Sample.httpURL "a.com" "/"))
               (net_fetch (Sample.direct page)) c in
  length (snd run) = 5%nat
  /\ (in_order stages_exchange (snd run) \/ in_order stages_delivered (snd run)).
Proof.
  intros c page run. split; [vm_compute; reflexivity |].
  assert (Hrun : @fetch Sample.platform _ _ "http://a.com/" "GET" 1 None None ∅
                   (Sample.getRequest (Sample.httpURL "a.com" "/"))
                   (net_fetch (Sample.direct page)) c
                 = (fst (fst run), snd (fst run), snd run))
    by (vm_compute; reflexivity).
  exact (@fetch_in_order Sample.platform InMemoryStorage _ c (snd (fst run))
           "http://a.com/" "GET" 1 None None ∅
           (Sample.getRequest (Sample.httpURL "a.com" "/"))
           (net_fetch (Sample.direct page)) (fst (fst run)) (snd run) Hrun).
Defined.

(** The two shapes leave no room for a Response callback after an Error
    callback of the exchange: such a sequence of events is in neither. *)
Example fetch_order_no_response_after_error :
  let ev := [EvOnError "log" (ErrStatusText 404); EvOnResponse "save";
             EvOnScraped "done"] in
  ~ (in_order stages_exchange ev \/ in_order stages_delivered ev).
Proof.
  intros ev [Hshape | Hshape]; unfold ev, stages_exchange, stages_delivered in Hshape;
    repeat (match goal with
            | H : in_order _ (_ :: _) |- _ => inversion H; subst; clear H
            end; simpl in *; try contradiction).
Qed.

